(** * Amplify upload / poll / chat scripts: a shallow embedding

    Two Python scripts are embedded here:
    - [doc_sum.py]: upload one file, poll its status, ask for a summary;
    - [document_analyzer.py]: scan a directory, upload every supported file,
      poll the recent-files listing for each, ask for a Windows command
      script and write it to [organization_commands.bat].

    Values parsed from JSON are the inductive type [json]; Python
    exceptions are the type [exn]; code that talks to the outside (the
    environment, the file system, the network, the terminal) runs in the
    monad [M], which threads a [world] and keeps it when an exception is
    raised. *)

From Stdlib Require Import ZArith String Ascii List Lia DecimalString.
From stdpp Require Import base gmap strings list.
Import ListNotations.
Open Scope Z_scope.

(** ** Python values and exceptions *)

Module Py.

(** What [response.json()] can return. A [dict] is kept as its list of
    items in insertion order (which [json.dumps] follows); its keys are
    distinct, so [dict_get] may stop at the first hit. [JFloat m e] is the
    number m * 10^e. [JNull] is Python's [None]. *)
#[warnings="-register-all"]
Inductive json : Type :=
| JNull
| JBool (b : bool)
| JInt (n : Z)
| JFloat (m e : Z)
| JStr (s : string)
| JArr (items : list json)
| JObj (members : list (string * json)).

(** The exception classes the two scripts can meet. The first five are
    subclasses of [requests.exceptions.RequestException] (the JSON one
    since requests 2.27); [SystemExit] is a [BaseException] that
    [except Exception] does not catch. *)
Inductive exn : Type :=
| ConnectionError
| Timeout
| InvalidURL
| HTTPError (status : Z)
| JSONDecodeError
| AttributeError
| TypeError
| KeyError
| OSError
| ValueError
| TimeoutExpired
| SystemExit (code : Z).

Definition is_RequestException (e : exn) : bool :=
  match e with
  | ConnectionError | Timeout | InvalidURL | HTTPError _ | JSONDecodeError => true
  | _ => false
  end.

Definition is_Exception (e : exn) : bool :=
  match e with
  | SystemExit _ => false
  | _ => true
  end.

(** Outcome of a piece of Python code without side effects. *)
Inductive result (A : Type) : Type :=
| Ret (a : A)
| Raise (e : exn).
Arguments Ret {A} a.
Arguments Raise {A} e.


Definition rbind {A B} (r : result A) (k : A -> result B) : result B :=
  match r with
  | Ret a => k a
  | Raise e => Raise e
  end.

(** [bool(v)] *)
Definition truthy (v : json) : bool :=
  match v with
  | JNull => false
  | JBool b => b
  | JInt n => negb (n =? 0)
  | JFloat m _ => negb (m =? 0)
  | JStr s => negb (String.eqb s EmptyString)
  | JArr [] => false
  | JArr (_ :: _) => true
  | JObj [] => false
  | JObj (_ :: _) => true
  end.

Definition isinstance_dict (v : json) : bool :=
  match v with JObj _ => true | _ => false end.

Definition isinstance_str (v : json) : bool :=
  match v with JStr _ => true | _ => false end.

(** [v == s] for a string literal [s] *)
Definition eq_str (v : json) (s : string) : bool :=
  match v with
  | JStr t => String.eqb t s
  | _ => false
  end.

Fixpoint dict_get (members : list (string * json)) (k : string) : option json :=
  match members with
  | [] => None
  | (k', v) :: rest => if String.eqb k' k then Some v else dict_get rest k
  end.

(** [v.get(k, dflt)]: only a dict has [get]. *)
Definition get_default (v : json) (k : string) (dflt : json) : result json :=
  match v with
  | JObj members =>
      match dict_get members k with
      | Some x => Ret x
      | None => Ret dflt
      end
  | _ => Raise AttributeError
  end.

(** [v.get(k)] *)
Definition get (v : json) (k : string) : result json :=
  get_default v k JNull.


(** *** json.dumps with its default arguments

    A float is written as its mantissa and exponent, which is not the
    [repr] that Python writes; nothing below depends on how a number is
    written, only on the text being there. *)

Definition dec (n : Z) : string := NilZero.string_of_int (Z.to_int n).







End Py.
Import Py.

(** ** document_analyzer.py: text extraction from a chat response *)

Module Extract.



(** Outcome of a [try] block that contains [return] statements:
    [Ret (Some s)] the function returned [s], [Ret None] the block ran to
    its end, [Raise e] it raised. *)






End Extract.

(** ** os.path

    [posixpath] when [windows] is false, [ntpath] when it is true. A path
    is the Rocq string of its bytes. *)

Module Path.

Definition is_sep (windows : bool) (c : ascii) : bool :=
  if windows then (c =? "\")%char || (c =? "/")%char else (c =? "/")%char.

Definition sep (windows : bool) : ascii :=
  if windows then "\"%char else "/"%char.

Fixpoint last_char (s : string) : option ascii :=
  match s with
  | EmptyString => None
  | String c EmptyString => Some c
  | String _ rest => last_char rest
  end.

Definition first_char (s : string) : option ascii :=
  match s with
  | EmptyString => None
  | String c _ => Some c
  end.

(** A path that is only a drive, as in [C:] *)
Definition bare_drive (a : string) : bool :=
  match a with
  | String _ (String c EmptyString) => (c =? ":")%char
  | _ => false
  end.

(** What [join(a, name)] puts in front of [name]. *)
Definition dir_prefix (windows : bool) (a : string) : string :=
  match last_char a with
  | None => a
  | Some c =>
      if is_sep windows c then a
      else if windows && bare_drive a then a
      else a +:+ String (sep windows) EmptyString
  end.

(** [os.path.join(a, b)]. With [posixpath] this is the library function
    for two arguments. With [ntpath] it is the library function when [b]
    has no drive and no leading separator, which is the case of every call
    in the two scripts (a directory entry, a base name, a literal file
    name); for another [b] the model answers [b]. *)
Definition join (windows : bool) (a b : string) : string :=
  match first_char b with
  | Some c => if is_sep windows c then b else dir_prefix windows a +:+ b
  | None => dir_prefix windows a +:+ b
  end.

(** [split_last p s]: [s] cut in front of its last character that
    satisfies [p]. *)
Fixpoint split_last (p : ascii -> bool) (s : string) : option (string * string) :=
  match s with
  | EmptyString => None
  | String c rest =>
      match split_last p rest with
      | Some (a, b) => Some (String c a, b)
      | None => if p c then Some (EmptyString, s) else None
      end
  end.

Fixpoint all_chars (p : ascii -> bool) (s : string) : bool :=
  match s with
  | EmptyString => true
  | String c rest => p c && all_chars p rest
  end.

Fixpoint rstrip_seps (windows : bool) (s : string) : string :=
  match s with
  | EmptyString => EmptyString
  | String c rest =>
      match rstrip_seps windows rest with
      | EmptyString => if is_sep windows c then EmptyString else String c EmptyString
      | r => String c r
      end
  end.

(** [ntpath.splitdrive] for a drive letter ([C:]); a UNC prefix is not
    taken apart. *)
Definition splitdrive (windows : bool) (p : string) : string * string :=
  match p with
  | String a (String c rest) =>
      if windows && (c =? ":")%char
      then (String a (String c EmptyString), rest)
      else (EmptyString, p)
  | _ => (EmptyString, p)
  end.

(** [os.path.split(p)]: the head runs up to the last separator and loses
    its trailing separators, unless it is made of separators only; such a
    head is kept whole by [posixpath] and cut to the root by [ntpath]. *)
Definition split (windows : bool) (p : string) : string * string :=
  let (drive, rest) := splitdrive windows p in
  match split_last (is_sep windows) rest with
  | Some (a, String c tail) =>
      let head := a +:+ String c EmptyString in
      (drive +:+
       (if all_chars (is_sep windows) head
        then (if windows then String c EmptyString else head)
        else rstrip_seps windows head), tail)
  | _ => (drive, rest)
  end.

Definition basename (windows : bool) (p : string) : string := snd (split windows p).
Definition dirname (windows : bool) (p : string) : string := fst (split windows p).

(** [os.path.splitext(p)[1]]: from the last dot of the last component,
    unless only dots stand before it in that component. *)
Definition splitext_ext (windows : bool) (p : string) : string :=
  let name :=
    match split_last (is_sep windows) p with
    | Some (_, String _ tail) => tail
    | _ => p
    end in
  match split_last (fun c => (c =? ".")%char) name with
  | Some (stem, ext) =>
      if all_chars (fun c => (c =? ".")%char) stem then EmptyString else ext
  | None => EmptyString
  end.

(** [str.lower] on the ASCII letters, which is all of [str.lower] that
    the test against the allow-list of extensions can see in a name made
    of code points below 256. *)
Definition lower_char (c : ascii) : ascii :=
  let n := N_of_ascii c in
  if ((65 <=? n) && (n <=? 90))%N then ascii_of_N (n + 32) else c.

Fixpoint lower (s : string) : string :=
  match s with
  | EmptyString => EmptyString
  | String c rest => String (lower_char c) (lower rest)
  end.

End Path.

(** ** document_analyzer.py: the directory scanner *)

Module Scan.

(** A directory as [os.scandir] lists it: entries in the order of the
    listing, each a file or a directory with its own entries. *)
#[warnings="-register-all"]
Inductive node : Type :=
| File (name : string)
| Dir (name : string) (entries : list node).

Definition file_names (entries : list node) : list string :=
  omap (fun n => match n with File f => Some f | Dir _ _ => None end) entries.

Definition dir_names (entries : list node) : list string :=
  omap (fun n => match n with Dir d _ => Some d | File _ => None end) entries.

(** [os.walk(top)], top-down. The caller edits the yielded [dirs] list in
    place before the walk goes on, and the walk descends into what is left
    of it: [keep] is that edit, here always a filter. Each triple is
    [(root, dirs, files)] as yielded. *)
Fixpoint walk (windows : bool) (keep : string -> bool) (top : string) (n : node)
  : list (string * list string * list string) :=
  match n with
  | File _ => []
  | Dir _ entries =>
      (top, dir_names entries, file_names entries) ::
      (fix below (l : list node) : list (string * list string * list string) :=
         match l with
         | [] => []
         | File _ :: rest => below rest
         | (Dir d _ as sub) :: rest =>
             if keep d
             then walk windows keep (Path.join windows top d) sub ++ below rest
             else below rest
         end) entries
  end.

(** Lines 335-341 *)
Definition get_supported_file_extensions : list string :=
  [".py"; ".js"; ".ts"; ".java"; ".cpp"; ".c"; ".cs"; ".php"; ".rb"; ".go";
   ".rs"; ".swift"; ".kt"; ".scala"; ".r"; ".m"; ".pl"; ".sh"; ".sql"; ".html";
   ".css"; ".xml"; ".json"; ".yaml"; ".yml"; ".md"; ".txt"; ".pdf"; ".docx";
   ".pptx"; ".xlsx"].

(** Line 354 *)
Definition excluded_dirs : list string :=
  [".git"; "__pycache__"; "node_modules"; ".venv"; "venv"; "env"].

Definition str_in (s : string) (l : list string) : bool :=
  existsb (String.eqb s) l.

Definition keep_dir (d : string) : bool := negb (str_in d excluded_dirs).

(** Lines 357-358 *)
Definition supported (windows : bool) (file : string) : bool :=
  str_in (Path.lower (Path.splitext_ext windows file)) get_supported_file_extensions.

(** Lines 353-359: the paths appended to [supported_files], in order. *)
Definition scan_walk (windows : bool) (directory_path : string) (entries : list node)
  : list string :=
  walk windows keep_dir directory_path (Dir directory_path entries) ≫=
    (fun '(root, _, files) =>
       Path.join windows root <$> filter (fun f => supported windows f) files).

(** *** What the scanner is measured against *)








End Scan.

(** ** The outside world *)

Module World.

(** *** The file system

    A store from path to object. A directory carries the tree that
    [os.walk] finds below it. A file carries its bytes; a file written in
    text mode carries the text that was written. *)
Inductive fobj : Type :=
| FFile (content : string)
| FDir (entries : list Scan.node).

(** *** The network

    The two scripts talk to five endpoints below
    [https://prod-api.vanderbilt.ai] and to whatever URL the upload
    endpoint hands back. *)
Inductive endpoint : Type :=
| FilesUpload                 (* /files/upload *)
| FileStatus (file_id : json) (* /files/{file_id}/status *)
| FilesQuery                  (* /files/query *)
| Chat                        (* /chat *)
| Responses                   (* /responses *)
| Presigned (url : json).

Inductive verb : Type := GET | POST | PUT.

Inductive payload : Type :=
| NoBody
| Json (j : json)
| Bytes (b : string).

Record request : Type := Request {
  rq_verb : verb;
  rq_url : endpoint;
  rq_headers : list (string * string);
  rq_body : payload;
  rq_timeout : option Z
}.

(** What [requests] itself can raise before there is a response. *)
Inductive net_error : Type := NoConnection | TimedOut | BadURL.

Definition exn_of_net_error (e : net_error) : exn :=
  match e with
  | NoConnection => ConnectionError
  | TimedOut => Timeout
  | BadURL => InvalidURL
  end.

(** A response: status code, body text, and the body parsed as JSON when
    it parses. *)
Record response : Type := Response {
  status_code : Z;
  text : string;
  parsed : option json
}.

Inductive reply : Type :=
| Fails (e : net_error)
| Responds (r : response).

(** *** robocopy

    One run of the copy utility: it cannot be started or does not end in
    time (the call raises), or it ends and has left [copied] in the
    destination folder ([None]: nothing). *)
Inductive robocopy_run : Type :=
| RunNotStarted   (* subprocess.run raises OSError *)
| RunTimesOut     (* subprocess.run raises TimeoutExpired *)
| RunEnds (copied : option string).

(** *** What the program does to the outside, in order *)

Inductive frag : Type :=
| Lit (s : string)
| Val (v : json)       (* a value formatted by [str] *)
| Indented (v : json)  (* [json.dumps(v, indent=2)] *)
| Exc (e : exn).

Inductive event : Type :=
| Print (line : list frag)
| Http (rq : request) (rp : reply)
| Sleep (seconds : Z)
| Ran (cmd : list string) (timeout : Z)
| Wrote (path : string) (content : string).

Record world : Type := MkWorld {
  environ_key : option string;           (* AMPLIFY_API_KEY after load_dotenv() *)
  windows : bool;                        (* platform.system() == "Windows" *)
  fs : gmap string fobj;
  file_attributes : string -> option Z;  (* GetFileAttributesW; None: the call raises *)
  guess_type : string -> option string;  (* mimetypes.guess_type(path)[0] *)
  relpath : string -> string -> string;  (* os.path.relpath(path, start) *)
  yesterday : string;                    (* (now - 1 day).strftime("%Y-%m-%dT00:00:00Z") *)
  rmtree_ok : string -> bool;            (* may the tree at this path be removed *)
  network : list reply;                  (* the replies to the requests still to come *)
  tmp_names : list string;               (* the names mkdtemp will pick *)
  robocopy : list robocopy_run;          (* the runs of robocopy still to come *)
  trace : list event
}.

Definition set_fs (f : gmap string fobj) (w : world) : world :=
  MkWorld (environ_key w) (windows w) f (file_attributes w) (guess_type w)
    (relpath w) (yesterday w) (rmtree_ok w) (network w) (tmp_names w) (robocopy w) (trace w).

Definition set_network (n : list reply) (w : world) : world :=
  MkWorld (environ_key w) (windows w) (fs w) (file_attributes w) (guess_type w)
    (relpath w) (yesterday w) (rmtree_ok w) n (tmp_names w) (robocopy w) (trace w).

Definition set_tmp_names (n : list string) (w : world) : world :=
  MkWorld (environ_key w) (windows w) (fs w) (file_attributes w) (guess_type w)
    (relpath w) (yesterday w) (rmtree_ok w) (network w) n (robocopy w) (trace w).

Definition set_robocopy (n : list robocopy_run) (w : world) : world :=
  MkWorld (environ_key w) (windows w) (fs w) (file_attributes w) (guess_type w)
    (relpath w) (yesterday w) (rmtree_ok w) (network w) (tmp_names w) n (trace w).

Definition log (e : event) (w : world) : world :=
  MkWorld (environ_key w) (windows w) (fs w) (file_attributes w) (guess_type w)
    (relpath w) (yesterday w) (rmtree_ok w) (network w) (tmp_names w) (robocopy w) (trace w ++ [e]).

(** *** The monad: a world in, an outcome and a world out *)

Definition M (A : Type) : Type := world -> result A * world.

Definition ret {A} (a : A) : M A := fun w => (Ret a, w).

Definition raise {A} (e : exn) : M A := fun w => (Raise e, w).

Definition bind {A B} (c : M A) (k : A -> M B) : M B :=
  fun w =>
    match c w with
    | (Ret a, w') => k a w'
    | (Raise e, w') => (Raise e, w')
    end.

Definition lift {A} (r : result A) : M A := fun w => (r, w).

(** [attempt c] runs [c] and hands its outcome over as a value. *)
Definition attempt {A} (c : M A) : M (result A) :=
  fun w => let (r, w') := c w in (Ret r, w').

(** [try: c  except <classes>: h] *)
Definition try_except {A} (c : M A) (catches : exn -> bool) (h : exn -> M A) : M A :=
  fun w =>
    match c w with
    | (Raise e, w') => if catches e then h e w' else (Raise e, w')
    | done => done
    end.

(** [try: c  finally: cleanup] *)
Definition try_finally {A} (c : M A) (cleanup : M unit) : M A :=
  fun w =>
    let (r, w') := c w in
    match cleanup w' with
    | (Ret _, w'') => (r, w'')
    | (Raise e, w'') => (Raise e, w'')
    end.

Declare Scope M_scope.
Delimit Scope M_scope with M.
Bind Scope M_scope with M.
Notation "x <- c ;; k" := (bind c (fun x => k))
  (at level 100, c at next level, right associativity) : M_scope.
Notation "c ;;; k" := (bind c (fun _ => k))
  (at level 100, right associativity) : M_scope.
Open Scope M_scope.

(** *** Primitives *)

Definition print (line : list frag) : M unit :=
  fun w => (Ret tt, log (Print line) w).

(** [time.sleep(seconds)] refuses a negative length. *)
Definition time_sleep (seconds : Z) : M unit :=
  fun w =>
    if seconds <? 0 then (Raise ValueError, w)
    else (Ret tt, log (Sleep seconds) w).

Definition os_getenv_key : M (option string) :=
  fun w => (Ret (environ_key w), w).

Definition platform_is_windows : M bool :=
  fun w => (Ret (windows w), w).

(** [mimetypes.guess_type(path)[0]] *)
Definition mimetypes_guess_type (path : string) : M (option string) :=
  fun w => (Ret (guess_type w path), w).

(** [os.path.relpath(path, start)] *)
Definition os_path_relpath (path start : string) : M string :=
  fun w => (Ret (relpath w path start), w).

(** [(datetime.datetime.now() - datetime.timedelta(days=1)).strftime(...)] *)
Definition start_of_yesterday : M string :=
  fun w => (Ret (yesterday w), w).

(** [GetFileAttributesW(path)]; [None] when the call raises. *)
Definition GetFileAttributesW (path : string) : M (option Z) :=
  fun w => (Ret (file_attributes w path), w).

Definition os_path_exists (p : string) : M bool :=
  fun w => (Ret (negb (String.eqb p EmptyString) && bool_decide (is_Some (fs w !! p))), w).

Definition os_path_isdir (p : string) : M bool :=
  fun w => (Ret (negb (String.eqb p EmptyString) &&
                 match fs w !! p with Some (FDir _) => true | _ => false end), w).

Definition is_file (p : string) : M bool :=
  fun w => (Ret (negb (String.eqb p EmptyString) &&
                 match fs w !! p with Some (FFile _) => true | _ => false end), w).

(** [os.path.getsize(p)] *)
Definition os_path_getsize (p : string) : M Z :=
  fun w =>
    match fs w !! p with
    | Some (FFile c) => (Ret (Z.of_nat (String.length c)), w)
    | Some (FDir _) => (Ret 0, w)
    | None => (Raise OSError, w)
    end.

(** [open(p, "rb").read()] *)
Definition read_bytes (p : string) : M string :=
  fun w =>
    match fs w !! p with
    | Some (FFile c) => (Ret c, w)
    | _ => (Raise OSError, w)
    end.

(** One call of [requests.get/post/put]: the next reply of the network,
    or a connection error when the network has nothing more to say. *)
Definition requests_send (rq : request) : M response :=
  fun w =>
    match network w with
    | [] => (Raise ConnectionError, log (Http rq (Fails NoConnection)) w)
    | Fails e :: rest =>
        (Raise (exn_of_net_error e), log (Http rq (Fails e)) (set_network rest w))
    | Responds r :: rest =>
        (Ret r, log (Http rq (Responds r)) (set_network rest w))
    end.

(** [response.raise_for_status()] *)
Definition raise_for_status (r : response) : M unit :=
  if (400 <=? status_code r) && (status_code r <? 600)
  then raise (HTTPError (status_code r))
  else ret tt.

(** [response.json()] *)
Definition response_json (r : response) : M json :=
  match parsed r with
  | Some j => ret j
  | None => raise JSONDecodeError
  end.

(** Is [p] the directory [d] or something below it. *)
Definition under (win : bool) (d p : string) : bool :=
  String.eqb p d ||
  String.prefix (d +:+ String (Path.sep win) EmptyString) p ||
  (win && String.prefix (d +:+ "/") p).

(** [shutil.rmtree(d)] *)
Definition shutil_rmtree (d : string) : M unit :=
  fun w =>
    match fs w !! d with
    | Some (FDir _) =>
        if rmtree_ok w d
        then (Ret tt, set_fs (filter (fun kv => negb (under (windows w) d kv.1)) (fs w)) w)
        else (Raise OSError, w)
    | _ => (Raise OSError, w)
    end.

(** [tempfile.mkdtemp(prefix="onedrive_hydrate_")] *)
Definition tempfile_mkdtemp : M string :=
  fun w =>
    match tmp_names w with
    | [] => (Raise OSError, w)
    | d :: rest => (Ret d, set_fs (<[d := FDir []]> (fs w)) (set_tmp_names rest w))
    end.

(** [subprocess.run(["robocopy", src_dir, tmp_dir, file_name, "/J"], ...)] *)
Definition run_robocopy (src_dir tmp_dir file_name : string) (timeout : Z) : M unit :=
  fun w =>
    let w1 := log (Ran ["robocopy"; src_dir; tmp_dir; file_name; "/J"] timeout) w in
    match robocopy w with
    | [] => (Raise OSError, w1)
    | RunNotStarted :: rest => (Raise OSError, set_robocopy rest w1)
    | RunTimesOut :: rest => (Raise TimeoutExpired, set_robocopy rest w1)
    | RunEnds None :: rest => (Ret tt, set_robocopy rest w1)
    | RunEnds (Some bytes) :: rest =>
        (Ret tt,
         set_fs (<[Path.join (windows w) tmp_dir file_name := FFile bytes]> (fs w))
           (set_robocopy rest w1))
    end.

(** What [os.walk(p)] finds in the directory [p]. *)
Definition scandir_tree (p : string) : M (list Scan.node) :=
  fun w =>
    match fs w !! p with
    | Some (FDir entries) => (Ret entries, w)
    | _ => (Ret [], w)
    end.

(** [os.makedirs(d, exist_ok=True)]; the empty path is refused
    ([FileNotFoundError]); the ancestors it creates on the way are not
    recorded, nothing in the scripts looks at them. *)
Definition os_makedirs (d : string) : M unit :=
  fun w =>
    if String.eqb d EmptyString then (Raise OSError, w)
    else
      match fs w !! d with
      | Some (FDir _) => (Ret tt, w)
      | Some (FFile _) => (Raise OSError, w)
      | None => (Ret tt, set_fs (<[d := FDir []]> (fs w)) w)
      end.

(** [with open(p, "w", encoding="utf-8") as f: f.write(v)]. Opening
    truncates; [write] takes a [str] only. The file is given the text
    that was passed to [write]: how the text layer encodes it, and what
    it makes of a newline on Windows, is not looked at. *)
Definition write_text (p : string) (v : json) : M unit :=
  fun w =>
    match fs w !! p with
    | Some (FDir _) => (Raise OSError, w)
    | _ =>
        match v with
        | JStr s => (Ret tt, log (Wrote p s) (set_fs (<[p := FFile s]> (fs w)) w))
        | _ => (Raise TypeError, set_fs (<[p := FFile EmptyString]> (fs w)) w)
        end
    end.


End World.

Import World.

(** ** doc_sum.py *)

Module DocSum.

Section WithKey.

(** Line 13: the module-level constant, read once at start-up. *)
Variable AMPLIFY_API_KEY : string.

Definition actions : json :=
  JArr [JObj [("name", JStr "saveAsData")];
        JObj [("name", JStr "createChunks")];
        JObj [("name", JStr "ingestRag")];
        JObj [("name", JStr "makeDownloadable")];
        JObj [("name", JStr "extractText")]].

(** Lines 68-75 and 146-152: the handler of both [try] blocks. [response]
    is in [locals()] once [requests.post] has returned. *)
Definition on_request_error (what : string) (response : option response) (e : exn)
  : M unit :=
  print [Lit what; Exc e];;;
  match response with
  | Some r => print [Lit "⚠️ Server response: "; Lit (text r)]
  | None => ret tt
  end.

(** Lines 23-75 *)
Definition upload_file_to_amplify (file_path knowledge_base : string) (tags : json)
  : M json :=
  win <- platform_is_windows;;
  let file_name := Path.basename win file_path in
  mime <- mimetypes_guess_type file_path;;
  let mime_type :=
    match mime with
    | Some (String c m) => String c m
    | _ => "application/octet-stream"
    end in
  let headers :=
    [("Authorization", "Bearer " +:+ AMPLIFY_API_KEY);
     ("Content-Type", "application/json")] in
  let payload :=
    JObj [("type", JStr mime_type);
          ("name", JStr file_name);
          ("knowledgeBase", JStr knowledge_base);
          ("tags", if truthy tags then tags else JArr [JStr "document_summary"]);
          ("actions", actions);
          ("ragOn", JBool true)] in
  print [Lit "🔎 Upload payload: "; Indented payload];;;
  posted <- attempt (requests_send (Request POST FilesUpload headers (Json payload) (Some 50)));;
  match posted with
  | Raise e =>
      if is_RequestException e
      then on_request_error "❌ Upload error: " None e;;; ret JNull
      else raise e
  | Ret response =>
      try_except
        (raise_for_status response;;;
         upload_response <- response_json response;;
         print [Lit "✅ Upload response: "; Indented upload_response];;;
         presigned_url <- lift (get upload_response "uploadUrl");;
         (if truthy presigned_url then
            print [Lit "⏳ Uploading file bytes to presigned URL..."];;;
            f <- read_bytes file_path;;
            put_resp <- requests_send (Request PUT (Presigned presigned_url) [] (Bytes f) None);;
            raise_for_status put_resp;;;
            print [Lit "✅ File bytes uploaded successfully"]
          else ret tt);;;
         ret upload_response)
        is_RequestException
        (fun e => on_request_error "❌ Upload error: " (Some response) e;;; ret JNull)
  end.

(** Lines 85-105: the rounds of the loop that are left, [attempt_no]
    being the number of the next one, and what follows the loop. *)
Fixpoint poll (file_id : json) (max_attempts wait_seconds : Z)
    (rounds : nat) (attempt_no : Z) : M bool :=
  match rounds with
  | O =>
      print [Lit "❌ File did not become available in time."];;;
      ret false
  | S rounds' =>
      outcome <- attempt
        (response <- requests_send
           (Request GET (FileStatus file_id)
              [("Authorization", "Bearer " +:+ AMPLIFY_API_KEY)] NoBody (Some 30));;
         raise_for_status response;;;
         status_data <- response_json response;;
         state <- lift (get status_data "status");;
         print [Lit "⏳ Attempt "; Val (JInt attempt_no); Lit "/"; Val (JInt max_attempts);
                Lit " - File status: "; Val state];;;
         if eq_str state "ready" then
           print [Lit "✅ File is ready!"];;; ret (Some true)
         else if eq_str state "failed" then
           print [Lit "❌ File processing failed."];;; ret (Some false)
         else ret None);;
      match outcome with
      | Ret (Some b) => ret b
      | Ret None =>
          time_sleep wait_seconds;;;
          poll file_id max_attempts wait_seconds rounds' (attempt_no + 1)
      | Raise e =>
          if is_Exception e then
            print [Lit "⚠️ Error checking status: "; Exc e];;;
            time_sleep wait_seconds;;;
            poll file_id max_attempts wait_seconds rounds' (attempt_no + 1)
          else raise e
      end
  end.

(** Lines 81-105 *)
Definition wait_for_file_processing (file_id : json) (max_attempts wait_seconds : Z)
  : M bool :=
  poll file_id max_attempts wait_seconds (Z.to_nat max_attempts) 1.

(** Lines 111-152 *)
Definition summarize_document (file_path : string) : M unit :=
  print [Lit "=== Document Summarization Pipeline (Single File) ==="];;;
  print [Lit "📄 File: "; Lit file_path];;;
  upload_response <- upload_file_to_amplify file_path "summaries" JNull;;
  if negb (truthy upload_response) then
    print [Lit "❌ Upload failed."]
  else
    file_id <- lift (get upload_response "id");;
    if negb (truthy file_id) then
      print [Lit "❌ No file ID returned from API. Response was:"];;;
      print [Indented upload_response]
    else
      ready <- wait_for_file_processing file_id 10 20;;
      if negb ready then ret tt
      else
        win <- platform_is_windows;;
        let headers :=
          [("Authorization", "Bearer " +:+ AMPLIFY_API_KEY);
           ("Content-Type", "application/json")] in
        let payload :=
          JObj [("input", JStr ("Please summarize the document: " +:+
                                 Path.basename win file_path));
                ("fileIds", JArr [file_id]);
                ("conversation", JStr "reuse")] in
        posted <- attempt (requests_send (Request POST Responses headers (Json payload) (Some 120)));;
        match posted with
        | Raise e =>
            if is_RequestException e
            then on_request_error "❌ Summarization error: " None e
            else raise e
        | Ret response =>
            try_except
              (raise_for_status response;;;
               result <- response_json response;;
               summary <- lift (get_default result "outputText" (JStr "No summary returned."));;
               print [Lit "📑 Summary: "; Val summary])
              is_RequestException
              (on_request_error "❌ Summarization error: " (Some response))
        end.

End WithKey.

(** Lines 13-16 and 158-168: the script run as a program. *)
Definition main (argv : list string) : M unit :=
  key <- os_getenv_key;;
  match key with
  | Some (String c k) =>
      match argv with
      | _ :: file_path :: _ =>
          found <- is_file file_path;;
          if negb found then
            print [Lit "❌ File not found: "; Lit file_path];;;
            raise (SystemExit 1)
          else summarize_document (String c k) file_path
      | _ =>
          print [Lit "Usage: python doc_sum.py <file_path>"];;;
          raise (SystemExit 1)
      end
  | _ =>
      print [Lit "❌ Missing AMPLIFY_API_KEY in environment. Add it to your .env file."];;;
      raise (SystemExit 1)
  end.

End DocSum.

(** ** document_analyzer.py *)

Module DocumentAnalyzer.

Definition headers_t : Type := list (string * string).

(** Lines 34-41 *)
Definition validate_api_key : M (option string) :=
  key <- os_getenv_key;;
  match key with
  | Some (String c k) => ret (Some (String c k))
  | _ =>
      print [Lit "❌ Error: AMPLIFY_API_KEY not found in environment variables"];;;
      print [Lit "Please set your API key in a .env file or environment variable"];;;
      ret None
  end.

(** Lines 44-49 *)
Definition get_headers : M (option headers_t) :=
  key <- validate_api_key;;
  match key with
  | None => ret None
  | Some API_KEY =>
      ret (Some [("Content-Type", "application/json");
                 ("Authorization", "Bearer " +:+ API_KEY)])
  end.

(** Lines 52-89 *)
Definition query_files : M json :=
  headers <- get_headers;;
  match headers with
  | None => ret JNull
  | Some headers =>
      start_date <- start_of_yesterday;;
      let payload :=
        JObj [("data",
          JObj [("startDate", JStr start_date);
                ("pageSize", JInt 100);
                ("pageIndex", JInt 0);
                ("forwardScan", JBool true);
                ("sortIndex", JStr "createdAt");
                ("types", JArr (JStr <$>
                   ["text/plain"; "text/x-python"; "application/json"; "text/xml";
                    "text/html"; "application/pdf";
                    "application/vnd.openxmlformats-officedocument.wordprocessingml.document";
                    "application/vnd.openxmlformats-officedocument.spreadsheetml.sheet";
                    "application/vnd.openxmlformats-officedocument.presentationml.presentation"]));
                ("tags", JArr [])])] in
      try_except
        (response <- requests_send (Request POST FilesQuery headers (Json payload) (Some 30));;
         raise_for_status response;;;
         response_json response)
        is_RequestException
        (fun e => print [Lit "❌ Error querying files: "; Exc e];;; ret JNull)
  end.

(** Lines 93-94 *)
Definition FILE_ATTRIBUTE_OFFLINE : Z := 0x1000.
Definition FILE_ATTRIBUTE_RECALL_ON_OPEN : Z := 0x4000.

(** Lines 97-110 *)
Definition get_file_attributes_windows (path : string) : M (option Z) :=
  win <- platform_is_windows;;
  if negb win then ret None
  else
    raw <- GetFileAttributesW path;;
    match raw with
    | None => ret None
    | Some attrs => ret (if attrs =? 0xFFFFFFFF then None else Some attrs)
    end.

(** Lines 113-118 *)
Definition is_onedrive_placeholder (path : string) : M bool :=
  attrs <- get_file_attributes_windows path;;
  match attrs with
  | None => ret false
  | Some attrs =>
      ret (negb (Z.land attrs FILE_ATTRIBUTE_OFFLINE =? 0) ||
           negb (Z.land attrs FILE_ATTRIBUTE_RECALL_ON_OPEN =? 0))
  end.

(** [try: shutil.rmtree(d)  except Exception: pass] *)
Definition rmtree_quietly (d : string) : M unit :=
  try_except (shutil_rmtree d) is_Exception (fun _ => ret tt).

(** Lines 121-150 *)
Definition hydrate_file_with_robocopy (path : string) (timeout_seconds : Z)
  : M (option string) :=
  win <- platform_is_windows;;
  if negb win then ret None
  else
    let src_dir := Path.dirname win path in
    let file_name := Path.basename win path in
    tmp_dir <- tempfile_mkdtemp;;
    try_except
      (run_robocopy src_dir tmp_dir file_name timeout_seconds;;;
       let dest_path := Path.join win tmp_dir file_name in
       found <- os_path_exists dest_path;;
       size <- (if found then os_path_getsize dest_path else ret 0);;
       if found && (0 <? size) then ret (Some dest_path)
       else rmtree_quietly tmp_dir;;; ret None)
      is_Exception
      (fun _ => rmtree_quietly tmp_dir;;; ret None).

Definition default_actions : json :=
  JArr [JObj [("name", JStr "saveAsData")];
        JObj [("name", JStr "createChunks")];
        JObj [("name", JStr "ingestRag")];
        JObj [("name", JStr "makeDownloadable")];
        JObj [("name", JStr "extractText")]].

Definition is_none (v : json) : bool :=
  match v with JNull => true | _ => false end.

(** Lines 174-185: the hydration step, which sets the two local variables
    [temp_copy_dir] and [file_to_open]. *)
Definition choose_file_to_open (file_path : string) : M (option string * string) :=
  win <- platform_is_windows;;
  placeholder <- (if win then is_onedrive_placeholder file_path else ret false);;
  if win && placeholder then
    print [Lit "🔁 Detected OneDrive placeholder for: "; Lit file_path;
           Lit " — attempting to hydrate (robocopy)..."];;;
    hydrated_path <- hydrate_file_with_robocopy file_path 1000;;
    match hydrated_path with
    | Some (String c h) =>
        print [Lit "✅ Hydrated copy created at: "; Lit (String c h)];;;
        ret (Some (Path.dirname win (String c h)), String c h)
    | _ =>
        print [Lit "⚠️ Hydration via robocopy failed; will try opening the original file directly."];;;
        ret (None, file_path)
    end
  else ret (None, file_path).

(** Lines 187-244: from the payload to the transfer of the bytes. *)
Definition request_and_transfer (headers : headers_t)
    (file_path file_to_open knowledge_base : string)
    (tags actions : json) (rag_on : bool) (group_id : json) : M json :=
  win <- platform_is_windows;;
  let file_name := Path.basename win file_path in
  mime <- mimetypes_guess_type file_path;;
  let mime_type := match mime with Some m => m | None => "text/plain" end in
  let tags := if is_none tags then JArr [] else tags in
  let actions := if is_none actions then default_actions else actions in
  let payload :=
    JObj [("data",
      JObj ([("type", JStr mime_type);
             ("name", JStr file_name);
             ("knowledgeBase", JStr knowledge_base);
             ("tags", tags);
             ("data", JObj []);
             ("actions", actions);
             ("ragOn", JBool rag_on)] ++
            (if is_none group_id then [] else [("groupId", group_id)])))] in
  response <- requests_send (Request POST FilesUpload headers (Json payload) (Some 50));;
  raise_for_status response;;;
  upload_response <- response_json response;;
  success <- lift (get upload_response "success");;
  if negb (truthy success) then
    error <- lift (get_default upload_response "error" (JStr "Unknown error"));;
    print [Lit "❌ Upload failed - "; Val error];;;
    ret JNull
  else
    presigned_url <- lift (get upload_response "uploadUrl");;
    if negb (truthy presigned_url) then
      print [Lit "❌ Error: No upload URL received from server"];;;
      ret JNull
    else
      file_content <- read_bytes file_to_open;;
      s3_response <- requests_send
        (Request PUT (Presigned presigned_url) [("Content-Type", mime_type)]
           (Bytes file_content) (Some 1000));;
      raise_for_status s3_response;;;
      print [Lit "✅ File uploaded successfully: "; Lit file_name];;;
      ret upload_response.

(** Lines 252-259: the [finally] block. *)
Definition cleanup (temp_copy_dir : option string) : M unit :=
  match temp_copy_dir with
  | Some (String c d) =>
      is_dir <- os_path_isdir (String c d);;
      if is_dir then
        try_except
          (shutil_rmtree (String c d);;;
           print [Lit "🧹 Cleaned up temporary hydrated files: "; Lit (String c d)])
          is_Exception
          (fun _ => ret tt)
      else ret tt
  | _ => ret tt
  end.

(** Lines 172-251: the [try] block with its two handlers. It hands over
    the value of [temp_copy_dir] at the moment the block is left,
    together with what the function is about to return or raise. *)
Definition try_upload (headers : headers_t) (file_path knowledge_base : string)
    (tags actions : json) (rag_on : bool) (group_id : json)
  : M (option string * result json) :=
  chosen <- attempt (choose_file_to_open file_path);;
  let temp_copy_dir := match chosen with Ret (d, _) => d | Raise _ => None end in
  outcome <- attempt
    match chosen with
    | Ret (_, file_to_open) =>
        request_and_transfer headers file_path file_to_open knowledge_base
          tags actions rag_on group_id
    | Raise e => raise e
    end;;
  handled <- attempt
    match outcome with
    | Ret v => ret v
    | Raise e =>
        if is_RequestException e then
          print [Lit "❌ Error uploading file: "; Exc e];;; ret JNull
        else if is_Exception e then
          print [Lit "❌ Unexpected error during upload: "; Exc e];;; ret JNull
        else raise e
    end;;
  ret (temp_copy_dir, handled).

(** Lines 153-259 *)
Definition upload_file_to_amplify (file_path knowledge_base : string)
    (tags actions : json) (rag_on : bool) (group_id : json) : M json :=
  headers <- get_headers;;
  match headers with
  | None => ret JNull
  | Some headers =>
      found <- os_path_exists file_path;;
      if negb found then
        print [Lit "❌ Error: File not found: "; Lit file_path];;;
        ret JNull
      else
        left <- try_upload headers file_path knowledge_base tags actions rag_on group_id;;
        cleanup (fst left);;;
        lift (snd left)
  end.

(** Lines 262-308 *)
Definition chat_with_amplify (model : string) (temperature max_tokens : json)
    (data_source_ids : list json) (message : string)
    (system_message : option string) (assistant_id : json) : M json :=
  headers <- get_headers;;
  match headers with
  | None => ret JNull
  | Some headers =>
      let messages :=
        match system_message with
        | Some (String c s) =>
            [JObj [("role", JStr "system"); ("content", JStr (String c s))]]
        | _ => []
        end ++ [JObj [("role", JStr "user"); ("content", JStr message)]] in
      let payload :=
        JObj [("data",
          JObj [("temperature", temperature);
                ("max_tokens", max_tokens);
                ("messages", JArr messages);
                ("dataSources", JArr data_source_ids);
                ("options",
                 JObj ([("ragOnly", JBool false);
                        ("skipRag", JBool false);
                        ("model", JObj [("id", JStr model)]);
                        ("prompt", JStr message)] ++
                       (if is_none assistant_id then []
                        else [("assistantId", assistant_id)])))])] in
      try_except
        (response <- requests_send (Request POST Chat headers (Json payload) (Some 1000));;
         raise_for_status response;;;
         response_json response)
        is_RequestException
        (fun e => print [Lit "❌ Error chatting with Amplify: "; Exc e];;; ret JNull)
  end.

(** Lines 323-327: the first entry of the listing that bears the name;
    [Ret None] when the loop runs to its end. *)
Fixpoint find_by_name (files_list : list json) (file_name : string)
  : result (option json) :=
  match files_list with
  | [] => Ret None
  | file_info :: rest =>
      rbind (get file_info "name") (fun name =>
      if eq_str name file_name
      then rbind (get file_info "id") (fun file_id => Ret (Some file_id))
      else find_by_name rest file_name)
  end.

(** [for file_info in files_list] over whatever [items] holds: a list is
    gone through; the characters of a string and the keys of a dict are
    strings, which have no [get]; anything else is not iterable. *)
Definition search_listing (files_list : json) (file_name : string)
  : result (option json) :=
  match files_list with
  | JArr items => find_by_name items file_name
  | JStr EmptyString => Ret None
  | JStr _ => Raise AttributeError
  | JObj [] => Ret None
  | JObj _ => Raise AttributeError
  | _ => Raise TypeError
  end.

(** Lines 315-332: the rounds of the loop that are left, and what follows
    the loop. *)
Fixpoint poll (file_name : string) (max_attempts wait_seconds : Z)
    (rounds : nat) (attempt_no : Z) : M json :=
  match rounds with
  | O =>
      print [Lit "❌ File did not become available in time"];;;
      ret JNull
  | S rounds' =>
      print [Lit "  Attempt "; Val (JInt attempt_no); Lit "/"; Val (JInt max_attempts);
             Lit " - Checking if file is available..."];;;
      files_response <- query_files;;
      if negb (truthy files_response) then
        print [Lit "  ❌ Could not query files"];;;
        time_sleep wait_seconds;;;
        poll file_name max_attempts wait_seconds rounds' (attempt_no + 1)
      else
        data <- lift (get_default files_response "data" (JObj []));;
        files_list <- lift (get_default data "items" (JArr []));;
        hit <- lift (search_listing files_list file_name);;
        match hit with
        | Some file_id =>
            print [Lit "✅ File is now available! ID: "; Val file_id];;;
            ret file_id
        | None =>
            (if attempt_no <? max_attempts then
               print [Lit "  File not ready yet. Waiting "; Val (JInt wait_seconds);
                      Lit " seconds..."];;;
               time_sleep wait_seconds
             else ret tt);;;
            poll file_name max_attempts wait_seconds rounds' (attempt_no + 1)
        end
  end.

(** Lines 311-332 *)
Definition wait_for_file_processing (file_name : string) (max_attempts wait_seconds : Z)
  : M json :=
  print [Lit "⏳ Waiting for file '"; Lit file_name; Lit "' to be processed..."];;;
  poll file_name max_attempts wait_seconds (Z.to_nat max_attempts) 1.

Fixpoint print_found (paths : list string) : M unit :=
  match paths with
  | [] => ret tt
  | file_path :: rest => print [Lit "  ✅ Found: "; Lit file_path];;; print_found rest
  end.

(** Lines 344-362 *)
Definition scan_directory_for_files (directory_path : string) : M (list string) :=
  found <- os_path_exists directory_path;;
  is_dir <- os_path_isdir directory_path;;
  if negb found || negb is_dir then
    print [Lit "❌ Error: Directory not found or not a directory: "; Lit directory_path];;;
    ret []
  else
    win <- platform_is_windows;;
    print [Lit "📂 Scanning directory: "; Lit directory_path];;;
    entries <- scandir_tree directory_path;;
    let supported_files := Scan.scan_walk win directory_path entries in
    print_found supported_files;;;
    print [Lit "📊 Total supported files found: ";
           Val (JInt (Z.of_nat (length supported_files)))];;;
    ret supported_files.

(** [supported_files[:max_files]] *)
Definition slice_to (max_files : Z) (l : list string) : list string :=
  if 0 <=? max_files then take (Z.to_nat max_files) l
  else take (length l - Z.to_nat (- max_files)) l.

Definition nl : string := String (ascii_of_N 10) EmptyString.

Fixpoint join_lines (l : list string) : string :=
  match l with
  | [] => EmptyString
  | [x] => x
  | x :: rest => x +:+ nl +:+ join_lines rest
  end.

(** Lines 453-467 *)
Definition organization_prompt (relative_files : list string) : string :=
  "You are a professional document organizer." +:+ nl +:+ nl +:+
  "Here are the " +:+ dec (Z.of_nat (length relative_files)) +:+
  " files currently in the directory:" +:+ nl +:+
  join_lines relative_files +:+ nl +:+ nl +:+
  "Your task is to generate a valid Windows Command Prompt (.bat) script that organizes" +:+ nl +:+
  "*only these files* into a logical folder structure." +:+ nl +:+ nl +:+
  "⚠️ Rules:" +:+ nl +:+
  "- Use `mkdir` to create any needed folders." +:+ nl +:+
  "- Use `move` with the exact relative file paths listed above as the source." +:+ nl +:+
  "- Use backslashes (`\`) in all paths." +:+ nl +:+
  "- Do not invent filenames that are not listed above." +:+ nl +:+
  "- Output only raw commands line by line, no explanations." +:+ nl.

Definition failure (error : string) : json :=
  JObj [("success", JBool false); ("error", JStr error)].

(** Lines 431-441: the files still to upload, and the ids gathered so far. *)
Fixpoint upload_each (supported_files : list string) (file_ids : list json)
  : M (list json) :=
  match supported_files with
  | [] => ret file_ids
  | file_path :: rest =>
      upload_result <- upload_file_to_amplify file_path "document_analysis"
        (JArr [JStr "document_analysis"; JStr "organization_plan"]) JNull true JNull;;
      if truthy upload_result then
        win <- platform_is_windows;;
        file_id <- wait_for_file_processing (Path.basename win file_path) 2 20;;
        if truthy file_id
        then upload_each rest (file_ids ++ [file_id])
        else upload_each rest file_ids
      else upload_each rest file_ids
  end.

(** Line 447 *)
Fixpoint relative_to (start : string) (paths : list string) : M (list string) :=
  match paths with
  | [] => ret []
  | path :: rest =>
      r <- os_path_relpath path start;;
      rs <- relative_to start rest;;
      ret (r :: rs)
  end.

(** Lines 479-491: step 4, the result of the chat call saved. *)
Definition save_results (output_dir : string) (organization_result : json) : M json :=
  win <- platform_is_windows;;
  os_makedirs output_dir;;;
  let output_file_path := Path.join win output_dir "organization_commands.bat" in
  plan_content <- lift (get_default organization_result "data" (JStr EmptyString));;
  write_text output_file_path plan_content;;;
  print [Lit "✅ Organization commands saved to: "; Lit output_file_path];;;
  ret (JObj [("success", JBool true); ("output_file_path", JStr output_file_path)]).

(** Lines 409-491 *)
Definition generate_organization_plan (directory_path output_dir : string)
    (max_files : option Z) (model : string) : M json :=
  print [Lit "=== Document Analysis Pipeline for Organization Plan ==="];;;
  print [Lit "📂 Source directory: "; Lit directory_path];;;
  print [Lit "📁 Output directory: "; Lit output_dir];;;
  scanned <- scan_directory_for_files directory_path;;
  match scanned with
  | [] => ret (failure "No supported files found")
  | _ :: _ =>
      supported_files <-
        match max_files with
        | Some n =>
            if negb (n =? 0) && (n <? Z.of_nat (length scanned)) then
              print [Lit "⚠️ Limited to "; Val (JInt n); Lit " files"];;;
              ret (slice_to n scanned)
            else ret scanned
        | None => ret scanned
        end;;
      file_ids <- upload_each supported_files [];;
      match file_ids with
      | [] => ret (failure "No files uploaded")
      | _ :: _ =>
          relative_files <- relative_to directory_path supported_files;;
          print [Lit nl; Lit "⏳ Allowing a short pause for RAG/indexing (30s)..."];;;
          time_sleep 30;;;
          print [Lit "🔎 Sending prompt to Amplify (strict Windows CMD prompt instructions)..."];;;
          organization_result <- chat_with_amplify model (JFloat 3 (-1)) (JInt 4000)
            file_ids (organization_prompt relative_files)
            (Some "You are a professional command-line script generator. Only output mkdir and move commands in valid Windows CMD syntax.")
            JNull;;
          if negb (truthy organization_result) then ret (failure "LLM failed")
          else save_results output_dir organization_result
      end
  end.

(** Lines 494-516: the script run as a program, with the command line
    already parsed into [directory] and [output]. A keyboard interrupt is
    not part of the model. *)
Definition main (directory output : string) : M unit :=
  try_except
    (result <- generate_organization_plan directory output None "gpt-4o-mini";;
     success <- lift (get result "success");;
     if negb (truthy success) then
       error <- lift (get result "error");;
       print [Lit "❌ Pipeline failed: "; Val error];;;
       raise (SystemExit 2)
     else
       path <- lift (get result "output_file_path");;
       print [Lit "🎉 Pipeline execution complete!"];;;
       print [Lit "Generated plan at: "; Val path])
    is_Exception
    (fun e => print [Lit "❌ Unexpected error: "; Exc e];;; raise (SystemExit 1)).

End DocumentAnalyzer.

(** ** Vocabulary of the statements *)

Module Observed.

Definition http_ok (r : response) : bool :=
  negb ((400 <=? status_code r) && (status_code r <? 600)).

(** [d] is a directory of the store [m]. *)
Definition is_dir (m : gmap string fobj) (d : string) : bool :=
  negb (String.eqb d EmptyString) &&
  match m !! d with Some (FDir _) => true | _ => false end.

(** A request failed: no response, or a response that
    [raise_for_status] turns into an exception. *)
Definition failed (rp : reply) : bool :=
  match rp with
  | Fails _ => true
  | Responds r => (400 <=? status_code r) && (status_code r <? 600)
  end.

(** The [state] that the status poller of doc_sum.py reads in a reply:
    the value under [status] of a reply that is no HTTP error and
    carries a JSON dict. *)
Definition reported_state (rp : reply) : option json :=
  match rp with
  | Responds r =>
      if http_ok r then
        match parsed r with
        | Some (JObj members) =>
            Some (match dict_get members "status" with Some v => v | None => JNull end)
        | _ => None
        end
      else None
  | Fails _ => None
  end.

Definition reports (state : string) (rp : reply) : bool :=
  match reported_state rp with
  | Some v => eq_str v state
  | None => false
  end.

(** The replies to the status queries among some events. *)
Definition status_replies (es : list event) : list reply :=
  omap (fun e =>
          match e with
          | Http (Request GET (FileStatus _) _ _ _) rp => Some rp
          | _ => None
          end) es.

(** Every request among the events is a status query for [file_id]. *)
Definition only_polls (file_id : json) (es : list event) : Prop :=
  forall rq rp, Http rq rp ∈ es ->
    rq_verb rq = GET /\ rq_url rq = FileStatus file_id.

(** What the availability poller of document_analyzer.py makes of a
    reply to its listing query: [Ret (Some id)] the listing has an entry
    of that name and [id] stands under its [id]; [Ret None] nothing to
    return in this round; [Raise e] the listing has a shape the loop
    chokes on. *)
Definition listing_outcome (file_name : string) (rp : reply) : result (option json) :=
  match rp with
  | Responds r =>
      if http_ok r then
        match parsed r with
        | Some files_response =>
            if truthy files_response then
              rbind (get_default files_response "data" (JObj [])) (fun data =>
              rbind (get_default data "items" (JArr [])) (fun files_list =>
              DocumentAnalyzer.search_listing files_list file_name))
            else Ret None
        | None => Ret None
        end
      else Ret None
  | Fails _ => Ret None
  end.

(** [first_named file_name file_id items]: the first entry of the listing
    whose [name] is [file_name] has [file_id] under [id]. *)
Definition first_named (file_name : string) (file_id : json) (items : list json) : Prop :=
  exists before entry after,
    items = before ++ entry :: after /\
    (forall x, x ∈ before ->
       exists v, get x "name" = Ret v /\ eq_str v file_name = false) /\
    get entry "name" = Ret (JStr file_name) /\
    get entry "id" = Ret file_id.

(** The list under [data], [items] of a reply to the listing query. *)
Definition listed (rp : reply) (items : list json) : Prop :=
  exists r files_response data,
    rp = Responds r /\ http_ok r = true /\ parsed r = Some files_response /\
    get_default files_response "data" (JObj []) = Ret data /\
    get_default data "items" (JArr []) = Ret (JArr items).

(** Among the events, a status query for [file_id] was answered with
    the status [ready]. *)
Definition polled_ready (file_id : json) (es : list event) : Prop :=
  exists rq rp,
    Http rq rp ∈ es /\ rq_url rq = FileStatus file_id /\ reports "ready" rp = true.

(** No request to [/responses] ([/chat]) among the events. *)
Definition no_summary_request (es : list event) : Prop :=
  forall rq rp, Http rq rp ∈ es -> rq_url rq <> Responses.

Definition no_chat_request (es : list event) : Prop :=
  forall rq rp, Http rq rp ∈ es -> rq_url rq <> Chat.

(** The files written among the events. *)
Definition writes (es : list event) : list (string * string) :=
  omap (fun e => match e with Wrote p c => Some (p, c) | _ => None end) es.

(** The ids that a chat request names as its data sources. *)
Definition data_sources (rq : request) : option json :=
  match rq_body rq with
  | Json (JObj top) =>
      match dict_get top "data" with
      | Some (JObj data) => dict_get data "dataSources"
      | _ => None
      end
  | _ => None
  end.

(** The replies to the listing queries among some events. *)
Definition listing_replies (es : list event) : list reply :=
  omap (fun e =>
          match e with
          | Http (Request POST FilesQuery _ _ _) rp => Some rp
          | _ => None
          end) es.

(** [file_id] came out of a listing: a reply to a listing query among
    the events lists, as the first entry named as one of [names], an
    entry with [file_id] under [id]. *)
Definition from_listing (names : list string) (es : list event) (file_id : json) : Prop :=
  exists name rp items,
    name ∈ names /\ rp ∈ listing_replies es /\
    listed rp items /\ first_named name file_id items.

End Observed.

Import Scan Observed.

(** ** Effects of an operation: what it leaves alone, what it may raise *)

Module Frame.

(** What no operation changes. *)
Definition same_setting (w w' : world) : Prop :=
  environ_key w' = environ_key w /\ windows w' = windows w /\
  file_attributes w' = file_attributes w /\ guess_type w' = guess_type w /\
  relpath w' = relpath w /\ yesterday w' = yesterday w /\ rmtree_ok w' = rmtree_ok w.

(** The trace only grows, by events that [allowed] accepts. *)
Definition grows (allowed : event -> bool) (w w' : world) : Prop :=
  exists es, trace w' = trace w ++ es /\ forallb allowed es = true.

(** [rel allowed fs_fixed net_fixed]: from [w] to [w'] the setting is the
    same, the trace grew by allowed events, and the file system (the
    network script) is the same when [fs_fixed] ([net_fixed]) is set. *)
Definition rel (allowed : event -> bool) (fs_fixed net_fixed : bool) (w w' : world) : Prop :=
  same_setting w w' /\ grows allowed w w' /\
  (fs_fixed = true -> fs w' = fs w) /\
  (net_fixed = true -> network w' = network w).

(** [keeps R c]: whatever [c] returns or raises, the world it leaves is
    related by [R] to the world it started in. *)
Definition keeps {A} (R : world -> world -> Prop) (c : M A) : Prop :=
  forall w, R w (snd (c w)).

(** Events other than a file write, with requests to the endpoints that
    [ok] accepts only. *)
Definition calls (ok : endpoint -> bool) (e : event) : bool :=
  match e with
  | Http rq _ => ok (rq_url rq)
  | Wrote _ _ => false
  | Print _ | Sleep _ | Ran _ _ => true
  end.

(** Classes of endpoints. *)
Definition nowhere (u : endpoint) : bool := false.

Definition upload_urls (u : endpoint) : bool :=
  match u with FilesUpload | Presigned _ => true | _ => false end.

Definition status_urls (u : endpoint) : bool :=
  match u with FileStatus _ => true | _ => false end.

Definition query_urls (u : endpoint) : bool :=
  match u with FilesQuery => true | _ => false end.

Definition chat_urls (u : endpoint) : bool :=
  match u with Chat => true | _ => false end.

Definition summary_urls (u : endpoint) : bool :=
  match u with Responses => true | _ => false end.

Definition either (f g : endpoint -> bool) (u : endpoint) : bool := f u || g u.

(** Events that touch neither the network nor a file the program writes. *)
Definition offline : event -> bool := calls nowhere.

(** [throws P c]: whatever [c] raises satisfies [P]. *)
Definition throws {A} (P : exn -> bool) (c : M A) : Prop :=
  forall w e, fst (c w) = Raise e -> P e = true.

(** The empty class of exceptions. *)
Definition never (e : exn) : bool := false.

End Frame.

Import Frame.

(** ** Terms of the statements *)

Module Terms.

Import DocumentAnalyzer.

(** The reply that the next request will get, and the world once it has
    been taken from the script. *)
Definition next_reply (w : world) : reply :=
  match network w with
  | [] => Fails NoConnection
  | rp :: _ => rp
  end.

Definition consume (w : world) : world :=
  match network w with
  | [] => w
  | _ :: rest => set_network rest w
  end.

(** The status query of doc_sum.py. *)
Definition status_request (key : string) (file_id : json) : request :=
  Request GET (FileStatus file_id) [("Authorization", "Bearer " +:+ key)] NoBody (Some 30).

(** The key is in the environment, and not empty. *)
Definition has_key (w : world) : Prop :=
  exists c k, environ_key w = Some (String c k).

(** What [get_headers] returns when there is a key. *)
Definition headers_of (w : world) : headers_t :=
  match environ_key w with
  | Some key => [("Content-Type", "application/json"); ("Authorization", "Bearer " +:+ key)]
  | None => []
  end.

(** The two lines [validate_api_key] prints when there is no key. *)
Definition missing_key_lines : list event :=
  [Print [Lit "❌ Error: AMPLIFY_API_KEY not found in environment variables"];
   Print [Lit "Please set your API key in a .env file or environment variable"]].

(** The key is unset, or set to the empty string. *)
Definition no_key (w : world) : Prop :=
  environ_key w = None \/ environ_key w = Some EmptyString.

(** The listing query of document_analyzer.py. *)
Definition query_payload (start_date : string) : json :=
  JObj [("data",
    JObj [("startDate", JStr start_date);
          ("pageSize", JInt 100);
          ("pageIndex", JInt 0);
          ("forwardScan", JBool true);
          ("sortIndex", JStr "createdAt");
          ("types", JArr (JStr <$>
             ["text/plain"; "text/x-python"; "application/json"; "text/xml";
              "text/html"; "application/pdf";
              "application/vnd.openxmlformats-officedocument.wordprocessingml.document";
              "application/vnd.openxmlformats-officedocument.spreadsheetml.sheet";
              "application/vnd.openxmlformats-officedocument.presentationml.presentation"]));
          ("tags", JArr [])])].

Definition query_request (w : world) : request :=
  Request POST FilesQuery (headers_of w) (Json (query_payload (yesterday w))) (Some 30).

(** What [query_files] hands back for a reply. *)
Definition queried (rp : reply) : json :=
  match rp with
  | Responds r =>
      if http_ok r then match parsed r with Some j => j | None => JNull end else JNull
  | Fails _ => JNull
  end.

(** The first three lines of the organization-plan pipeline. *)
Definition banner (directory output : string) : list event :=
  [Print [Lit "=== Document Analysis Pipeline for Organization Plan ==="];
   Print [Lit "📂 Source directory: "; Lit directory];
   Print [Lit "📁 Output directory: "; Lit output]].

(** The line [main] prints before it exits with status 2. *)
Definition pipeline_failed (reason : string) : event :=
  Print [Lit "❌ Pipeline failed: "; Val (JStr reason)].


(** The summarization request of doc_sum.py. *)
Definition summary_request (key : string) (win : bool) (file_path : string) (file_id : json)
  : request :=
  Request POST Responses
    [("Authorization", "Bearer " +:+ key); ("Content-Type", "application/json")]
    (Json (JObj [("input", JStr ("Please summarize the document: " +:+
                                  Path.basename win file_path));
                 ("fileIds", JArr [file_id]);
                 ("conversation", JStr "reuse")]))
    (Some 120).

(** The path of the output file, and the dict returned on success. *)
Definition plan_path (win : bool) (output_dir : string) : string :=
  Path.join win output_dir "organization_commands.bat".

Definition success (path : string) : json :=
  JObj [("success", JBool true); ("output_file_path", JStr path)].

(** How step 4 can end: the plan saved, or one of three exceptions. *)
Definition saved (win : bool) (output_dir : string) (reply : json)
    (r : result json) (w' : world) (es : list event) : Prop :=
  (exists text,
     get_default reply "data" (JStr EmptyString) = Ret (JStr text) /\
     r = Ret (success (plan_path win output_dir)) /\
     writes es = [(plan_path win output_dir, text)] /\
     fs w' !! plan_path win output_dir = Some (FFile text)) \/
  (r = Raise OSError /\ writes es = []) \/
  (r = Raise AttributeError /\ writes es = [] /\ isinstance_dict reply = false) \/
  (r = Raise TypeError /\ writes es = [] /\
   exists v, get_default reply "data" (JStr EmptyString) = Ret v /\ isinstance_str v = false).

(** Two parts of [generate_organization_plan], named so that they can
    be reasoned about one after the other; that function is these parts
    put together, see [generate_organization_plan_eq].

    Lines 424-426: the cap on the number of files. *)
Definition select (max_files : option Z) (scanned : list string) : M (list string) :=
  match max_files with
  | Some n =>
      if negb (n =? 0) && (n <? Z.of_nat (length scanned)) then
        print [Lit "⚠️ Limited to "; Val (JInt n); Lit " files"];;;
        ret (slice_to n scanned)
      else ret scanned
  | None => ret scanned
  end.

(** Lines 429-491: the pipeline from the uploads on. *)
Definition plan_for (directory_path output_dir model : string)
    (supported_files : list string) : M json :=
  file_ids <- upload_each supported_files [];;
  match file_ids with
  | [] => ret (failure "No files uploaded")
  | _ :: _ =>
      relative_files <- relative_to directory_path supported_files;;
      print [Lit nl; Lit "⏳ Allowing a short pause for RAG/indexing (30s)..."];;;
      time_sleep 30;;;
      print [Lit "🔎 Sending prompt to Amplify (strict Windows CMD prompt instructions)..."];;;
      organization_result <- chat_with_amplify model (JFloat 3 (-1)) (JInt 4000)
        file_ids (organization_prompt relative_files)
        (Some "You are a professional command-line script generator. Only output mkdir and move commands in valid Windows CMD syntax.")
        JNull;;
      if negb (truthy organization_result) then ret (failure "LLM failed")
      else save_results output_dir organization_result
  end.

(** The ids that a summarization request names. *)
Definition file_ids (rq : request) : option json :=
  match rq_body rq with
  | Json (JObj top) => dict_get top "fileIds"
  | _ => None
  end.

(** The requests among the events that go to the endpoints [u]. *)
Definition requests_to (u : endpoint -> bool) (es : list event) : list request :=
  omap (fun e => match e with
                 | Http rq _ => if u (rq_url rq) then Some rq else None
                 | _ => None
                 end) es.

End Terms.

Import Terms.

(** ** Terms of the statements about the scanner *)

Module ScanTerms.

Import Path Scan.





End ScanTerms.

Import ScanTerms.

(** ** Concrete inputs *)

Module Examples.

Import DocumentAnalyzer.



(** A directory with [a.py], [b.txt] and [.git/ignored.py]. *)
Definition example_entries : list node :=
  [File "a.py"; File "b.txt"; Dir ".git" [File "ignored.py"]].

Definition example_world : world :=
  MkWorld None false (<["proj" := FDir example_entries]> ∅)
    (fun _ => None) (fun _ => None) (fun p _ => p) "2025-01-01T00:00:00Z"
    (fun _ => true) [] [] [] [].


(** A reply with status 200 that carries [j]. *)
Definition ok (j : json) : reply := Responds (Response 200 EmptyString (Some j)).

(** A listing entry for [a.py] that says its processing failed. *)
Definition failed_entry : json :=
  JObj [("name", JStr "a.py"); ("id", JStr "f1"); ("status", JStr "failed")].


(** Two status queries: [pending], then [ready]. *)
Definition ready_after_pending : world :=
  MkWorld (Some "key") false ∅ (fun _ => None) (fun _ => None) (fun p _ => p)
    "2025-01-01T00:00:00Z" (fun _ => true)
    [ok (JObj [("status", JStr "pending")]); ok (JObj [("status", JStr "ready")])] [] [] [].

(** The metadata request is granted, the transfer times out. *)
Definition put_fails_world : world :=
  MkWorld (Some "key") false (<["a.py" := FFile "print(1)"]> ∅)
    (fun _ => None) (fun _ => None) (fun p _ => p) "2025-01-01T00:00:00Z" (fun _ => true)
    [ok (JObj [("success", JBool true); ("id", JStr "f1"); ("uploadUrl", JStr "https://s3/x")]);
     Fails TimedOut] [] [] [].

(** A metadata response that reports success and gives no upload URL. *)
Definition response_without_url : json :=
  JObj [("success", JBool true); ("id", JStr "f1")].

(** Windows, a OneDrive placeholder, a hydration that works; whether
    the temporary directory can be removed is [may_remove]. *)
Definition placeholder_world (may_remove : bool) : world :=
  MkWorld (Some "key") true (<["C:\docs\a.py" := FFile EmptyString]> ∅)
    (fun _ => Some 0x1000) (fun _ => None) (fun p _ => p) "2025-01-01T00:00:00Z"
    (fun _ => may_remove)
    [ok (JObj [("success", JBool true); ("uploadUrl", JStr "https://s3/x")]); ok JNull]
    ["C:\Temp\onedrive_hydrate_x1"] [RunEnds (Some "print(1)")] [].


(** A reply to the listing query, and a reply that grants an upload. *)
Definition listing (items : list json) : reply :=
  ok (JObj [("data", JObj [("items", JArr items)])]).

Definition granted (url : string) : reply :=
  ok (JObj [("success", JBool true); ("uploadUrl", JStr url)]).

(** One file, uploaded; the listing has it, with the status [failed]. *)
Definition failed_file_world : world :=
  MkWorld (Some "key") false
    (<["proj" := FDir [File "a.py"]]> (<["proj/a.py" := FFile "print(1)"]> ∅))
    (fun _ => None) (fun _ => None) (fun p _ => p) "2025-01-01T00:00:00Z" (fun _ => true)
    [granted "https://s3/a"; ok JNull; listing [failed_entry];
     ok (JObj [("data", JStr "mkdir src")])]
    [] [] [].

(** A file is uploaded, its status is [pending], then the query times
    out, then the status is [ready]; the summary follows. *)
Definition summarized_world : world :=
  MkWorld (Some "key") false (<["a.py" := FFile "print(1)"]> ∅)
    (fun _ => None) (fun _ => None) (fun p _ => p) "2025-01-01T00:00:00Z" (fun _ => true)
    [ok (JObj [("id", JStr "f1"); ("uploadUrl", JStr "https://s3/a")]);
     ok JNull;
     ok (JObj [("status", JStr "pending")]);
     Fails TimedOut;
     ok (JObj [("status", JStr "ready")]);
     ok (JObj [("outputText", JStr "a summary")])]
    [] [] [].

Definition plan_text : string :=
  "mkdir src" +:+ nl +:+ "move a.py src\a.py" +:+ nl +:+ "move b.txt src\b.txt".

(** Three files, each uploaded and found in the listing, and a plan. *)
Definition three_files_world : world :=
  MkWorld (Some "key") false
    (<["proj" := FDir [File "a.py"; File "b.txt"; File "c.md"]]>
       (<["proj/a.py" := FFile "print(1)"]>
          (<["proj/b.txt" := FFile "hello"]> (<["proj/c.md" := FFile "# c"]> ∅))))
    (fun _ => None) (fun _ => None) (fun p _ => p) "2025-01-01T00:00:00Z" (fun _ => true)
    [granted "https://s3/a"; ok JNull;
     listing [JObj [("name", JStr "a.py"); ("id", JStr "f1")]];
     granted "https://s3/b"; ok JNull;
     listing [JObj [("name", JStr "b.txt"); ("id", JStr "f2")]];
     granted "https://s3/c"; ok JNull;
     listing [JObj [("name", JStr "c.md"); ("id", JStr "f3")]];
     ok (JObj [("data", JStr plan_text)])]
    [] [] [].

End Examples.

Import Examples.

(** ** Measures of a run *)

Module Measures.

(** The requests among the events, each with its reply. *)
Definition exchanges (es : list event) : list (request * reply) :=
  omap (fun e => match e with Http rq rp => Some (rq, rp) | _ => None end) es.

(** The sum of [f] over the events. *)
Fixpoint total (f : event -> Z) (es : list event) : Z :=
  match es with
  | [] => 0
  | e :: rest => f e + total f rest
  end.

(** The seconds an event sleeps. *)
Definition slept (e : event) : Z :=
  match e with Sleep s => s | _ => 0 end.

(** One for a metadata request of an upload, zero for any other event. *)
Definition upload_started (e : event) : Z :=
  match e with
  | Http (Request POST FilesUpload _ _ _) _ => 1
  | _ => 0
  end.

(** One for a request, zero for any other event. *)
Definition one_request (e : event) : Z :=
  match e with Http _ _ => 1 | _ => 0 end.

(** A measure that counts no printed line. *)
Definition quiet (f : event -> Z) : Prop := forall line, f (Print line) = 0.

(** [costs f b c]: whatever [c] does, the events it adds to the trace
    sum up to [b] at most under [f]. *)
Definition costs {A} (f : event -> Z) (b : Z) (c : M A) : Prop :=
  forall w, exists es, trace (snd (c w)) = trace w ++ es /\ total f es <= b.







(** [keeps_from I R c]: started in a world that satisfies [I], the
    computation [c] leaves a world related to it by [R]. *)
Definition keeps_from {A} (I : world -> Prop) (R : world -> world -> Prop) (c : M A) : Prop :=
  forall w, I w -> R w (snd (c w)).

(** The value of the first header of that name. *)
Definition header (name : string) (headers : list (string * string)) : option string :=
  snd <$> List.find (fun kv => String.eqb (fst kv) name) headers.

(** A request to the storage, at a presigned URL, has no [Authorization]
    header; any other request has the one made of [key]. *)
Definition keyed (key : string) (e : event) : bool :=
  match e with
  | Http rq _ =>
      match rq_url rq with
      | Presigned _ => bool_decide (header "Authorization" (rq_headers rq) = None)
      | _ => bool_decide (header "Authorization" (rq_headers rq) = Some ("Bearer " +:+ key))
      end
  | _ => true
  end.

(** A request has a time limit, of [limit] seconds at most. *)
Definition timed (limit : Z) (e : event) : bool :=
  match e with
  | Http rq _ =>
      match rq_timeout rq with
      | Some t => (0 <? t) && (t <=? limit)
      | None => false
      end
  | _ => true
  end.

(** The same, but for the transfers to the storage, which have none. *)
Definition timed_but_transfers (limit : Z) (e : event) : bool :=
  match e with
  | Http rq _ =>
      match rq_url rq with
      | Presigned _ => bool_decide (rq_timeout rq = None)
      | _ => timed limit e
      end
  | _ => true
  end.


(** An upper bound on the number of files that are uploaded when
    [found] files were scanned: [max_files] when it is positive, and
    never more than the files found. *)
Definition files_at_most (max_files : option Z) (found : nat) : Z :=
  match max_files with
  | Some n => if 0 <? n then Z.min n (Z.of_nat found) else Z.of_nat found
  | None => Z.of_nat found
  end.



End Measures.

(** * Proofs *)

(** ** The text extractor (C4) *)

Module ExtractFacts.

Import Extract.











End ExtractFacts.

(** ** Paths built by the walk *)

Module PathFacts.

Import Path.

Lemma app_cons x (a b : string) : String x a +:+ b = String x (a +:+ b).
Proof. reflexivity. Qed.

Lemma app_nil_l (b : string) : EmptyString +:+ b = b.
Proof. reflexivity. Qed.

Ltac sapp := rewrite ?app_cons, ?app_nil_l in *.

Lemma app_assoc (a b c : string) : (a +:+ b) +:+ c = a +:+ (b +:+ c).
Proof. induction a as [ | x a IH]; [reflexivity |]. sapp. now rewrite IH. Qed.















End PathFacts.

(** ** The walk *)

Module ScanFacts.

Import Scan PathFacts.

















End ScanFacts.

(** ** The scanner (C6, C10) *)

Module ScanTheorems.

Import Scan PathFacts ScanFacts DocumentAnalyzer.

Lemma print_found_returns l : forall w, exists w', print_found l w = (Ret tt, w').
Proof.
  induction l as [ | p l IH]; intros w; cbn.
  - eexists. reflexivity.
  - unfold bind, print. apply IH.
Qed.








End ScanTheorems.

(** ** Frame rules: what each operation leaves alone and may raise *)

Module FrameRules.

Lemma rel_refl allowed b1 b2 w : rel allowed b1 b2 w w.
Proof.
  unfold rel, same_setting, grows. repeat split; auto.
  exists []. now rewrite app_nil_r.
Qed.

Lemma rel_trans allowed b1 b2 w1 w2 w3 :
  rel allowed b1 b2 w1 w2 -> rel allowed b1 b2 w2 w3 -> rel allowed b1 b2 w1 w3.
Proof.
  unfold rel, same_setting, grows.
  intros ((?&?&?&?&?&?&?) & (es1 & E1 & F1) & Hf1 & Hn1)
         ((?&?&?&?&?&?&?) & (es2 & E2 & F2) & Hf2 & Hn2).
  repeat split; try congruence.
  - exists (es1 ++ es2). rewrite E2, E1, <- app_assoc. split; [reflexivity |].
    rewrite forallb_app. now rewrite F1, F2.
  - intros Hb. rewrite (Hf2 Hb). auto.
  - intros Hb. rewrite (Hn2 Hb). auto.
Qed.

Lemma rel_weaken (P Q : event -> bool) b1 b2 c1 c2 w w' :
  (forall e, P e = true -> Q e = true) ->
  (c1 = true -> b1 = true) -> (c2 = true -> b2 = true) ->
  rel P b1 b2 w w' -> rel Q c1 c2 w w'.
Proof.
  intros HPQ H1 H2 (Hs & (es & E & F) & Hf & Hn).
  split; [exact Hs |]. split; [| split; auto].
  exists es. split; [exact E |].
  rewrite forallb_forall in *. auto.
Qed.

Lemma rel_log allowed b1 b2 e w :
  allowed e = true -> rel allowed b1 b2 w (log e w).
Proof.
  intros H. unfold rel, same_setting, grows. cbn. repeat split; auto.
  exists [e]. cbn. now rewrite H.
Qed.

Section Rules.

Context (allowed : event -> bool) (b1 b2 : bool).

Abbreviation R := (rel allowed b1 b2).

Lemma keeps_ret {A} (a : A) : keeps R (ret a).
Proof. intros w. apply rel_refl. Qed.

Lemma keeps_raise {A} e : keeps R (@raise A e).
Proof. intros w. apply rel_refl. Qed.

Lemma keeps_lift {A} (r : result A) : keeps R (lift r).
Proof. intros w. apply rel_refl. Qed.

Lemma keeps_bind {A B} (c : M A) (k : A -> M B) :
  keeps R c -> (forall a, keeps R (k a)) -> keeps R (bind c k).
Proof.
  intros Hc Hk w. unfold bind. specialize (Hc w).
  destruct (c w) as [[a | e] w1]; cbn in *; [| exact Hc].
  eapply rel_trans; [exact Hc | apply Hk].
Qed.

Lemma keeps_attempt {A} (c : M A) : keeps R c -> keeps R (attempt c).
Proof.
  intros Hc w. unfold attempt. specialize (Hc w). now destruct (c w).
Qed.

Lemma keeps_try_except {A} (c : M A) catches (h : exn -> M A) :
  keeps R c -> (forall e, keeps R (h e)) -> keeps R (try_except c catches h).
Proof.
  intros Hc Hh w. unfold try_except. specialize (Hc w).
  destruct (c w) as [[a | e] w1]; cbn in *; [exact Hc |].
  destruct (catches e); [| exact Hc].
  eapply rel_trans; [exact Hc | apply Hh].
Qed.

Lemma keeps_print line : allowed (Print line) = true -> keeps R (print line).
Proof. intros H w. now apply rel_log. Qed.

Lemma keeps_sleep s : allowed (Sleep s) = true -> keeps R (time_sleep s).
Proof.
  intros H w. unfold time_sleep. destruct (s <? 0); [apply rel_refl | now apply rel_log].
Qed.

Lemma keeps_getenv : keeps R os_getenv_key.
Proof. intros w. apply rel_refl. Qed.

Lemma keeps_platform : keeps R platform_is_windows.
Proof. intros w. apply rel_refl. Qed.

Lemma keeps_guess_type p : keeps R (mimetypes_guess_type p).
Proof. intros w. apply rel_refl. Qed.

Lemma keeps_relpath p q : keeps R (os_path_relpath p q).
Proof. intros w. apply rel_refl. Qed.

Lemma keeps_yesterday : keeps R start_of_yesterday.
Proof. intros w. apply rel_refl. Qed.

Lemma keeps_attributes p : keeps R (GetFileAttributesW p).
Proof. intros w. apply rel_refl. Qed.

Lemma keeps_exists p : keeps R (os_path_exists p).
Proof. intros w. apply rel_refl. Qed.

Lemma keeps_isdir p : keeps R (os_path_isdir p).
Proof. intros w. apply rel_refl. Qed.

Lemma keeps_is_file p : keeps R (is_file p).
Proof. intros w. apply rel_refl. Qed.

Lemma keeps_getsize p : keeps R (os_path_getsize p).
Proof. intros w. unfold os_path_getsize. destruct (fs w !! p) as [[] | ]; apply rel_refl. Qed.

Lemma keeps_read_bytes p : keeps R (read_bytes p).
Proof. intros w. unfold read_bytes. destruct (fs w !! p) as [[] | ]; apply rel_refl. Qed.

Lemma keeps_scandir p : keeps R (scandir_tree p).
Proof. intros w. unfold scandir_tree. destruct (fs w !! p) as [[] | ]; apply rel_refl. Qed.

Lemma keeps_raise_for_status r : keeps R (raise_for_status r).
Proof. intros w. unfold raise_for_status. destruct (_ && _); apply rel_refl. Qed.

Lemma keeps_response_json r : keeps R (response_json r).
Proof. intros w. unfold response_json. destruct (parsed r); apply rel_refl. Qed.

End Rules.

Lemma keeps_send allowed b1 rq :
  (forall rp, allowed (Http rq rp) = true) -> keeps (rel allowed b1 false) (requests_send rq).
Proof.
  intros H w. unfold requests_send.
  destruct (network w) as [ | [e | r] rest]; cbn.
  - now apply rel_log.
  - eapply rel_trans; [| now apply rel_log].
    unfold rel, same_setting, grows; cbn. repeat split; auto; [| discriminate].
    exists []. now rewrite app_nil_r.
  - eapply rel_trans; [| now apply rel_log].
    unfold rel, same_setting, grows; cbn. repeat split; auto; [| discriminate].
    exists []. now rewrite app_nil_r.
Qed.

Lemma rel_set_fs allowed b2 f w : rel allowed false b2 w (set_fs f w).
Proof.
  unfold rel, same_setting, grows; cbn. repeat split; auto; [| discriminate].
  exists []. now rewrite app_nil_r.
Qed.

Lemma rel_set_tmp allowed b1 b2 n w : rel allowed b1 b2 w (set_tmp_names n w).
Proof.
  unfold rel, same_setting, grows; cbn. repeat split; auto.
  exists []. now rewrite app_nil_r.
Qed.

Lemma rel_set_robocopy allowed b1 b2 n w : rel allowed b1 b2 w (set_robocopy n w).
Proof.
  unfold rel, same_setting, grows; cbn. repeat split; auto.
  exists []. now rewrite app_nil_r.
Qed.

Lemma keeps_rmtree allowed b2 d : keeps (rel allowed false b2) (shutil_rmtree d).
Proof.
  intros w. unfold shutil_rmtree.
  destruct (fs w !! d) as [[] | ]; try apply rel_refl.
  destruct (rmtree_ok w d); [apply rel_set_fs | apply rel_refl].
Qed.

Lemma keeps_mkdtemp allowed b2 : keeps (rel allowed false b2) tempfile_mkdtemp.
Proof.
  intros w. unfold tempfile_mkdtemp. destruct (tmp_names w); [apply rel_refl |]. cbn.
  eapply rel_trans; [apply rel_set_tmp | apply rel_set_fs].
Qed.

Lemma keeps_robocopy allowed b2 s t f n :
  (forall c, allowed (Ran c n) = true) -> keeps (rel allowed false b2) (run_robocopy s t f n).
Proof.
  intros H w. unfold run_robocopy.
  destruct (robocopy w) as [ | [ | | [bytes | ]] rest]; cbn.
  - now apply rel_log.
  - eapply rel_trans; [now apply rel_log | apply rel_set_robocopy].
  - eapply rel_trans; [now apply rel_log | apply rel_set_robocopy].
  - eapply rel_trans; [now apply rel_log |].
    eapply rel_trans; [apply rel_set_robocopy | apply rel_set_fs].
  - eapply rel_trans; [now apply rel_log | apply rel_set_robocopy].
Qed.

Lemma keeps_makedirs allowed b2 d : keeps (rel allowed false b2) (os_makedirs d).
Proof.
  intros w. unfold os_makedirs.
  destruct (String.eqb d EmptyString); [apply rel_refl |].
  destruct (fs w !! d) as [[] | ]; try apply rel_refl. apply rel_set_fs.
Qed.

Lemma keeps_weaken {A} (P Q : event -> bool) b1 b2 c1 c2 (c : M A) :
  keeps (rel P b1 b2) c ->
  (forall e, P e = true -> Q e = true) ->
  (c1 = true -> b1 = true) -> (c2 = true -> b2 = true) ->
  keeps (rel Q c1 c2) c.
Proof. intros H HPQ H1 H2 w. eapply rel_weaken; eauto. Qed.

Create HintDb keeps_db.

#[export] Hint Resolve keeps_ret keeps_raise keeps_lift keeps_getenv keeps_platform
  keeps_guess_type keeps_relpath keeps_yesterday keeps_attributes keeps_exists keeps_isdir
  keeps_is_file keeps_getsize keeps_read_bytes keeps_scandir keeps_raise_for_status
  keeps_response_json keeps_rmtree keeps_mkdtemp keeps_makedirs : keeps_db.

(** Goes through a computation built from the operations above. *)
Ltac keeps_step :=
  match goal with
  | |- keeps _ (bind _ _) => apply keeps_bind; [| intros ?]
  | |- keeps _ (attempt _) => apply keeps_attempt
  | |- keeps _ (try_except _ _ _) => apply keeps_try_except; [| intros ?]
  | |- keeps _ (print _) => apply keeps_print; reflexivity
  | |- keeps _ (time_sleep _) => apply keeps_sleep; reflexivity
  | |- keeps _ (requests_send _) => apply keeps_send; intros ?; reflexivity
  | |- keeps _ (run_robocopy _ _ _ _) => apply keeps_robocopy; intros ?; reflexivity
  | |- keeps _ (let _ := _ in _) => cbv zeta
  | |- keeps _ (match ?x with _ => _ end) => destruct x
  | |- keeps _ (if ?b then _ else _) => destruct b
  | |- keeps _ _ => solve [eauto with keeps_db]
  end.

Ltac keeps_go := repeat keeps_step.

(** [P e = true -> Q e = true] for two concrete classes of events. *)
Ltac ev_incl :=
  let e := fresh "e" in
  intros e; destruct e as [? | [? [] ? ? ?] ? | ? | ? ? | ? ?];
  cbv; intros; try reflexivity; try congruence.

(** Uses the frame lemma of a callee, weakened to what the caller needs. *)
Ltac by_frame lemma :=
  eapply keeps_weaken; [apply lemma | ev_incl | intros; congruence | intros; congruence].

Section Throws.

Context (P : exn -> bool).

Lemma throws_ret {A} (a : A) : throws P (ret a).
Proof. intros w e. discriminate. Qed.

Lemma throws_raise {A} e : P e = true -> throws P (@raise A e).
Proof. intros H w e' [= <-]. exact H. Qed.

Lemma throws_lift {A} (r : result A) :
  match r with Raise e => P e = true | Ret _ => True end -> throws P (lift r).
Proof. intros H w e. unfold lift. cbn. intros ->. exact H. Qed.

Lemma throws_bind {A B} (c : M A) (k : A -> M B) :
  throws P c -> (forall a, throws P (k a)) -> throws P (bind c k).
Proof.
  intros Hc Hk w e. unfold bind. specialize (Hc w).
  destruct (c w) as [[a | e'] w1]; cbn in *; [exact (Hk a w1 e) |].
  intros [= <-]. now apply Hc.
Qed.

Lemma throws_attempt {A} (c : M A) : throws P (attempt c).
Proof. intros w e. unfold attempt. destruct (c w). discriminate. Qed.

Lemma throws_try_except {A} (c : M A) catches (h : exn -> M A) :
  throws P c -> (forall e, throws P (h e)) -> throws P (try_except c catches h).
Proof.
  intros Hc Hh w e. unfold try_except. specialize (Hc w).
  destruct (c w) as [[a | e'] w1]; cbn in *; [discriminate |].
  destruct (catches e'); [exact (Hh e' w1 e) | exact (Hc e)].
Qed.

Lemma throws_try_catch_all {A} (Q : exn -> bool) (c : M A) catches (h : exn -> M A) :
  throws P c -> (forall e, P e = true -> catches e = true) ->
  (forall e, throws Q (h e)) -> throws Q (try_except c catches h).
Proof.
  intros Hc Hall Hh w e. unfold try_except. specialize (Hc w).
  destruct (c w) as [[a | e'] w1]; cbn in *; [discriminate |].
  rewrite (Hall e' (Hc e' eq_refl)). exact (Hh e' w1 e).
Qed.

End Throws.

Lemma throws_pure {A} (c : M A) P :
  (forall w, exists a, fst (c w) = Ret a) -> throws P c.
Proof. intros H w e He. destruct (H w) as [a Ha]. congruence. Qed.

(** The operations raise exceptions of the class [Exception] only. *)
Lemma throws_primitives :
  (forall l, throws is_Exception (print l)) /\
  (forall s, throws is_Exception (time_sleep s)) /\
  throws is_Exception os_getenv_key /\
  throws is_Exception platform_is_windows /\
  (forall p, throws is_Exception (mimetypes_guess_type p)) /\
  (forall p q, throws is_Exception (os_path_relpath p q)) /\
  throws is_Exception start_of_yesterday /\
  (forall p, throws is_Exception (GetFileAttributesW p)) /\
  (forall p, throws is_Exception (os_path_exists p)) /\
  (forall p, throws is_Exception (os_path_isdir p)) /\
  (forall p, throws is_Exception (is_file p)) /\
  (forall p, throws is_Exception (os_path_getsize p)) /\
  (forall p, throws is_Exception (read_bytes p)) /\
  (forall p, throws is_Exception (scandir_tree p)) /\
  (forall rq, throws is_Exception (requests_send rq)) /\
  (forall r, throws is_Exception (raise_for_status r)) /\
  (forall r, throws is_Exception (response_json r)) /\
  (forall d, throws is_Exception (shutil_rmtree d)) /\
  throws is_Exception tempfile_mkdtemp /\
  (forall s t f n, throws is_Exception (run_robocopy s t f n)) /\
  (forall d, throws is_Exception (os_makedirs d)) /\
  (forall p v, throws is_Exception (write_text p v)).
Proof.
  repeat split; intros; intros w e;
    unfold print, time_sleep, os_getenv_key, platform_is_windows, mimetypes_guess_type,
      os_path_relpath, start_of_yesterday, GetFileAttributesW, os_path_exists, os_path_isdir,
      is_file, os_path_getsize, read_bytes, scandir_tree, requests_send, raise_for_status,
      response_json, shutil_rmtree, tempfile_mkdtemp, run_robocopy, os_makedirs, write_text,
      raise, ret, exn_of_net_error;
    repeat match goal with
           | |- context [match ?x with _ => _ end] => destruct x
           | |- context [if ?x then _ else _] => destruct x
           end; cbn; intros [= <-]; reflexivity.
Qed.


Ltac throws_prim :=
  first
    [ apply throws_primitives
    | apply (proj1 (proj2 throws_primitives))
    | match goal with
      | |- throws _ os_getenv_key => apply throws_primitives
      | |- throws _ platform_is_windows => apply throws_primitives
      | |- throws _ (mimetypes_guess_type _) => apply throws_primitives
      | |- throws _ (os_path_relpath _ _) => apply throws_primitives
      | |- throws _ start_of_yesterday => apply throws_primitives
      | |- throws _ (GetFileAttributesW _) => apply throws_primitives
      | |- throws _ (os_path_exists _) => apply throws_primitives
      | |- throws _ (os_path_isdir _) => apply throws_primitives
      | |- throws _ (is_file _) => apply throws_primitives
      | |- throws _ (os_path_getsize _) => apply throws_primitives
      | |- throws _ (read_bytes _) => apply throws_primitives
      | |- throws _ (scandir_tree _) => apply throws_primitives
      | |- throws _ (requests_send _) => apply throws_primitives
      | |- throws _ (raise_for_status _) => apply throws_primitives
      | |- throws _ (response_json _) => apply throws_primitives
      | |- throws _ (shutil_rmtree _) => apply throws_primitives
      | |- throws _ tempfile_mkdtemp => apply throws_primitives
      | |- throws _ (run_robocopy _ _ _ _) => apply throws_primitives
      | |- throws _ (os_makedirs _) => apply throws_primitives
      | |- throws _ (write_text _ _) => apply throws_primitives
      end ].

Ltac throws_step :=
  match goal with
  | |- throws _ (bind _ _) => apply throws_bind; [| intros ?]
  | |- throws _ (attempt _) => apply throws_attempt
  | |- throws _ (try_except _ _ _) => apply throws_try_except; [| intros ?]
  | |- throws _ (ret _) => apply throws_ret
  | |- throws _ (raise _) => apply throws_raise; reflexivity
  | |- throws _ (lift (get _ _)) => apply throws_lift; unfold get, get_default
  | |- throws _ (lift (get_default _ _ _)) => apply throws_lift; unfold get_default
  | |- throws _ (let _ := _ in _) => cbv zeta
  | |- throws _ (match ?x with _ => _ end) => destruct x
  | |- throws _ (if ?b then _ else _) => destruct b
  | |- match match ?x with _ => _ end with _ => _ end => destruct x
  | |- True => exact I
  | |- is_Exception _ = true => reflexivity
  | |- throws _ _ => throws_prim
  | |- throws _ _ => solve [eauto]
  end.

Ltac throws_go := repeat throws_step.

(** *** doc_sum.py *)

Lemma ds_on_request_error what r e :
  keeps (rel offline true true) (DocSum.on_request_error what r e).
Proof. unfold DocSum.on_request_error. keeps_go. Qed.

Lemma ds_upload key p kb tags :
  keeps (rel (calls upload_urls) true false) (DocSum.upload_file_to_amplify key p kb tags).
Proof.
  unfold DocSum.upload_file_to_amplify. keeps_go; by_frame ds_on_request_error.
Qed.

Lemma ds_poll key id m s rounds : forall n,
  keeps (rel (calls status_urls) true false) (DocSum.poll key id m s rounds n).
Proof.
  induction rounds as [ | k IH]; intros n; cbn [DocSum.poll]; keeps_go; apply IH.
Qed.

(** *** document_analyzer.py *)

Import DocumentAnalyzer.

Lemma da_choose_throws p : throws is_Exception (choose_file_to_open p).
Proof.
  unfold choose_file_to_open, is_onedrive_placeholder, get_file_attributes_windows,
    hydrate_file_with_robocopy, rmtree_quietly.
  throws_go.
Qed.

Lemma da_cleanup_throws d : throws never (cleanup d).
Proof.
  unfold cleanup. destruct d as [[ | c d] | ]; try apply throws_ret.
  apply throws_bind; [apply throws_pure; intros w; eexists; reflexivity | intros b].
  destruct b; [| apply throws_ret].
  apply (throws_try_catch_all is_Exception); [| auto | intros e; apply throws_ret].
  throws_go.
Qed.

Lemma da_validate : keeps (rel offline true true) validate_api_key.
Proof. unfold validate_api_key. keeps_go. Qed.

Lemma da_get_headers : keeps (rel offline true true) get_headers.
Proof. unfold get_headers. keeps_go. by_frame da_validate. Qed.

Lemma da_query_files : keeps (rel (calls query_urls) true false) query_files.
Proof. unfold query_files. keeps_go. by_frame da_get_headers. Qed.

Lemma da_attributes p : keeps (rel offline true true) (get_file_attributes_windows p).
Proof. unfold get_file_attributes_windows. keeps_go. Qed.

Lemma da_placeholder p : keeps (rel offline true true) (is_onedrive_placeholder p).
Proof. unfold is_onedrive_placeholder. keeps_go. by_frame da_attributes. Qed.

Lemma da_rmtree_quietly d : keeps (rel offline false true) (rmtree_quietly d).
Proof. unfold rmtree_quietly. keeps_go. Qed.

Lemma da_hydrate p n : keeps (rel offline false true) (hydrate_file_with_robocopy p n).
Proof. unfold hydrate_file_with_robocopy. keeps_go; by_frame da_rmtree_quietly. Qed.

Lemma da_choose p : keeps (rel offline false true) (choose_file_to_open p).
Proof.
  unfold choose_file_to_open. keeps_go;
    first [by_frame da_placeholder | by_frame da_hydrate].
Qed.

Lemma da_request_and_transfer h p q kb tags actions rag g :
  keeps (rel (calls upload_urls) true false)
    (request_and_transfer h p q kb tags actions rag g).
Proof. unfold request_and_transfer. keeps_go. Qed.

Lemma da_cleanup d : keeps (rel offline false true) (cleanup d).
Proof. unfold cleanup. keeps_go. Qed.

Lemma da_try_upload h p kb tags actions rag g :
  keeps (rel (calls upload_urls) false false) (try_upload h p kb tags actions rag g).
Proof.
  unfold try_upload. keeps_go;
    first [by_frame da_choose | by_frame da_request_and_transfer].
Qed.

Lemma da_upload p kb tags actions rag g :
  keeps (rel (calls upload_urls) false false) (upload_file_to_amplify p kb tags actions rag g).
Proof.
  unfold upload_file_to_amplify. keeps_go;
    first [by_frame da_get_headers | by_frame da_try_upload | by_frame da_cleanup].
Qed.

Lemma da_chat m t mt ids msg sys a :
  keeps (rel (calls chat_urls) true false) (chat_with_amplify m t mt ids msg sys a).
Proof. unfold chat_with_amplify. keeps_go. by_frame da_get_headers. Qed.

Lemma da_poll name m s rounds : forall n,
  keeps (rel (calls query_urls) true false) (poll name m s rounds n).
Proof.
  induction rounds as [ | k IH]; intros n; cbn [poll]; keeps_go;
    first [apply IH | by_frame da_query_files].
Qed.

Lemma da_wait name m s :
  keeps (rel (calls query_urls) true false) (wait_for_file_processing name m s).
Proof. unfold wait_for_file_processing. keeps_go. apply da_poll. Qed.

Lemma da_print_found l : keeps (rel offline true true) (print_found l).
Proof. induction l as [ | p l IH]; cbn [print_found]; keeps_go. Qed.

Lemma da_scan d : keeps (rel offline true true) (scan_directory_for_files d).
Proof. unfold scan_directory_for_files. keeps_go. apply da_print_found. Qed.

Lemma da_relative_to start l : keeps (rel offline true true) (relative_to start l).
Proof. induction l as [ | p l IH]; cbn [relative_to]; keeps_go. Qed.

Lemma da_upload_each l : forall ids,
  keeps (rel (calls (either upload_urls query_urls)) false false) (upload_each l ids).
Proof.
  induction l as [ | p l IH]; intros ids; cbn [upload_each]; keeps_go;
    first [apply IH | by_frame da_upload | by_frame da_wait].
Qed.

End FrameRules.

Import FrameRules.

(** ** The two pollers (C1) *)

Module PollFacts.

Lemma send_eq rq w :
  requests_send rq w =
  (match next_reply w with
   | Fails e => Raise (exn_of_net_error e)
   | Responds r => Ret r
   end, log (Http rq (next_reply w)) (consume w)).
Proof.
  unfold requests_send, next_reply, consume.
  destruct (network w) as [ | [e | r] rest]; reflexivity.
Qed.

Lemma trace_consume w : trace (consume w) = trace w.
Proof. unfold consume. now destruct (network w). Qed.

Lemma sleep_eq s w : 0 <= s -> time_sleep s w = (Ret tt, log (Sleep s) w).
Proof. intros H. unfold time_sleep. now destruct (Z.ltb_spec s 0); [lia |]. Qed.

Ltac round_done Hw0 :=
  do 2 eexists; (split; [| split]); cycle 2;
  [reflexivity | cbn; rewrite Hw0, <- ?app_assoc; reflexivity | reflexivity].

(** One round of the status poller: it sends one query; on a reply that
    reports [ready] it returns [True], on one that reports [failed] it
    returns [False], and on any other it sleeps and goes on. *)
Lemma ds_poll_round key id m s k n w :
  0 <= s ->
  exists w1 es1,
    trace w1 = trace w ++ Http (status_request key id) (next_reply w) :: es1 /\
    forallb offline es1 = true /\
    DocSum.poll key id m s (S k) n w =
      if reports "ready" (next_reply w) then (Ret true, w1)
      else if reports "failed" (next_reply w) then (Ret false, w1)
      else DocSum.poll key id m s k (n + 1) w1.
Proof.
  intros Hs. cbn [DocSum.poll]. unfold bind at 1. unfold attempt, bind at 1.
  rewrite send_eq. fold (status_request key id).
  set (w0 := log (Http (status_request key id) (next_reply w)) (consume w)).
  assert (Hw0 : trace w0 = trace w ++ [Http (status_request key id) (next_reply w)]).
  { subst w0. cbn. now rewrite trace_consume. }
  clearbody w0. unfold reports, reported_state.
  destruct (next_reply w) as [e | r].
  - (* the request itself fails *)
    destruct e; cbn -[Z.ltb]; unfold bind, print; rewrite (sleep_eq _ _ Hs); round_done Hw0.
  - unfold raise_for_status, http_ok.
    destruct ((400 <=? status_code r) && (status_code r <? 600)) eqn:Hst; cbn [negb].
    + (* an HTTP error *)
      cbn -[Z.ltb]; unfold bind, print; rewrite (sleep_eq _ _ Hs); round_done Hw0.
    + unfold response_json. destruct (parsed r) as [j | ].
      * destruct j as [ | b | z | z e | str | items | members];
          try (cbn -[Z.ltb]; unfold bind, print; rewrite (sleep_eq _ _ Hs); round_done Hw0).
        cbn -[Z.ltb eq_str]. unfold get, get_default.
        destruct (dict_get members "status") as [state | ]; cbn -[Z.ltb eq_str].
        -- unfold bind, print, ret.
           destruct (eq_str state "ready"); [| destruct (eq_str state "failed")];
             cbn -[Z.ltb]; try rewrite (sleep_eq _ _ Hs); round_done Hw0.
        -- unfold bind, print, ret. cbn -[Z.ltb]. rewrite (sleep_eq _ _ Hs). round_done Hw0.
      * cbn -[Z.ltb]; unfold bind, print; rewrite (sleep_eq _ _ Hs); round_done Hw0.
Qed.

Lemma status_replies_app es1 es2 :
  status_replies (es1 ++ es2) = status_replies es1 ++ status_replies es2.
Proof. unfold status_replies. apply omap_app. Qed.

Lemma status_replies_offline es : forallb offline es = true -> status_replies es = [].
Proof.
  unfold status_replies.
  induction es as [ | e es IH]; [reflexivity |]. cbn [forallb].
  intros H. apply andb_prop in H as [He Hes].
  destruct e; try discriminate; cbn; auto.
Qed.

Lemma offline_no_http es rq rp : forallb offline es = true -> Http rq rp ∉ es.
Proof.
  intros H Hin. rewrite forallb_forall in H. apply list_elem_of_In in Hin.
  specialize (H _ Hin). discriminate.
Qed.

Lemma reports_exclusive rp : reports "ready" rp = true -> reports "failed" rp = false.
Proof.
  unfold reports. destruct (reported_state rp) as [[ | | | | str | | ] | ]; cbn; try discriminate.
  intros H. apply String.eqb_eq in H. now subst.
Qed.

(** The status poller, for any number of rounds. *)
Lemma ds_poll_spec key id m s (Hs : 0 <= s) : forall rounds n w,
  exists b w' es,
    DocSum.poll key id m s rounds n w = (Ret b, w') /\
    trace w' = trace w ++ es /\
    only_polls id es /\
    (length (status_replies es) <= rounds)%nat /\
    (b = true <-> exists rp, rp ∈ status_replies es /\ reports "ready" rp = true) /\
    (forall rp, rp ∈ status_replies es -> reports "failed" rp = true -> b = false) /\
    (b = false ->
       (exists rp, rp ∈ status_replies es /\ reports "failed" rp = true) \/
       length (status_replies es) = rounds).
Proof.
  induction rounds as [ | k IH]; intros n w.
  - exists false. eexists. exists [Print [Lit "❌ File did not become available in time."]].
    split; [reflexivity |]. split; [reflexivity |].
    split; [| split; [cbn; lia | split; [| split]]].
    + intros rq rp Hin. apply list_elem_of_singleton in Hin. discriminate.
    + split; [discriminate |]. intros (rp & Hin & _). cbn in Hin. now apply elem_of_nil in Hin.
    + auto.
    + auto.
  - destruct (ds_poll_round key id m s k n w Hs) as (w1 & es1 & Hw1 & Hoff & Hrun).
    rewrite Hrun. clear Hrun.
    set (rp := next_reply w) in *.
    assert (Hsr : status_replies (Http (status_request key id) rp :: es1) = [rp]).
    { change (Http (status_request key id) rp :: es1)
        with ([Http (status_request key id) rp] ++ es1).
      rewrite status_replies_app, (status_replies_offline _ Hoff). reflexivity. }
    assert (Honly : only_polls id (Http (status_request key id) rp :: es1)).
    { intros rq rp' Hin. apply elem_of_cons in Hin as [Hin | Hin].
      - injection Hin as -> _. auto.
      - now apply offline_no_http in Hin. }
    destruct (reports "ready" rp) eqn:Hready; [| destruct (reports "failed" rp) eqn:Hfailed].
    + exists true, w1, (Http (status_request key id) rp :: es1).
      split; [reflexivity |]. split; [exact Hw1 |]. split; [exact Honly |].
      rewrite Hsr. split; [cbn; lia |]. split; [| split; [| discriminate]].
      * split; [| reflexivity]. intros _. exists rp. split; [apply list_elem_of_here | exact Hready].
      * intros rp' Hin Hf. apply list_elem_of_singleton in Hin. subst rp'.
        rewrite (reports_exclusive _ Hready) in Hf. discriminate.
    + exists false, w1, (Http (status_request key id) rp :: es1).
      split; [reflexivity |]. split; [exact Hw1 |]. split; [exact Honly |].
      rewrite Hsr. split; [cbn; lia |]. split; [| split].
      * split; [discriminate |]. intros (rp' & Hin & Hr).
        apply list_elem_of_singleton in Hin. subst rp'. congruence.
      * auto.
      * intros _. left. exists rp. split; [apply list_elem_of_here | exact Hfailed].
    + destruct (IH (n + 1) w1) as (b & w' & es & Hrun & Htr & Hop & Hlen & Hiff & Hfl & Hfalse).
      exists b, w', ((Http (status_request key id) rp :: es1) ++ es).
      split; [exact Hrun |]. split; [rewrite Htr, Hw1, <- app_assoc; reflexivity |].
      split; [| rewrite status_replies_app, Hsr; cbn [app length]].
      * intros rq rp' Hin. apply elem_of_app in Hin as [Hin | Hin]; eauto.
      * split; [lia |]. split; [| split].
        -- rewrite Hiff. split.
           ++ intros (rp' & Hin & Hr). exists rp'. split; [now apply list_elem_of_further | exact Hr].
           ++ intros (rp' & Hin & Hr). apply elem_of_cons in Hin as [-> | Hin]; [congruence |].
              eauto.
        -- intros rp' Hin Hf. apply elem_of_cons in Hin as [-> | Hin]; [congruence | eauto].
        -- intros Hb. destruct (Hfalse Hb) as [(rp' & Hin & Hr) | Hl].
           ++ left. exists rp'. split; [now apply list_elem_of_further | exact Hr].
           ++ right. lia.
Qed.

(** *** The availability poller of document_analyzer.py *)

Import DocumentAnalyzer.

Lemma get_headers_with_key w :
  has_key w -> get_headers w = (Ret (Some (headers_of w)), w).
Proof.
  intros (c & k & H). unfold get_headers, validate_api_key, headers_of, bind, os_getenv_key.
  rewrite H. reflexivity.
Qed.

Lemma get_headers_without_key w :
  no_key w ->
  exists w', get_headers w = (Ret None, w') /\ trace w' = trace w ++ missing_key_lines /\
             environ_key w' = environ_key w /\ fs w' = fs w /\ windows w' = windows w.
Proof.
  intros [H | H]; unfold get_headers, validate_api_key, bind, os_getenv_key; rewrite H; cbn;
    (eexists; split; [reflexivity |]); cbn; rewrite <- app_assoc; auto.
Qed.

Lemma query_files_with_key_run w :
  has_key w ->
  exists w1 es1,
    trace w1 = trace w ++ Http (query_request w) (next_reply w) :: es1 /\
    forallb offline es1 = true /\
    query_files w = (Ret (queried (next_reply w)), w1).
Proof.
  intros Hk. unfold query_files. unfold bind at 1. rewrite (get_headers_with_key _ Hk).
  unfold bind at 1. unfold start_of_yesterday. unfold try_except, bind at 1.
  rewrite send_eq. fold (query_payload (yesterday w)). fold (query_request w).
  set (w0 := log (Http (query_request w) (next_reply w)) (consume w)).
  assert (Hw0 : trace w0 = trace w ++ [Http (query_request w) (next_reply w)]).
  { subst w0. cbn. now rewrite trace_consume. }
  clearbody w0. unfold queried.
  destruct (next_reply w) as [e | r].
  - destruct e; cbn; unfold bind, print; round_done Hw0.
  - unfold raise_for_status, http_ok, bind.
    destruct ((400 <=? status_code r) && (status_code r <? 600)); cbn.
    + unfold bind, print. round_done Hw0.
    + unfold response_json. destruct (parsed r); cbn; unfold bind, print; round_done Hw0.
Qed.

Lemma query_files_with_key w :
  has_key w ->
  exists w1 es1,
    trace w1 = trace w ++ Http (query_request w) (next_reply w) :: es1 /\
    forallb offline es1 = true /\ same_setting w w1 /\
    query_files w = (Ret (queried (next_reply w)), w1).
Proof.
  intros Hk. destruct (query_files_with_key_run w Hk) as (w1 & es1 & Htr & Hoff & Hq).
  exists w1, es1. repeat split; auto;
    pose proof (da_query_files w) as (Hs & _); rewrite Hq in Hs; apply Hs.
Qed.

Lemma listing_outcome_queried name rp :
  listing_outcome name rp =
  if truthy (queried rp) then
    rbind (get_default (queried rp) "data" (JObj [])) (fun data =>
    rbind (get_default data "items" (JArr [])) (fun files_list =>
    search_listing files_list name))
  else Ret None.
Proof.
  unfold listing_outcome, queried. destruct rp as [e | r]; [reflexivity |].
  destruct (http_ok r); [| reflexivity]. destruct (parsed r); reflexivity.
Qed.

Lemma same_setting_log e w w1 : same_setting w w1 -> same_setting w (log e w1).
Proof. intros H. exact H. Qed.

Ltac poll_done line Hw1 Hoff Hss :=
  eexists; exists [line]; eexists;
  (split; [| split; [reflexivity | split; [| split]]]); cycle 3;
  [reflexivity | cbn; rewrite Hw1, <- ?app_assoc; reflexivity
  | cbn; rewrite ?forallb_app, Hoff; reflexivity | exact Hss].

(** One round of the availability poller: one listing query; an entry of
    that name ends the loop with its id, a listing of the wrong shape
    raises, anything else leads to the next round. *)
Lemma da_poll_round name m s k n w :
  0 <= s -> has_key w ->
  exists w1 es0 es1,
    trace w1 = trace w ++ es0 ++ Http (query_request w) (next_reply w) :: es1 /\
    forallb offline es0 = true /\ forallb offline es1 = true /\
    same_setting w w1 /\
    poll name m s (S k) n w =
      match listing_outcome name (next_reply w) with
      | Ret (Some file_id) => (Ret file_id, w1)
      | Ret None => poll name m s k (n + 1) w1
      | Raise e => (Raise e, w1)
      end.
Proof.
  intros Hs Hk. cbn [poll]. unfold bind at 1. unfold print at 1.
  set (line := Print _).
  assert (Hk' : has_key (log line w)) by exact Hk.
  destruct (query_files_with_key _ Hk') as (w1 & es1 & Hw1 & Hoff & Hss & Hq).
  unfold bind at 1. rewrite Hq.
  change (next_reply (log line w)) with (next_reply w) in *.
  change (query_request (log line w)) with (query_request w) in *.
  change (same_setting w w1) in Hss.
  cbn [trace log] in Hw1. rewrite <- app_assoc in Hw1.
  rewrite listing_outcome_queried.
  destruct (truthy (queried (next_reply w))); cbn [negb].
  - unfold bind at 1. unfold lift.
    destruct (get_default (queried (next_reply w)) "data" (JObj [])) as [data | e]; cbn [rbind].
    2:{ exists w1, [line], es1. repeat split; auto; apply Hss. }
    unfold bind at 1.
    destruct (get_default data "items" (JArr [])) as [files_list | e]; cbn [rbind].
    2:{ exists w1, [line], es1. repeat split; auto; apply Hss. }
    unfold bind at 1.
    destruct (search_listing files_list name) as [[file_id | ] | e].
    + unfold bind, print, ret. poll_done line Hw1 Hoff Hss.
    + destruct (n <? m).
      * unfold bind at 1. unfold bind at 1. unfold print. rewrite (sleep_eq _ _ Hs).
        poll_done line Hw1 Hoff Hss.
      * unfold bind at 1. unfold ret.
        exists w1, [line], es1. repeat split; auto; apply Hss.
    + exists w1, [line], es1. repeat split; auto; apply Hss.
  - unfold bind at 1. unfold print. unfold bind at 1. rewrite (sleep_eq _ _ Hs).
    poll_done line Hw1 Hoff Hss.
Qed.

Lemma listing_replies_app es1 es2 :
  listing_replies (es1 ++ es2) = listing_replies es1 ++ listing_replies es2.
Proof. unfold listing_replies. apply omap_app. Qed.

Lemma listing_replies_offline es : forallb offline es = true -> listing_replies es = [].
Proof.
  unfold listing_replies.
  induction es as [ | e es IH]; [reflexivity |]. cbn [forallb].
  intros H. apply andb_prop in H as [He Hes].
  destruct e; try discriminate; cbn; auto.
Qed.

Lemma has_key_same w w1 : same_setting w w1 -> has_key w -> has_key w1.
Proof. intros (H & _) (c & k & Hk). exists c, k. congruence. Qed.

Lemma find_by_name_first items name : forall file_id,
  find_by_name items name = Ret (Some file_id) -> first_named name file_id items.
Proof.
  induction items as [ | x items IH]; intros file_id; cbn; [discriminate |].
  destruct (get x "name") as [v | e] eqn:Hn; cbn; [| discriminate].
  destruct (eq_str v name) eqn:Hv.
  - destruct (get x "id") as [i | e] eqn:Hi; cbn; [| discriminate].
    intros [= <-]. exists [], x, items. repeat split; auto.
    + intros y Hy. now apply elem_of_nil in Hy.
    + rewrite Hn. f_equal. destruct v; try discriminate. cbn in Hv.
      apply String.eqb_eq in Hv. now subst.
  - intros H. destruct (IH _ H) as (pre & entry & post & -> & Hpre & Hname & Hid).
    exists (x :: pre), entry, post. repeat split; auto.
    intros y Hy. apply elem_of_cons in Hy as [-> | Hy]; eauto.
Qed.

(** A round that ends with an id: the reply carried a listing, and the
    id is that of the first entry of the wanted name. *)
Lemma listing_outcome_found name rp file_id :
  listing_outcome name rp = Ret (Some file_id) ->
  exists items, listed rp items /\ first_named name file_id items.
Proof.
  unfold listing_outcome, listed. destruct rp as [e | r]; [discriminate |].
  destruct (http_ok r) eqn:Hok; [| discriminate].
  destruct (parsed r) as [resp | ] eqn:Hp; [| discriminate].
  destruct (truthy resp); [| discriminate].
  destruct (get_default resp "data" (JObj [])) as [data | e] eqn:Hd; cbn; [| discriminate].
  destruct (get_default data "items" (JArr [])) as [l | e] eqn:Hi; cbn; [| discriminate].
  destruct l as [ | | | | [] | items | []]; cbn; try discriminate.
  intros H. exists items. split; [| now apply find_by_name_first].
  exists r, resp, data. auto.
Qed.

(** The availability poller, for any number of rounds. *)
Lemma da_poll_spec name m s (Hs : 0 <= s) : forall rounds n w,
  has_key w ->
  exists r w' es,
    poll name m s rounds n w = (r, w') /\
    trace w' = trace w ++ es /\
    (length (listing_replies es) <= rounds)%nat /\
    (forall v, r = Ret v -> truthy v = true ->
       exists rp, rp ∈ listing_replies es /\ listing_outcome name rp = Ret (Some v)) /\
    ((forall rp, rp ∈ listing_replies es -> listing_outcome name rp = Ret None) ->
     r = Ret JNull /\ length (listing_replies es) = rounds).
Proof.
  induction rounds as [ | k IH]; intros n w Hk.
  - exists (Ret JNull). eexists. exists [Print [Lit "❌ File did not become available in time"]].
    split; [reflexivity |]. split; [reflexivity |]. split; [cbn; lia |]. split.
    + intros v [= <-]. discriminate.
    + auto.
  - destruct (da_poll_round name m s k n w Hs Hk) as (w1 & es0 & es1 & Hw1 & H0 & H1 & Hss & Hrun).
    rewrite Hrun. clear Hrun. set (rp := next_reply w) in *.
    assert (Hlr : listing_replies (es0 ++ Http (query_request w) rp :: es1) = [rp]).
    { change (Http (query_request w) rp :: es1) with ([Http (query_request w) rp] ++ es1).
      rewrite !listing_replies_app, (listing_replies_offline _ H0),
        (listing_replies_offline _ H1). reflexivity. }
    destruct (listing_outcome name rp) as [[file_id | ] | e] eqn:Hout.
    + exists (Ret file_id), w1, (es0 ++ Http (query_request w) rp :: es1).
      split; [reflexivity |]. split; [exact Hw1 |]. rewrite Hlr. split; [cbn; lia |]. split.
      * intros v [= <-] _. exists rp. split; [apply list_elem_of_here | exact Hout].
      * intros H. specialize (H rp (list_elem_of_here _ _)). congruence.
    + destruct (IH (n + 1) w1 (has_key_same _ _ Hss Hk)) as (r & w' & es & Hrun & Htr & Hlen & Hhit & Hnone).
      exists r, w', ((es0 ++ Http (query_request w) rp :: es1) ++ es).
      split; [exact Hrun |]. split; [rewrite Htr, Hw1, <- !app_assoc; reflexivity |].
      rewrite listing_replies_app, Hlr. cbn [app length]. split; [lia |]. split.
      * intros v Hr Hv. destruct (Hhit v Hr Hv) as (rp' & Hin & Ho).
        exists rp'. split; [now apply list_elem_of_further | exact Ho].
      * intros H. destruct Hnone as [-> Hl].
        { intros rp' Hin. apply H. now apply list_elem_of_further. }
        split; [reflexivity | lia].
    + exists (Raise e), w1, (es0 ++ Http (query_request w) rp :: es1).
      split; [reflexivity |]. split; [exact Hw1 |]. rewrite Hlr. split; [cbn; lia |]. split.
      * discriminate.
      * intros H. specialize (H rp (list_elem_of_here _ _)). congruence.
Qed.




End PollFacts.

Import PollFacts.

(** ** The two uploads (C3, C9) *)

Module UploadFacts.

Ltac trace_simpl :=
  repeat match goal with x := _ : world |- _ => subst x end;
  repeat first [rewrite trace_consume | progress cbn [trace log snd fst]];
  rewrite <- ?app_assoc.

(** Membership of a request in an explicit list of events. *)
Ltac which_event Hin :=
  repeat (apply elem_of_cons in Hin as [Hin | Hin]);
  try (now apply elem_of_nil in Hin);
  try discriminate Hin.

Lemma ds_upload_outcome key p kb tags w :
  exists r w' es,
    DocSum.upload_file_to_amplify key p kb tags w = (r, w') /\
    trace w' = trace w ++ es /\
    (r = Ret JNull \/
     forall rq rp, Http rq rp ∈ es -> rq_verb rq = PUT -> failed rp = false).
Proof.
  unfold DocSum.upload_file_to_amplify, DocSum.on_request_error.
  unfold bind at 1. unfold platform_is_windows. unfold bind at 1. unfold mimetypes_guess_type.
  unfold bind at 1. unfold print at 1. unfold bind at 1. unfold attempt.
  rewrite send_eq. set (post := Request POST _ _ _ _). set (w0 := log (Print _) w).
  change (next_reply w0) with (next_reply w).
  destruct (next_reply w) as [e | r].
  - destruct e; cbn [exn_of_net_error is_RequestException]; unfold bind, print, ret; cbn [fst snd];
      (do 3 eexists; split; [reflexivity |]; split; [trace_simpl; reflexivity | left; reflexivity]).
  - unfold try_except, bind at 1. unfold raise_for_status.
    destruct ((400 <=? status_code r) && (status_code r <? 600)).
    + unfold raise, bind, print, ret. cbn [fst snd is_RequestException].
      do 3 eexists; split; [reflexivity |]; split; [trace_simpl; reflexivity | left; reflexivity].
    + unfold ret at 1. unfold bind at 1. unfold response_json.
      destruct (parsed r) as [j | ].
      2:{ unfold raise, bind, print, ret. cbn [fst snd is_RequestException].
          do 3 eexists; split; [reflexivity |]; split; [trace_simpl; reflexivity | left; reflexivity]. }
      unfold ret at 1. unfold bind at 1. unfold print at 1. unfold bind at 1.
      unfold lift, get, get_default.
      destruct j as [ | b | z | z e | str | items | members];
        try (cbn [fst snd is_RequestException]; do 3 eexists; split; [reflexivity |]; split; [trace_simpl; reflexivity |];
             right; intros rq rp Hin Hv; which_event Hin; injection Hin as -> _; discriminate).
      set (url := match dict_get members "uploadUrl" with Some x => x | None => JNull end).
      assert (Hurl : (match dict_get members "uploadUrl" with
                      | Some x => Ret x | None => Ret JNull end) = Ret url).
      { subst url. now destruct (dict_get members "uploadUrl"). }
      rewrite Hurl. clearbody url. unfold bind at 1.
      destruct (truthy url).
      * unfold bind at 1. unfold print at 1. unfold bind at 1. unfold read_bytes.
        cbn [fs log].
        destruct (fs (consume w0) !! p) as [[content | ] | ].
        -- unfold bind at 1. rewrite send_eq. set (put := Request PUT _ _ _ _).
           set (w3 := log _ (log _ (log _ (consume w0)))).
           destruct (next_reply w3) as [e | r2] eqn:Hr2.
           ++ destruct e; cbn [exn_of_net_error is_RequestException]; unfold bind, print, ret;
                cbn [fst snd];
                (do 3 eexists; split; [reflexivity |]; split; [trace_simpl; reflexivity | left; reflexivity]).
           ++ unfold bind at 1. unfold raise_for_status.
              destruct ((400 <=? status_code r2) && (status_code r2 <? 600)) eqn:Hst.
              ** unfold raise, bind, print, ret. cbn [fst snd is_RequestException].
                 do 3 eexists; split; [reflexivity |]; split; [trace_simpl; reflexivity | left; reflexivity].
              ** unfold ret, bind, print. cbn [fst snd].
                 do 3 eexists; split; [reflexivity |]; split; [trace_simpl; reflexivity |].
                 right; intros rq rp Hin Hv; which_event Hin.
                 --- injection Hin as -> _. discriminate.
                 --- injection Hin as -> ->. exact Hst.
        -- cbn [fst snd is_RequestException].
           do 3 eexists; split; [reflexivity |]; split; [trace_simpl; reflexivity |].
           right; intros rq rp Hin Hv; which_event Hin; injection Hin as -> _; discriminate.
        -- cbn [fst snd is_RequestException].
           do 3 eexists; split; [reflexivity |]; split; [trace_simpl; reflexivity |].
           right; intros rq rp Hin Hv; which_event Hin; injection Hin as -> _; discriminate.
      * unfold ret, bind. cbn [fst snd].
        do 3 eexists; split; [reflexivity |]; split; [trace_simpl; reflexivity |].
        right; intros rq rp Hin Hv; which_event Hin; injection Hin as -> _; discriminate.
Qed.

Import DocumentAnalyzer.

Lemma da_request_and_transfer_outcome h p q kb tags actions rag g w :
  exists r w' es,
    request_and_transfer h p q kb tags actions rag g w = (r, w') /\
    trace w' = trace w ++ es /\
    (r = Ret JNull \/ (exists e, r = Raise e /\ is_Exception e = true) \/
     forall rq rp, Http rq rp ∈ es -> rq_verb rq = PUT -> failed rp = false).
Proof.
  unfold request_and_transfer.
  unfold bind at 1. unfold platform_is_windows. unfold bind at 1. unfold mimetypes_guess_type.
  unfold bind at 1. rewrite send_eq. set (post := Request POST _ _ _ _).
  destruct (next_reply w) as [e | r].
  - destruct e; cbn [exn_of_net_error];
      (do 3 eexists; split; [reflexivity |]; split; [trace_simpl; reflexivity |];
       right; left; eexists; split; reflexivity).
  - unfold bind at 1. unfold raise_for_status.
    destruct ((400 <=? status_code r) && (status_code r <? 600)).
    + unfold raise. do 3 eexists; split; [reflexivity |]; split; [trace_simpl; reflexivity |].
      right; left; eexists; split; reflexivity.
    + unfold ret at 1. unfold bind at 1. unfold response_json.
      destruct (parsed r) as [j | ].
      2:{ unfold raise. do 3 eexists; split; [reflexivity |]; split; [trace_simpl; reflexivity |].
          right; left; eexists; split; reflexivity. }
      unfold ret at 1. unfold bind at 1. unfold lift, get, get_default.
      destruct j as [ | b | z | z e | str | items | members];
        try (do 3 eexists; split; [reflexivity |]; split; [trace_simpl; reflexivity |];
             right; left; eexists; split; reflexivity).
      set (success := match dict_get members "success" with Some x => x | None => JNull end).
      assert (Hs : (match dict_get members "success" with
                    | Some x => Ret x | None => Ret JNull end) = Ret success).
      { subst success. now destruct (dict_get members "success"). }
      rewrite Hs. clearbody success.
      destruct (truthy success); cbn [negb].
      2:{ set (error := match dict_get members "error" with
                        | Some x => x | None => JStr "Unknown error" end).
          assert (He : (match dict_get members "error" with
                        | Some x => Ret x | None => Ret (JStr "Unknown error") end) = Ret error).
          { subst error. now destruct (dict_get members "error"). }
          unfold bind at 1. rewrite He. unfold bind, print, ret.
          do 3 eexists; split; [reflexivity |]; split; [trace_simpl; reflexivity |].
          left; reflexivity. }
      set (url := match dict_get members "uploadUrl" with Some x => x | None => JNull end).
      assert (Hurl : (match dict_get members "uploadUrl" with
                      | Some x => Ret x | None => Ret JNull end) = Ret url).
      { subst url. now destruct (dict_get members "uploadUrl"). }
      unfold bind at 1. rewrite Hurl. clearbody url.
      destruct (truthy url); cbn [negb].
      2:{ unfold bind, print, ret.
          do 3 eexists; split; [reflexivity |]; split; [trace_simpl; reflexivity |].
          left; reflexivity. }
      unfold bind at 1. unfold read_bytes. cbn [fs log].
      destruct (fs (consume w) !! q) as [[content | ] | ];
        try (do 3 eexists; split; [reflexivity |]; split; [trace_simpl; reflexivity |];
             right; left; eexists; split; reflexivity).
      unfold bind at 1. rewrite send_eq. set (put := Request PUT _ _ _ _).
      set (w3 := log _ (consume w)).
      destruct (next_reply w3) as [e | r2] eqn:Hr2.
      * destruct e; cbn [exn_of_net_error];
          (do 3 eexists; split; [reflexivity |]; split; [trace_simpl; reflexivity |];
           right; left; eexists; split; reflexivity).
      * unfold bind at 1. unfold raise_for_status.
        destruct ((400 <=? status_code r2) && (status_code r2 <? 600)) eqn:Hst.
        -- unfold raise. do 3 eexists; split; [reflexivity |]; split; [trace_simpl; reflexivity |].
           right; left; eexists; split; reflexivity.
        -- unfold ret, bind, print.
           do 3 eexists; split; [reflexivity |]; split; [trace_simpl; reflexivity |].
           right; right; intros rq rp Hin Hv; which_event Hin.
           ++ injection Hin as -> _. discriminate.
           ++ injection Hin as -> ->. exact Hst.
Qed.

Lemma da_request_and_transfer_throws h p q kb tags actions rag g :
  throws is_Exception (request_and_transfer h p q kb tags actions rag g).
Proof. unfold request_and_transfer. throws_go. Qed.

Lemma grows_offline_no_put w w1 :
  grows offline w w1 ->
  exists es, trace w1 = trace w ++ es /\ forall rq rp, Http rq rp ∉ es.
Proof.
  intros (es & Htr & Hoff). exists es. split; [exact Htr |].
  intros rq rp. now apply offline_no_http.
Qed.

(** The upload of document_analyzer.py always returns, and what it
    returns is [None] unless every transfer of bytes it made went well. *)
Lemma da_upload_outcome p kb tags actions rag g w :
  exists v w' es,
    upload_file_to_amplify p kb tags actions rag g w = (Ret v, w') /\
    trace w' = trace w ++ es /\
    (v = JNull \/
     (forall rq rp, Http rq rp ∈ es -> rq_verb rq = PUT -> failed rp = false) /\
     exists h q w1 w2,
       network w1 = network w /\
       request_and_transfer h p q kb tags actions rag g w1 = (Ret v, w2)).
Proof.
  unfold upload_file_to_amplify. unfold bind at 1.
  pose proof (da_get_headers w) as (_ & Hg & _ & Hn0). specialize (Hn0 eq_refl).
  destruct (get_headers w) as [[[h | ] | e] w0] eqn:Hh; cbn [snd] in Hg, Hn0.
  3:{ exfalso. pose proof (get_headers_with_key w) as H1.
      pose proof (get_headers_without_key w) as H2.
      destruct (environ_key w) as [[ | c k] | ] eqn:Hk.
      - destruct H2 as (? & H2 & _); [right; exact Hk |]. congruence.
      - rewrite H1 in Hh by (exists c, k; exact Hk). discriminate.
      - destruct H2 as (? & H2 & _); [left; exact Hk |]. congruence. }
  2:{ destruct (grows_offline_no_put _ _ Hg) as (es & Htr & _).
      exists JNull, w0, es. auto. }
  destruct (grows_offline_no_put _ _ Hg) as (es0 & Htr0 & Hno0).
  unfold bind at 1. unfold os_path_exists.
  destruct (negb (String.eqb p EmptyString) && bool_decide (is_Some (fs w0 !! p))); cbn [negb].
  2:{ unfold bind, print, ret. exists JNull. do 2 eexists. split; [reflexivity |].
      split; [cbn; rewrite Htr0, <- app_assoc; reflexivity | left; reflexivity]. }
  unfold bind at 1. unfold try_upload. unfold bind at 1. unfold attempt at 1.
  pose proof (da_choose p w0) as (_ & Hc & _ & Hn1). specialize (Hn1 eq_refl).
  pose proof (da_choose_throws p w0) as Hct.
  destruct (choose_file_to_open p w0) as [r1 w1] eqn:Hch. cbn [snd fst] in Hc, Hct, Hn1.
  destruct (grows_offline_no_put _ _ Hc) as (es1 & Htr1 & Hno1).
  unfold bind at 1. unfold attempt at 1.
  destruct r1 as [[tcd fto] | e1].
  - destruct (da_request_and_transfer_outcome h p fto kb tags actions rag g w1)
      as (r2 & w2 & es2 & Hrun & Htr2 & Hout).
    rewrite Hrun. unfold bind at 1. unfold attempt at 1.
    pose proof (da_cleanup tcd) as Hcl. pose proof (da_cleanup_throws tcd) as Hclt.
    destruct r2 as [v | e2].
    + unfold ret at 1. unfold ret at 1. unfold bind at 1. cbn [fst snd].
      specialize (Hcl w2). specialize (Hclt w2).
      destruct (cleanup tcd w2) as [[[] | e3] w3]; cbn [fst snd] in *.
      2:{ specialize (Hclt e3 eq_refl). discriminate. }
      destruct Hcl as (_ & Hg3 & _).
      destruct (grows_offline_no_put _ _ Hg3) as (es3 & Htr3 & Hno3).
      exists v, w3, (es0 ++ es1 ++ es2 ++ es3). split; [reflexivity |].
      split; [rewrite Htr3, Htr2, Htr1, Htr0, <- !app_assoc; reflexivity |].
      destruct Hout as [[= ->] | [(e & [=] & _) | Hout]]; [now left |].
      right. split.
      * intros rq rp Hin. rewrite !elem_of_app in Hin.
        destruct Hin as [Hin | [Hin | [Hin | Hin]]]; eauto;
          [now apply Hno0 in Hin | now apply Hno1 in Hin | now apply Hno3 in Hin].
      * exists h, fto, w1, w2. split; [congruence | exact Hrun].
    + assert (He2 : is_Exception e2 = true).
      { apply (da_request_and_transfer_throws h p fto kb tags actions rag g w1).
        now rewrite Hrun. }
      destruct (is_RequestException e2); [| rewrite He2];
        unfold bind at 1; unfold print at 1; unfold ret at 1; unfold ret at 1;
        unfold bind at 1; cbn [fst snd];
        match goal with |- context [cleanup tcd ?wx] =>
          specialize (Hcl wx); specialize (Hclt wx);
          destruct (cleanup tcd wx) as [[[] | e3] w3]; cbn [fst snd] in *
        end;
        try (specialize (Hclt e3 eq_refl); discriminate);
        destruct Hcl as (_ & Hg3 & _);
        destruct Hg3 as (es3 & Htr3 & _);
        (exists JNull, w3; eexists; split; [reflexivity |]; split; [| now left]);
        rewrite Htr3; cbn [trace log]; rewrite Htr2, Htr1, Htr0, <- !app_assoc; reflexivity.
  - unfold raise at 1. unfold bind at 1. unfold attempt at 1.
    specialize (Hct e1 eq_refl).
    pose proof (da_cleanup None) as Hcl. pose proof (da_cleanup_throws None) as Hclt.
    destruct (is_RequestException e1); [| rewrite Hct];
      unfold bind at 1; unfold print at 1; unfold ret at 1; unfold ret at 1;
      unfold bind at 1; cbn [fst snd];
      match goal with |- context [cleanup None ?wx] =>
        specialize (Hcl wx); specialize (Hclt wx);
        destruct (cleanup None wx) as [[[] | e3] w3]; cbn [fst snd] in *
      end;
      try (specialize (Hclt e3 eq_refl); discriminate);
      destruct Hcl as (_ & Hg3 & _);
      destruct Hg3 as (es3 & Htr3 & _);
      (exists JNull, w3; eexists; split; [reflexivity |]; split; [| now left]);
      rewrite Htr3; cbn [trace log]; rewrite Htr1, Htr0, <- !app_assoc; reflexivity.
Qed.

(** C3. In both scripts, an upload during which a transfer of the bytes
    (the PUT request) failed, by a transport error or an HTTP error
    status, returns [None], although the metadata request before it had
    succeeded. *)
Theorem upload_returns_none_when_transfer_fails :
  (forall key file_path knowledge_base tags w r w' es,
     DocSum.upload_file_to_amplify key file_path knowledge_base tags w = (r, w') ->
     trace w' = trace w ++ es ->
     (exists rq rp, Http rq rp ∈ es /\ rq_verb rq = PUT /\ failed rp = true) ->
     r = Ret JNull) /\
  (forall file_path knowledge_base tags actions rag_on group_id w r w' es,
     upload_file_to_amplify file_path knowledge_base tags actions rag_on group_id w = (r, w') ->
     trace w' = trace w ++ es ->
     (exists rq rp, Http rq rp ∈ es /\ rq_verb rq = PUT /\ failed rp = true) ->
     r = Ret JNull).
Proof.
  split.
  - intros key p kb tags w r w' es Hrun Htr (rq & rp & Hin & Hv & Hf).
    destruct (ds_upload_outcome key p kb tags w) as (r0 & w0 & es0 & Hrun0 & Htr0 & Hout).
    rewrite Hrun in Hrun0. injection Hrun0 as <- <-.
    rewrite Htr in Htr0. apply app_inv_head in Htr0 as <-.
    destruct Hout as [-> | Hout]; [reflexivity |].
    rewrite (Hout _ _ Hin Hv) in Hf. discriminate.
  - intros p kb tags actions rag g w r w' es Hrun Htr (rq & rp & Hin & Hv & Hf).
    destruct (da_upload_outcome p kb tags actions rag g w) as (v & w0 & es0 & Hrun0 & Htr0 & Hout).
    rewrite Hrun in Hrun0. injection Hrun0 as -> <-.
    rewrite Htr in Htr0. apply app_inv_head in Htr0 as <-.
    destruct Hout as [-> | [Hout _]]; [reflexivity |].
    rewrite (Hout _ _ Hin Hv) in Hf. discriminate.
Qed.

Lemma upload_returns_none_when_transfer_fails_witness :
  fst (DocSum.upload_file_to_amplify "key" "a.py" "summaries" JNull put_fails_world)
    = Ret JNull /\
  fst (upload_file_to_amplify "a.py" "documentation" JNull JNull false JNull put_fails_world)
    = Ret JNull.
Proof.
  split.
  - eapply (proj1 upload_returns_none_when_transfer_fails
              "key" "a.py" "summaries" JNull put_fails_world _
              (snd (DocSum.upload_file_to_amplify "key" "a.py" "summaries" JNull put_fails_world))
              (trace (snd (DocSum.upload_file_to_amplify "key" "a.py" "summaries" JNull
                             put_fails_world)))).
    + apply surjective_pairing.
    + reflexivity.
    + do 2 eexists. split; [| split].
      * vm_compute. do 4 apply list_elem_of_further. apply list_elem_of_here.
      * reflexivity.
      * reflexivity.
  - eapply (proj2 upload_returns_none_when_transfer_fails
              "a.py" "documentation" JNull JNull false JNull put_fails_world _
              (snd (upload_file_to_amplify "a.py" "documentation" JNull JNull false JNull
                      put_fails_world))
              (trace (snd (upload_file_to_amplify "a.py" "documentation" JNull JNull false JNull
                             put_fails_world)))).
    + apply surjective_pairing.
    + reflexivity.
    + do 2 eexists. split; [| split].
      * vm_compute. apply list_elem_of_further. apply list_elem_of_here.
      * reflexivity.
      * reflexivity.
Defined.

(** doc_sum.py on a metadata response without [uploadUrl]: the response
    is returned and no byte is transferred. *)
Lemma ds_upload_without_url key p kb tags w r1 members :
  next_reply w = Responds r1 -> failed (Responds r1) = false ->
  parsed r1 = Some (JObj members) -> dict_get members "uploadUrl" = None ->
  exists w' es,
    DocSum.upload_file_to_amplify key p kb tags w = (Ret (JObj members), w') /\
    trace w' = trace w ++ es /\
    forall rq rp, Http rq rp ∈ es -> rq_verb rq = POST.
Proof.
  intros Hn Hf Hp Hu. cbn [failed] in Hf.
  unfold DocSum.upload_file_to_amplify.
  unfold bind at 1. unfold platform_is_windows. unfold bind at 1. unfold mimetypes_guess_type.
  unfold bind at 1. unfold print at 1. unfold bind at 1. unfold attempt.
  rewrite send_eq. set (post := Request POST _ _ _ _). set (w0 := log (Print _) w).
  change (next_reply w0) with (next_reply w). rewrite Hn.
  unfold try_except, bind at 1. unfold raise_for_status. rewrite Hf.
  unfold ret at 1. unfold bind at 1. unfold response_json. rewrite Hp.
  unfold ret at 1. unfold bind at 1. unfold print at 1. unfold bind at 1.
  unfold lift, get, get_default. rewrite Hu. unfold bind at 1. cbn [truthy].
  unfold ret, bind.
  do 2 eexists. split; [reflexivity |]. split; [trace_simpl; reflexivity |].
  intros rq rp Hin. which_event Hin. now injection Hin as -> _.
Qed.

(** document_analyzer.py on the same response: no upload URL, no success. *)
Lemma da_request_without_url h p q kb tags actions rag g w r1 members :
  next_reply w = Responds r1 -> failed (Responds r1) = false ->
  parsed r1 = Some (JObj members) -> dict_get members "uploadUrl" = None ->
  fst (request_and_transfer h p q kb tags actions rag g w) = Ret JNull.
Proof.
  intros Hn Hf Hp Hu. cbn [failed] in Hf.
  unfold request_and_transfer.
  unfold bind at 1. unfold platform_is_windows. unfold bind at 1. unfold mimetypes_guess_type.
  unfold bind at 1. rewrite send_eq. rewrite Hn.
  unfold bind at 1. unfold raise_for_status. rewrite Hf.
  unfold ret at 1. unfold bind at 1. unfold response_json. rewrite Hp.
  unfold ret at 1. unfold bind at 1. unfold lift, get, get_default. rewrite Hu.
  destruct (dict_get members "success") as [success | ]; [destruct (truthy success) |];
    cbn [negb truthy]; unfold bind at 1;
    try (destruct (dict_get members "error")); reflexivity.
Qed.

(** C9. There is a successful metadata response without [uploadUrl],
    here a dict with [success] and [id] only, on which the two scripts
    part: doc_sum.py returns the response as the result of the upload
    and sends nothing but the metadata request, document_analyzer.py
    returns [None]. *)
Theorem uploads_differ_without_upload_url :
  exists members,
    dict_get members "uploadUrl" = None /\ truthy (JObj members) = true /\
    (forall key file_path knowledge_base tags w r1,
       next_reply w = Responds r1 -> failed (Responds r1) = false ->
       parsed r1 = Some (JObj members) ->
       exists w' es,
         DocSum.upload_file_to_amplify key file_path knowledge_base tags w
           = (Ret (JObj members), w') /\
         trace w' = trace w ++ es /\
         forall rq rp, Http rq rp ∈ es -> rq_verb rq = POST) /\
    (forall file_path knowledge_base tags actions rag_on group_id w r1,
       next_reply w = Responds r1 -> failed (Responds r1) = false ->
       parsed r1 = Some (JObj members) ->
       exists w',
         upload_file_to_amplify file_path knowledge_base tags actions rag_on group_id w
           = (Ret JNull, w')).
Proof.
  exists [("success", JBool true); ("id", JStr "f1")].
  split; [reflexivity |]. split; [reflexivity |]. split.
  - intros key p kb tags w r1 Hn Hf Hp.
    now apply (ds_upload_without_url key p kb tags w r1 _ Hn Hf Hp).
  - intros p kb tags actions rag g w r1 Hn Hf Hp.
    destruct (da_upload_outcome p kb tags actions rag g w) as (v & w' & es & Hrun & _ & Hout).
    exists w'. rewrite Hrun. destruct Hout as [-> | [_ (h & q & w1 & w2 & Hnet & Hrat)]];
      [reflexivity |].
    assert (Hn1 : next_reply w1 = Responds r1).
    { unfold next_reply in *. now rewrite Hnet. }
    pose proof (da_request_without_url h p q kb tags actions rag g w1 r1 _ Hn1 Hf Hp eq_refl) as H.
    rewrite Hrat in H. cbn in H. now injection H as ->.
Qed.

End UploadFacts.

Import UploadFacts.

(** ** The cleanup after a hydrated upload (C7) *)

Module CleanupFacts.

Import DocumentAnalyzer.

(** The [finally] block on a directory: the tree goes when it is a
    directory that may be removed, and nothing changes otherwise. *)
Lemma cleanup_fs d w :
  exists w',
    cleanup (Some d) w = (Ret tt, w') /\
    fs w' = if is_dir (fs w) d && rmtree_ok w d
            then filter (fun kv => negb (under (windows w) d kv.1)) (fs w)
            else fs w.
Proof.
  unfold cleanup, is_dir. destruct d as [ | c d]; [eexists; split; reflexivity |].
  unfold bind, os_path_isdir. cbn [String.eqb negb andb].
  destruct (fs w !! String c d) as [[content | entries] | ] eqn:Hd;
    try (eexists; split; reflexivity).
  unfold try_except, bind, shutil_rmtree. rewrite Hd.
  destruct (rmtree_ok w (String c d)); unfold print, ret; cbn [is_Exception];
    eexists; split; reflexivity.
Qed.

(** After an upload attempt that had made a hydrated copy in the
    directory [d], the file system is the one left by the hydration with
    the [finally] block applied to [d]: whatever the outcome of the
    requests. *)
Lemma upload_after_hydration p kb tags actions rag g w d q w1 :
  has_key w -> p <> EmptyString -> is_Some (fs w !! p) ->
  choose_file_to_open p w = (Ret (Some d, q), w1) ->
  exists v w',
    upload_file_to_amplify p kb tags actions rag g w = (Ret v, w') /\
    fs w' = if is_dir (fs w1) d && rmtree_ok w d
            then filter (fun kv => negb (under (windows w) d kv.1)) (fs w1)
            else fs w1.
Proof.
  intros Hk Hp Hex Hch.
  unfold upload_file_to_amplify. unfold bind at 1. rewrite (get_headers_with_key _ Hk).
  unfold bind at 1. unfold os_path_exists.
  apply String.eqb_neq in Hp. rewrite Hp, (bool_decide_true _ Hex). cbn [negb andb].
  unfold bind at 1. unfold try_upload. unfold bind at 1. unfold attempt at 1. rewrite Hch.
  unfold bind at 1. unfold attempt at 1.
  pose proof (da_choose p w) as (Hs1 & _). rewrite Hch in Hs1. cbn [snd] in Hs1.
  pose proof (da_request_and_transfer (headers_of w) p q kb tags actions rag g w1)
    as (Hs2 & _ & Hfs2 & _). specialize (Hfs2 eq_refl).
  pose proof (da_request_and_transfer_throws (headers_of w) p q kb tags actions rag g w1) as Ht.
  destruct (request_and_transfer (headers_of w) p q kb tags actions rag g w1) as [r2 w2].
  cbn [fst snd] in *.
  assert (Hrm : rmtree_ok w2 = rmtree_ok w).
  { destruct Hs1 as (_&_&_&_&_&_&H1). destruct Hs2 as (_&_&_&_&_&_&H2). congruence. }
  assert (Hwin : windows w2 = windows w).
  { destruct Hs1 as (_&H1&_). destruct Hs2 as (_&H2&_). congruence. }
  unfold bind at 1. unfold attempt at 1.
  destruct r2 as [v | e2].
  - unfold ret at 1. unfold ret at 1. unfold bind at 1. cbn [fst].
    destruct (cleanup_fs d w2) as (w' & Hcl & Hfs). rewrite Hcl. unfold lift. cbn [snd].
    exists v, w'. split; [reflexivity |]. now rewrite Hfs, Hfs2, Hrm, Hwin.
  - specialize (Ht e2 eq_refl).
    destruct (is_RequestException e2); [| rewrite Ht];
      unfold bind at 1; unfold print at 1; unfold ret at 1; unfold ret at 1;
      unfold bind at 1; cbn [fst];
      match goal with |- context [cleanup (Some d) ?wx] =>
        destruct (cleanup_fs d wx) as (w' & Hcl & Hfs); rewrite Hcl
      end;
      unfold lift; cbn [snd]; exists JNull, w'; (split; [reflexivity |]);
      rewrite Hfs; cbn [fs log rmtree_ok windows]; now rewrite Hfs2, Hrm, Hwin.
Qed.

(** C7, counterexample: a placeholder file is hydrated into a temporary
    directory, the upload goes through, and [shutil.rmtree] fails on the
    temporary directory; the failure is swallowed, and the directory and
    the copy in it are still there after the attempt. *)
Lemma temporary_directory_survives_failed_rmtree :
  fst (choose_file_to_open "C:\docs\a.py" (placeholder_world false))
    = Ret (Some "C:\Temp\onedrive_hydrate_x1", "C:\Temp\onedrive_hydrate_x1\a.py") /\
  fs (snd (upload_file_to_amplify "C:\docs\a.py" "documentation" JNull JNull false JNull
             (placeholder_world false))) !! "C:\Temp\onedrive_hydrate_x1"
    = Some (FDir []) /\
  fs (snd (upload_file_to_amplify "C:\docs\a.py" "documentation" JNull JNull false JNull
             (placeholder_world false))) !! "C:\Temp\onedrive_hydrate_x1\a.py"
    = Some (FFile "print(1)").
Proof. repeat split; vm_compute; reflexivity. Qed.

(** C7, as amended. In document_analyzer.py, an upload attempt that made
    a hydrated copy in the directory [d] always returns, and whether the
    requests went well or not, the [finally] block has run on [d] by the
    time it returns:
    - when [d] is a directory and [shutil.rmtree] succeeds on it, [d] and
      everything below it are gone;
    - the rest of the file system is as the hydration left it;
    - when [shutil.rmtree] fails, the failure is swallowed and the file
      system is as the hydration left it, [d] included. *)
Theorem cleanup_after_hydrated_upload :
  forall file_path knowledge_base tags actions rag_on group_id w d file_to_open w1,
    has_key w -> file_path <> EmptyString -> is_Some (fs w !! file_path) ->
    choose_file_to_open file_path w = (Ret (Some d, file_to_open), w1) ->
    exists v w',
      upload_file_to_amplify file_path knowledge_base tags actions rag_on group_id w
        = (Ret v, w') /\
      (is_dir (fs w1) d = true -> rmtree_ok w d = true ->
       forall q, under (windows w) d q = true -> fs w' !! q = None) /\
      (forall q, under (windows w) d q = false -> fs w' !! q = fs w1 !! q) /\
      (rmtree_ok w d = false -> fs w' = fs w1).
Proof.
  intros p kb tags actions rag g w d q w1 Hk Hp Hex Hch.
  destruct (upload_after_hydration p kb tags actions rag g w d q w1 Hk Hp Hex Hch)
    as (v & w' & Hrun & Hfs).
  exists v, w'. split; [exact Hrun |]. split; [| split].
  - intros Hd Hok x Hx. rewrite Hfs, Hd, Hok. cbn [andb].
    apply map_lookup_filter_None. right. intros o _ Hn. cbn in Hn. now rewrite Hx in Hn.
  - intros x Hx. rewrite Hfs. destruct (is_dir (fs w1) d && rmtree_ok w d); [| reflexivity].
    destruct (fs w1 !! x) as [o | ] eqn:Ho.
    + apply map_lookup_filter_Some. split; [exact Ho |]. cbn. now rewrite Hx.
    + apply map_lookup_filter_None. now left.
  - intros Hno. rewrite Hfs, Hno. now rewrite andb_false_r.
Qed.

Lemma cleanup_after_hydrated_upload_witness :
  exists v w',
    upload_file_to_amplify "C:\docs\a.py" "documentation" JNull JNull false JNull
      (placeholder_world true) = (Ret v, w') /\
    fs w' !! "C:\Temp\onedrive_hydrate_x1" = None /\
    fs w' !! "C:\Temp\onedrive_hydrate_x1\a.py" = None /\
    fs w' !! "C:\docs\a.py" = Some (FFile EmptyString).
Proof.
  destruct (cleanup_after_hydrated_upload "C:\docs\a.py" "documentation" JNull JNull false JNull
              (placeholder_world true) "C:\Temp\onedrive_hydrate_x1"
              "C:\Temp\onedrive_hydrate_x1\a.py"
              (snd (choose_file_to_open "C:\docs\a.py" (placeholder_world true))))
    as (v & w' & Hrun & Hgone & Hrest & _).
  - exists "k"%char, "ey". reflexivity.
  - discriminate.
  - eexists. vm_compute. reflexivity.
  - vm_compute. reflexivity.
  - exists v, w'. split; [exact Hrun |]. split; [| split].
    + apply Hgone; vm_compute; reflexivity.
    + apply Hgone; vm_compute; reflexivity.
    + rewrite Hrest by (vm_compute; reflexivity). vm_compute. reflexivity.
Defined.

End CleanupFacts.

(** ** Running without a key (C8) *)

Module KeyFacts.

Import DocumentAnalyzer.

Lemma scan_always_returns d w :
  exists l w', scan_directory_for_files d w = (Ret l, w').
Proof.
  unfold scan_directory_for_files, bind, os_path_exists, os_path_isdir.
  destruct (negb (negb (d =? EmptyString)%string && bool_decide (is_Some (fs w !! d))) || _).
  - unfold print, ret. do 2 eexists. reflexivity.
  - unfold platform_is_windows, print, scandir_tree. cbn [fs log windows].
    destruct (fs w !! d) as [[c | entries] | ];
      match goal with |- context [print_found ?l ?w0] =>
        destruct (ScanTheorems.print_found_returns l w0) as [w' ->] end;
      unfold ret; do 2 eexists; reflexivity.
Qed.


(** Without a key an upload prints the two lines about the key, returns
    [None] and does nothing else. *)
Lemma upload_without_key p kb tags actions rag g w :
  no_key w ->
  exists w',
    upload_file_to_amplify p kb tags actions rag g w = (Ret JNull, w') /\
    trace w' = trace w ++ missing_key_lines /\ no_key w'.
Proof.
  intros Hk. destruct (get_headers_without_key w Hk) as (w' & Hh & Htr & He & _).
  exists w'. unfold upload_file_to_amplify, bind. rewrite Hh. unfold ret.
  repeat split; auto. unfold no_key in *. now rewrite He.
Qed.





End KeyFacts.

Import ScanTheorems KeyFacts.

(** ** The two pipelines (C2, C5) *)

Module PipelineFacts.

Lemma calls_elem ok es rq rp :
  forallb (calls ok) es = true -> Http rq rp ∈ es -> ok (rq_url rq) = true.
Proof.
  intros H Hin. rewrite forallb_forall in H. apply list_elem_of_In in Hin.
  exact (H _ Hin).
Qed.

(** The summarization pipeline either sends no summarization request, or
    sends exactly one, for one file id, after a status query for that id
    was answered with [ready]. *)
Lemma summarize_document_structure key p w :
  exists r w' es,
    DocSum.summarize_document key p w = (r, w') /\
    trace w' = trace w ++ es /\
    (no_summary_request es \/
     exists before file_id rp after,
       es = before ++ Http (summary_request key (windows w) p file_id) rp :: after /\
       polled_ready file_id before /\
       no_summary_request before /\ no_summary_request after).
Proof.
  unfold DocSum.summarize_document.
  unfold bind at 1. unfold print at 1. unfold bind at 1. unfold print at 1.
  set (w0 := log _ (log _ w)).
  assert (Htr0 : trace w0 = trace w ++
            [Print [Lit "=== Document Summarization Pipeline (Single File) ==="];
             Print [Lit "📄 File: "; Lit p]]).
  { subst w0. cbn. now rewrite <- app_assoc. }
  assert (Hwin0 : windows w0 = windows w) by reflexivity.
  clearbody w0. set (es0 := [_; _]) in Htr0.
  assert (Hno0 : no_summary_request es0).
  { intros rq rp Hin. subst es0. which_event Hin. }
  clearbody es0.
  unfold bind at 1.
  pose proof (ds_upload key p "summaries" JNull w0) as (Hs1 & (es1 & Htr1 & Hc1) & _).
  destruct (DocSum.upload_file_to_amplify key p "summaries" JNull w0) as [[up | e] w1];
    cbn [snd] in *.
  2:{ exists (Raise e), w1, (es0 ++ es1). split; [reflexivity |].
      split; [rewrite Htr1, Htr0, <- app_assoc; reflexivity |].
      left. intros rq rp Hin Hu. apply elem_of_app in Hin as [Hin | Hin].
      - exact (Hno0 _ _ Hin Hu).
      - apply (calls_elem _ _ _ _ Hc1) in Hin. rewrite Hu in Hin. discriminate. }
  assert (Hno1 : no_summary_request (es0 ++ es1)).
  { intros rq rp Hin Hu. apply elem_of_app in Hin as [Hin | Hin].
    - exact (Hno0 _ _ Hin Hu).
    - apply (calls_elem _ _ _ _ Hc1) in Hin. rewrite Hu in Hin. discriminate. }
  assert (Htr01 : trace w1 = trace w ++ es0 ++ es1).
  { rewrite Htr1, Htr0, <- app_assoc. reflexivity. }
  assert (Hwin1 : windows w1 = windows w).
  { destruct Hs1 as (_ & H & _). congruence. }
  clear Htr0 Htr1 Hno0 Hc1 Hs1 Hwin0.
  set (es01 := es0 ++ es1) in *. clearbody es01. clear es0 es1 w0.
  destruct (truthy up); cbn [negb].
  2:{ unfold print. exists (Ret tt). do 2 eexists. split; [reflexivity |].
      split; [cbn; rewrite Htr01, <- app_assoc; reflexivity |].
      left. intros rq rp Hin Hu. apply elem_of_app in Hin as [Hin | Hin].
      - exact (Hno1 _ _ Hin Hu).
      - which_event Hin. }
  unfold bind at 1. unfold lift.
  destruct (get up "id") as [file_id | e].
  2:{ exists (Raise e), w1, es01. split; [reflexivity |]. split; [exact Htr01 | now left]. }
  destruct (truthy file_id); cbn [negb].
  2:{ unfold bind, print. exists (Ret tt). do 2 eexists. split; [reflexivity |].
      split; [cbn; rewrite Htr01, <- !app_assoc; reflexivity |].
      left. intros rq rp Hin Hu. apply elem_of_app in Hin as [Hin | Hin].
      - exact (Hno1 _ _ Hin Hu).
      - which_event Hin. }
  unfold bind at 1.
  unfold DocSum.wait_for_file_processing.
  destruct (ds_poll_spec key file_id 10 20 ltac:(lia) (Z.to_nat 10) 1 w1)
    as (b & w2 & es2 & Hrun2 & Htr2 & Honly & _ & Hiff & _).
  rewrite Hrun2.
  pose proof (ds_poll key file_id 10 20 (Z.to_nat 10) 1 w1) as (Hs2 & _).
  rewrite Hrun2 in Hs2. cbn [snd] in Hs2.
  assert (Hwin2 : windows w2 = windows w).
  { destruct Hs2 as (_ & H & _). congruence. }
  assert (Hno2 : no_summary_request (es01 ++ es2)).
  { intros rq rp Hin Hu. apply elem_of_app in Hin as [Hin | Hin].
    - exact (Hno1 _ _ Hin Hu).
    - destruct (Honly _ _ Hin) as [_ H]. congruence. }
  destruct b; cbn [negb].
  2:{ exists (Ret tt), w2, (es01 ++ es2). split; [reflexivity |].
      split; [rewrite Htr2, Htr01, <- !app_assoc; reflexivity | now left]. }
  assert (Hready : polled_ready file_id (es01 ++ es2)).
  { destruct (proj1 Hiff eq_refl) as (rp & Hin & Hr).
    unfold status_replies in Hin. apply list_elem_of_omap in Hin as (e & Hin & He).
    destruct e as [ | [v u hd bd tm] rp' | | | ]; try discriminate.
    destruct v; try discriminate. destruct u; try discriminate. injection He as ->.
    exists (Request GET (FileStatus file_id0) hd bd tm), rp.
    split; [apply elem_of_app; now right |].
    split; [| exact Hr]. now destruct (Honly _ _ Hin) as [_ ->]. }
  unfold bind at 1. unfold platform_is_windows. unfold bind at 1.
  unfold attempt. rewrite send_eq. rewrite Hwin2.
  fold (summary_request key (windows w) p file_id).
  set (post := summary_request key (windows w) p file_id).
  set (w3 := log _ (consume w2)).
  assert (Htr3 : trace w3 = trace w ++ (es01 ++ es2) ++ [Http post (next_reply w2)]).
  { subst w3. cbn. rewrite trace_consume, Htr2, Htr01, <- !app_assoc. reflexivity. }
  clearbody w3.
  assert (Hfin : forall (r : result unit) (w' : world) es3,
            trace w' = trace w3 ++ es3 -> forallb offline es3 = true ->
            exists r0 w0 es,
              (r, w') = (r0, w0) /\ trace w0 = trace w ++ es /\
              (no_summary_request es \/
               exists before file_id0 rp after,
                 es = before ++ Http (summary_request key (windows w) p file_id0) rp :: after /\
                 polled_ready file_id0 before /\
                 no_summary_request before /\ no_summary_request after)).
  { intros r w' es3 Htr Hoff. exists r, w', ((es01 ++ es2) ++ Http post (next_reply w2) :: es3).
    split; [reflexivity |].
    split; [rewrite Htr, Htr3, <- !app_assoc; reflexivity |].
    right. exists (es01 ++ es2), file_id, (next_reply w2), es3.
    split; [reflexivity |]. split; [exact Hready |]. split; [exact Hno2 |].
    intros rq rp Hin _. now apply offline_no_http in Hin. }
  unfold DocSum.on_request_error.
  destruct (next_reply w2) as [e | r].
  - destruct e; cbn [exn_of_net_error is_RequestException]; unfold bind, print, ret;
      (eapply Hfin; [cbn; reflexivity | reflexivity]).
  - unfold try_except, bind at 1. unfold raise_for_status.
    destruct ((400 <=? status_code r) && (status_code r <? 600)).
    + unfold raise. cbn [is_RequestException]. unfold bind, print.
      eapply Hfin; [cbn; rewrite <- app_assoc; reflexivity | reflexivity].
    + unfold ret at 1. unfold bind at 1. unfold response_json.
      destruct (parsed r) as [j | ].
      2:{ unfold raise. cbn [is_RequestException]. unfold bind, print.
          eapply Hfin; [cbn; rewrite <- app_assoc; reflexivity | reflexivity]. }
      unfold ret at 1. unfold bind at 1. unfold lift.
      destruct (get_default j "outputText" (JStr "No summary returned.")) as [s | e].
      * unfold print. eapply Hfin; [cbn; reflexivity | reflexivity].
      * destruct (is_RequestException e).
        -- unfold bind, print. eapply Hfin; [cbn; rewrite <- app_assoc; reflexivity | reflexivity].
        -- eapply (Hfin _ _ []); [now rewrite app_nil_r | reflexivity].
Qed.

(** *** The organization-plan pipeline *)

Import DocumentAnalyzer.

Lemma key_dec w : has_key w \/ no_key w.
Proof.
  unfold has_key, no_key. destruct (environ_key w) as [[ | c k] | ]; eauto.
Qed.

Lemma calls_no_writes ok es : forallb (calls ok) es = true -> writes es = [].
Proof.
  induction es as [ | e es IH]; [reflexivity |]. cbn [forallb].
  intros H. apply andb_prop in H as [He Hes].
  destruct e; try discriminate; cbn; auto.
Qed.

Lemma writes_app es1 es2 : writes (es1 ++ es2) = writes es1 ++ writes es2.
Proof. unfold writes. apply omap_app. Qed.

Lemma calls_no_chat es :
  forallb (calls (either upload_urls query_urls)) es = true -> no_chat_request es.
Proof.
  intros H rq rp Hin Hu. apply (calls_elem _ _ _ _ H) in Hin. rewrite Hu in Hin. discriminate.
Qed.

Lemma offline_calls ok es : forallb offline es = true -> forallb (calls ok) es = true.
Proof.
  rewrite !forallb_forall. intros H e He. specialize (H e He).
  destruct e; try discriminate; auto.
Qed.

Lemma from_listing_mono names names' es0 es es1 file_id :
  (forall n, n ∈ names -> n ∈ names') ->
  from_listing names es file_id -> from_listing names' (es0 ++ es ++ es1) file_id.
Proof.
  intros Hsub (name & rp & items & Hn & Hin & Hl & Hf).
  exists name, rp, items. split; [auto |]. split; [| auto].
  rewrite !listing_replies_app. apply elem_of_app. right. apply elem_of_app. now left.
Qed.

(** An id that the availability poller returns came out of a listing. *)
Lemma da_wait_spec name m s w :
  0 <= s -> has_key w ->
  exists r w' es,
    wait_for_file_processing name m s w = (r, w') /\
    trace w' = trace w ++ es /\
    (forall v, r = Ret v -> truthy v = true -> from_listing [name] es v).
Proof.
  intros Hs Hk. unfold wait_for_file_processing, bind, print.
  set (line := Print _). set (w0 := log line w).
  destruct (da_poll_spec name m s Hs (Z.to_nat m) 1 w0 Hk)
    as (r & w' & es & Hrun & Htr & _ & Hhit & _).
  exists r, w', (line :: es). split; [exact Hrun |].
  split; [rewrite Htr; cbn; rewrite <- app_assoc; reflexivity |].
  intros v Hr Hv. destruct (Hhit v Hr Hv) as (rp & Hin & Ho).
  destruct (listing_outcome_found _ _ _ Ho) as (items & Hl & Hf).
  exists name, rp, items. split; [apply list_elem_of_here |]. auto.
Qed.

(** The ids that the upload loop gathers all came out of listings, each
    under the name of one of the files. *)
Lemma upload_each_spec l : forall acc w,
  exists r w' es,
    upload_each l acc w = (r, w') /\
    trace w' = trace w ++ es /\
    (forall ids, r = Ret ids ->
       exists new, ids = acc ++ new /\
         forall id, id ∈ new ->
           truthy id = true /\ from_listing (Path.basename (windows w) <$> l) es id).
Proof.
  induction l as [ | p l IH]; intros acc w; cbn [upload_each].
  - exists (Ret acc), w, []. rewrite app_nil_r. split; [reflexivity |]. split; [reflexivity |].
    intros ids [= <-]. exists []. rewrite app_nil_r. split; [reflexivity |].
    intros id Hin. now apply elem_of_nil in Hin.
  - unfold bind at 1.
    set (tags := JArr _).
    pose proof (da_upload p "document_analysis" tags JNull true JNull w)
      as (Hs1 & (es1 & Htr1 & _) & _).
    destruct (upload_file_to_amplify p "document_analysis" tags JNull true JNull w)
      as [[up | e] w1] eqn:Hup; cbn [snd] in *.
    2:{ exists (Raise e), w1, es1. split; [reflexivity |]. split; [exact Htr1 | discriminate]. }
    assert (Hwin1 : windows w1 = windows w) by (destruct Hs1 as (_ & H & _); exact H).
    assert (Hrest : forall acc',
      exists r w' es,
        upload_each l acc' w1 = (r, w') /\ trace w' = trace w ++ es /\
        (forall ids, r = Ret ids ->
           exists new, ids = acc' ++ new /\
             forall id, id ∈ new ->
               truthy id = true /\
               from_listing (Path.basename (windows w) <$> p :: l) es id)).
    { intros acc'. destruct (IH acc' w1) as (r & w' & es & Hrun & Htr & Hids).
      exists r, w', (es1 ++ es). split; [exact Hrun |].
      split; [rewrite Htr, Htr1, <- app_assoc; reflexivity |].
      intros ids Hr. destruct (Hids ids Hr) as (new & -> & Hnew).
      exists new. split; [reflexivity |]. intros id Hin.
      destruct (Hnew id Hin) as [Ht Hf]. split; [exact Ht |].
      rewrite Hwin1 in Hf.
      apply (from_listing_mono _ (Path.basename (windows w) <$> p :: l) es1 es []) in Hf.
      - now rewrite app_nil_r in Hf.
      - intros n Hn. now apply list_elem_of_further. }
    destruct (truthy up) eqn:Ht; [| apply Hrest].
    destruct (key_dec w) as [Hk | Hk].
    2:{ destruct (upload_without_key p "document_analysis" tags JNull true JNull w Hk)
          as (w1' & Hu & _). rewrite Hu in Hup. injection Hup as <- _. discriminate. }
    unfold bind at 1. unfold platform_is_windows. unfold bind at 1.
    destruct (da_wait_spec (Path.basename (windows w1) p) 2 20 w1 ltac:(lia)
                (has_key_same _ _ Hs1 Hk)) as (r2 & w2 & es2 & Hrun2 & Htr2 & Hfrom).
    pose proof (da_wait (Path.basename (windows w1) p) 2 20 w1) as (Hs2 & _).
    rewrite Hrun2 in *. cbn [snd] in Hs2.
    destruct r2 as [file_id | e].
    2:{ exists (Raise e), w2, (es1 ++ es2). split; [reflexivity |].
        split; [rewrite Htr2, Htr1, <- app_assoc; reflexivity | discriminate]. }
    assert (Hwin2 : windows w2 = windows w).
    { destruct Hs2 as (_ & H & _). congruence. }
    assert (Hrest2 : forall acc',
      exists r w' es',
        upload_each l acc' w2 = (r, w') /\ trace w' = trace w ++ (es1 ++ es2) ++ es' /\
        (forall ids, r = Ret ids ->
           exists new, ids = acc' ++ new /\
             forall id, id ∈ new ->
               truthy id = true /\
               from_listing (Path.basename (windows w) <$> p :: l) ((es1 ++ es2) ++ es') id)).
    { intros acc'. destruct (IH acc' w2) as (r & w' & es & Hrun & Htr & Hids).
      exists r, w', es. split; [exact Hrun |].
      split; [rewrite Htr, Htr2, Htr1, <- !app_assoc; reflexivity |].
      intros ids Hr. destruct (Hids ids Hr) as (new & -> & Hnew).
      exists new. split; [reflexivity |]. intros id Hin.
      destruct (Hnew id Hin) as [Ht' Hf]. split; [exact Ht' |].
      rewrite Hwin2 in Hf.
      apply (from_listing_mono _ (Path.basename (windows w) <$> p :: l) (es1 ++ es2) es []) in Hf.
      - now rewrite app_nil_r in Hf.
      - intros n Hn. now apply list_elem_of_further. }
    destruct (truthy file_id) eqn:Hid.
    + destruct (Hrest2 (acc ++ [file_id])) as (r & w' & es' & Hrun & Htr & Hids).
      exists r, w', ((es1 ++ es2) ++ es'). split; [exact Hrun |]. split; [exact Htr |].
      intros ids Hr. destruct (Hids ids Hr) as (new & -> & Hnew).
      exists (file_id :: new). split; [now rewrite <- app_assoc |].
      intros id Hin. apply elem_of_cons in Hin as [-> | Hin]; [| auto].
      split; [exact Hid |].
      specialize (Hfrom file_id eq_refl Hid). rewrite Hwin1 in Hfrom.
      apply (from_listing_mono _ (Path.basename (windows w) <$> p :: l) es1 es2 es') in Hfrom.
      * now rewrite <- app_assoc.
      * intros n Hn. apply list_elem_of_singleton in Hn as ->. apply list_elem_of_here.
    + destruct (Hrest2 acc) as (r & w' & es' & Hrun & Htr & Hids).
      exists r, w', ((es1 ++ es2) ++ es'). auto.
Qed.

(** What the scanner returns depends on the file system and the
    platform only. *)
Lemma scan_result_setting d w0 w :
  fs w0 = fs w -> windows w0 = windows w ->
  fst (scan_directory_for_files d w0) = fst (scan_directory_for_files d w).
Proof.
  intros Hf Hw. unfold scan_directory_for_files, bind, os_path_exists, os_path_isdir.
  rewrite Hf.
  destruct (negb (negb (d =? EmptyString)%string && bool_decide (is_Some (fs w !! d))) || _).
  - reflexivity.
  - unfold platform_is_windows, print, scandir_tree. cbn [fs log windows]. rewrite Hf, Hw.
    destruct (fs w !! d) as [[c | entries] | ];
      repeat match goal with |- context [print_found ?l ?w1] =>
        destruct (print_found_returns l w1) as [? ->] end;
      reflexivity.
Qed.

Lemma relative_to_runs start l : forall w,
  exists rs w', relative_to start l w = (Ret rs, w').
Proof.
  induction l as [ | p l IH]; intros w; cbn [relative_to].
  - do 2 eexists. reflexivity.
  - unfold bind at 1. unfold os_path_relpath. unfold bind at 1.
    destruct (IH w) as (rs & w' & ->). do 2 eexists. reflexivity.
Qed.


(** With a key the chat call sends one request, which names [ids] as
    its data sources, and hands back what the reply carries. *)
Lemma chat_with_key model t mt ids msg sys a w :
  has_key w ->
  exists rq w1 es1,
    chat_with_amplify model t mt ids msg sys a w = (Ret (queried (next_reply w)), w1) /\
    trace w1 = trace w ++ Http rq (next_reply w) :: es1 /\
    forallb offline es1 = true /\
    rq_url rq = Chat /\ data_sources rq = Some (JArr ids).
Proof.
  intros Hk. unfold chat_with_amplify. unfold bind at 1. rewrite (get_headers_with_key _ Hk).
  unfold try_except, bind at 1. rewrite send_eq.
  match goal with |- context [Http ?rq _] => exists rq end.
  set (w0 := log _ (consume w)).
  assert (Hw0 : trace w0 = trace w ++ [Http (Request POST Chat (headers_of w) (Json
     (JObj [("data",
          JObj [("temperature", t);
                ("max_tokens", mt);
                ("messages", JArr (match sys with
        | Some (String c s) =>
            [JObj [("role", JStr "system"); ("content", JStr (String c s))]]
        | _ => []
        end ++ [JObj [("role", JStr "user"); ("content", JStr msg)]]));
                ("dataSources", JArr ids);
                ("options",
                 JObj ([("ragOnly", JBool false);
                        ("skipRag", JBool false);
                        ("model", JObj [("id", JStr model)]);
                        ("prompt", JStr msg)] ++
                       (if is_none a then []
                        else [("assistantId", a)])))])])) (Some 1000)) (next_reply w)]).
  { subst w0. cbn. now rewrite trace_consume. }
  clearbody w0. unfold queried.
  destruct (next_reply w) as [e | r].
  - destruct e; cbn; unfold bind, print;
      (do 2 eexists; split; [reflexivity |];
       split; [cbn; rewrite Hw0, <- ?app_assoc; reflexivity | repeat split]).
  - unfold raise_for_status, http_ok, bind.
    destruct ((400 <=? status_code r) && (status_code r <? 600)); cbn.
    + unfold bind, print.
      do 2 eexists; split; [reflexivity |];
       split; [cbn; rewrite Hw0, <- ?app_assoc; reflexivity | repeat split].
    + unfold response_json. destruct (parsed r); cbn; unfold bind, print;
      (do 2 eexists; split; [reflexivity |];
       split; [cbn; rewrite Hw0, <- ?app_assoc; reflexivity | repeat split]).
Qed.

Lemma chat_without_key model t mt ids msg sys a w :
  no_key w ->
  exists w1,
    chat_with_amplify model t mt ids msg sys a w = (Ret JNull, w1) /\
    trace w1 = trace w ++ missing_key_lines.
Proof.
  intros Hk. destruct (get_headers_without_key w Hk) as (w' & Hh & Htr & _).
  exists w'. unfold chat_with_amplify, bind. rewrite Hh. auto.
Qed.

Lemma save_results_outcome out reply w :
  exists r w' es,
    save_results out reply w = (r, w') /\
    trace w' = trace w ++ es /\
    (forall rq rp, Http rq rp ∉ es) /\
    saved (windows w) out reply r w' es.
Proof.
  unfold save_results. unfold bind at 1. unfold platform_is_windows. unfold bind at 1.
  fold (plan_path (windows w) out). unfold os_makedirs.
  assert (Hnil : forall rq rp, Http rq rp ∉ []) by (intros rq rp H; now apply elem_of_nil in H).
  destruct (String.eqb out EmptyString).
  { exists (Raise OSError), w, []. rewrite app_nil_r. repeat split; auto.
    right. left. auto. }
  assert (Hgo : forall w0 : world, trace w0 = trace w -> windows w0 = windows w ->
    exists r w' es,
      (plan_content <- lift (get_default reply "data" (JStr EmptyString));;
       write_text (plan_path (windows w) out) plan_content;;;
       print [Lit "✅ Organization commands saved to: "; Lit (plan_path (windows w) out)];;;
       ret (success (plan_path (windows w) out))) w0 = (r, w') /\
      trace w' = trace w ++ es /\
      (forall rq rp, Http rq rp ∉ es) /\
      saved (windows w) out reply r w' es).
  { intros w0 Htr Hwin. unfold bind at 1. unfold lift.
    destruct (get_default reply "data" (JStr EmptyString)) as [v | e] eqn:Hv.
    2:{ exists (Raise e), w0, []. rewrite app_nil_r. repeat split; auto.
        right. right. left. unfold get_default in Hv.
        destruct reply; try (injection Hv as <-; auto).
        destruct (dict_get members "data"); discriminate. }
    unfold bind at 1. unfold write_text.
    destruct (fs w0 !! plan_path (windows w) out) as [[c | entries] | ] eqn:Hp.
    2:{ exists (Raise OSError), w0, []. rewrite app_nil_r. repeat split; auto.
        right. left. auto. }
    - destruct v as [ | | | | text | | ];
        try (eexists (Raise TypeError), _, []; rewrite app_nil_r;
             split; [reflexivity |]; split; [exact Htr |]; split; [exact Hnil |];
             right; right; right; split; [reflexivity |]; split; [reflexivity |];
             eexists; split; [exact Hv | reflexivity]).
      unfold bind, print, ret. do 3 eexists. split; [reflexivity |].
      split; [cbn; rewrite Htr, <- app_assoc; reflexivity |]. split.
      + intros rq rp Hin. which_event Hin.
      + left. exists text. split; [exact Hv |]. split; [reflexivity |].
        split; [reflexivity |]. cbn. apply lookup_insert_eq.
    - destruct v as [ | | | | text | | ];
        try (eexists (Raise TypeError), _, []; rewrite app_nil_r;
             split; [reflexivity |]; split; [exact Htr |]; split; [exact Hnil |];
             right; right; right; split; [reflexivity |]; split; [reflexivity |];
             eexists; split; [exact Hv | reflexivity]).
      unfold bind, print, ret. do 3 eexists. split; [reflexivity |].
      split; [cbn; rewrite Htr, <- app_assoc; reflexivity |]. split.
      + intros rq rp Hin. which_event Hin.
      + left. exists text. split; [exact Hv |]. split; [reflexivity |].
        split; [reflexivity |]. cbn. apply lookup_insert_eq. }
  unfold success in Hgo. unfold bind at 1.
  destruct (fs w !! out) as [[c | entries] | ].
  - exists (Raise OSError), w, []. rewrite app_nil_r. repeat split; auto.
    right. left. auto.
  - apply Hgo; reflexivity.
  - apply Hgo; reflexivity.
Qed.

Lemma saved_after win out reply r w' es0 es :
  forallb offline es0 = true ->
  saved win out reply r w' es -> saved win out reply r w' (es0 ++ es).
Proof.
  intros Hoff. unfold saved. rewrite writes_app, (calls_no_writes _ _ Hoff). auto.
Qed.

Lemma generate_organization_plan_eq d out max model :
  generate_organization_plan d out max model =
  (print [Lit "=== Document Analysis Pipeline for Organization Plan ==="];;;
   print [Lit "📂 Source directory: "; Lit d];;;
   print [Lit "📁 Output directory: "; Lit out];;;
   scanned <- scan_directory_for_files d;;
   match scanned with
   | [] => ret (failure "No supported files found")
   | _ :: _ =>
       supported_files <- select max scanned;;
       plan_for d out model supported_files
   end)%M.
Proof. reflexivity. Qed.

Lemma slice_to_elem n (l : list string) x : x ∈ slice_to n l -> x ∈ l.
Proof.
  unfold slice_to. intros H.
  destruct (0 <=? n);
    match type of H with _ ∈ take ?k _ => rewrite <- (take_drop k l) end;
    apply elem_of_app; now left.
Qed.

Lemma select_runs max scanned w :
  exists files w1 es,
    select max scanned w = (Ret files, w1) /\
    trace w1 = trace w ++ es /\ forallb offline es = true /\
    windows w1 = windows w /\
    (forall x, x ∈ files -> x ∈ scanned).
Proof.
  unfold select. destruct max as [n | ].
  - destruct (negb (n =? 0) && (n <? Z.of_nat (length scanned))).
    + unfold bind, print, ret. do 3 eexists. split; [reflexivity |].
      split; [reflexivity |]. split; [reflexivity |]. split; [reflexivity |].
      apply slice_to_elem.
    + exists scanned, w, []. rewrite app_nil_r. repeat split; auto.
  - exists scanned, w, []. rewrite app_nil_r. repeat split; auto.
Qed.

(** The pipeline from the uploads on: either no chat request is sent and
    nothing is written, or one chat request is sent, naming ids that all
    came out of listings received before, and what follows it is step 4
    or the report that the chat call failed. *)
Lemma plan_for_structure d out model files w :
  exists r w' es,
    plan_for d out model files w = (r, w') /\
    trace w' = trace w ++ es /\
    ((forallb (calls (either upload_urls query_urls)) es = true /\
      forall res, r = Ret res -> exists reason, res = failure reason) \/
     exists before rq rp after ids,
       es = before ++ Http rq rp :: after /\
       rq_url rq = Chat /\ data_sources rq = Some (JArr ids) /\
       forallb (calls (either upload_urls query_urls)) before = true /\
       (forall rq' rp', Http rq' rp' ∉ after) /\
       (forall id, id ∈ ids ->
          truthy id = true /\
          from_listing (Path.basename (windows w) <$> files) before id) /\
       (truthy (queried rp) = false /\ r = Ret (failure "LLM failed") /\ writes after = [] \/
        truthy (queried rp) = true /\ saved (windows w) out (queried rp) r w' after)).
Proof.
  unfold plan_for. unfold bind at 1.
  destruct (upload_each_spec files [] w) as (r1 & w1 & es1 & Hrun1 & Htr1 & Hids).
  pose proof (da_upload_each files [] w) as (Hs1 & (es1' & Htr1' & Hc1) & _).
  rewrite Hrun1 in *. cbn [snd] in *.
  assert (es1' = es1) as -> by (rewrite Htr1 in Htr1'; now apply app_inv_head in Htr1').
  clear Htr1'.
  destruct r1 as [ids | e].
  2:{ exists (Raise e), w1, es1. split; [reflexivity |]. split; [exact Htr1 |]. left.
      split; [exact Hc1 | discriminate]. }
  destruct (Hids ids eq_refl) as (new & -> & Hnew). cbn [app]. clear Hids.
  destruct new as [ | id0 ids].
  { exists (Ret (failure "No files uploaded")), w1, es1. split; [reflexivity |].
    split; [exact Htr1 |]. left.
    split; [exact Hc1 |]. intros res [= <-]. eauto. }
  unfold bind at 1.
  destruct (relative_to_runs d files w1) as (rs & w2 & Hrel).
  pose proof (da_relative_to d files w1) as (Hs2 & (es2 & Htr2 & Hoff2) & _).
  rewrite Hrel in *. cbn [snd] in *.
  unfold bind at 1. unfold print at 1. unfold bind at 1. rewrite sleep_eq by lia.
  unfold bind at 1. unfold print at 1. unfold bind at 1.
  set (w3 := log _ (log _ (log _ w2))).
  set (before := es1 ++ es2 ++
         [Print [Lit nl; Lit "⏳ Allowing a short pause for RAG/indexing (30s)..."];
          Sleep 30;
          Print [Lit "🔎 Sending prompt to Amplify (strict Windows CMD prompt instructions)..."]]).
  assert (Htr3 : trace w3 = trace w ++ before).
  { subst w3 before. cbn [trace log]. rewrite Htr2, Htr1, <- !app_assoc. reflexivity. }
  assert (Hbefore : forallb (calls (either upload_urls query_urls)) before = true).
  { subst before. rewrite !forallb_app, Hc1, (offline_calls _ _ Hoff2). reflexivity. }
  assert (Hs3 : same_setting w w3).
  { destruct Hs1 as (?&?&?&?&?&?&?), Hs2 as (?&?&?&?&?&?&?).
    subst w3. unfold same_setting. cbn. repeat split; congruence. }
  assert (Hfrom : forall id, id ∈ id0 :: ids ->
            truthy id = true /\
            from_listing (Path.basename (windows w) <$> files) before id).
  { intros id Hin. destruct (Hnew id Hin) as [Ht Hf]. split; [exact Ht |].
    subst before.
    match goal with |- from_listing ?names (es1 ++ ?rest) _ =>
      apply (from_listing_mono _ names [] es1 rest) in Hf; [exact Hf | auto] end. }
  clearbody w3 before. clear Hnew Hrun1 Hrel Htr1 Htr2 Hc1 Hoff2 Hs1 Hs2.
  destruct (key_dec w3) as [Hk | Hk].
  2:{ match goal with |- context [chat_with_amplify ?m ?t ?mt ?i ?msg ?sy ?a w3] =>
        destruct (chat_without_key m t mt i msg sy a w3 Hk) as (w4 & -> & Htr4) end.
      cbn [truthy negb]. exists (Ret (failure "LLM failed")), w4, (before ++ missing_key_lines).
      split; [reflexivity |]. split; [rewrite Htr4, Htr3, <- app_assoc; reflexivity |]. left.
      assert (Hall : forallb (calls (either upload_urls query_urls))
                       (before ++ missing_key_lines) = true).
      { rewrite forallb_app, Hbefore. reflexivity. }
      split; [exact Hall |]. intros res [= <-]. eauto. }
  match goal with |- context [chat_with_amplify ?m ?t ?mt ?i ?msg ?sy ?a w3] =>
    destruct (chat_with_key m t mt i msg sy a w3 Hk)
      as (rq & w4 & es4 & Hrun4 & Htr4 & Hoff4 & Hurl & Hsrc);
    pose proof (da_chat m t mt i msg sy a w3) as (Hs4 & _) end.
  rewrite Hrun4 in *. cbn [snd] in Hs4.
  set (rp := next_reply w3) in *. clearbody rp.
  assert (Hwin4 : windows w4 = windows w).
  { destruct Hs3 as (_ & H3 & _), Hs4 as (_ & H4 & _). congruence. }
  destruct (truthy (queried rp)) eqn:Ht; cbn [negb].
  - destruct (save_results_outcome out (queried rp) w4)
      as (r & w' & es5 & Hrun5 & Htr5 & Hno5 & Hsaved).
    exists r, w', (before ++ Http rq rp :: es4 ++ es5). split; [exact Hrun5 |].
    split; [rewrite Htr5, Htr4, Htr3, <- !app_assoc; reflexivity |]. right.
    exists before, rq, rp, (es4 ++ es5), (id0 :: ids).
    split; [reflexivity |]. split; [exact Hurl |]. split; [exact Hsrc |].
    split; [exact Hbefore |]. split; [| split; [exact Hfrom |]].
    + intros rq' rp' Hin. apply elem_of_app in Hin as [Hin | Hin].
      * now apply offline_no_http in Hin.
      * now apply Hno5 in Hin.
    + right. split; [exact Ht |]. rewrite <- Hwin4. now apply saved_after.
  - exists (Ret (failure "LLM failed")), w4, (before ++ Http rq rp :: es4).
    split; [reflexivity |]. split; [rewrite Htr4, Htr3, <- !app_assoc; reflexivity |]. right.
    exists before, rq, rp, es4, (id0 :: ids).
    split; [reflexivity |]. split; [exact Hurl |]. split; [exact Hsrc |].
    split; [exact Hbefore |]. split; [| split; [exact Hfrom |]].
    + intros rq' rp' Hin. now apply offline_no_http in Hin.
    + left. split; [exact Ht |]. split; [reflexivity |]. now apply calls_no_writes in Hoff4.
Qed.

(** The whole pipeline, from the scan on. *)
Lemma generate_structure d out max model w :
  exists r w' es,
    generate_organization_plan d out max model w = (r, w') /\
    trace w' = trace w ++ es /\
    ((forallb (calls (either upload_urls query_urls)) es = true /\
      forall res, r = Ret res -> exists reason, res = failure reason) \/
     exists before rq rp after ids scanned,
       es = before ++ Http rq rp :: after /\
       rq_url rq = Chat /\ data_sources rq = Some (JArr ids) /\
       forallb (calls (either upload_urls query_urls)) before = true /\
       (forall rq' rp', Http rq' rp' ∉ after) /\
       fst (scan_directory_for_files d w) = Ret scanned /\
       (forall id, id ∈ ids ->
          truthy id = true /\
          from_listing (Path.basename (windows w) <$> scanned) before id) /\
       (truthy (queried rp) = false /\ r = Ret (failure "LLM failed") /\ writes after = [] \/
        truthy (queried rp) = true /\ saved (windows w) out (queried rp) r w' after)).
Proof.
  rewrite generate_organization_plan_eq.
  unfold bind at 1. unfold print at 1. unfold bind at 1. unfold print at 1.
  unfold bind at 1. unfold print at 1. unfold bind at 1.
  set (w0 := log _ (log _ (log _ w))).
  assert (Htr0 : trace w0 = trace w ++ banner d out).
  { subst w0. cbn [trace log]. rewrite <- !app_assoc. reflexivity. }
  assert (Hfs0 : fs w0 = fs w) by reflexivity.
  assert (Hwin0 : windows w0 = windows w) by reflexivity.
  clearbody w0.
  destruct (scan_always_returns d w0) as (scanned & w1 & Hscan).
  pose proof (da_scan d w0) as (Hs1 & (es1 & Htr1 & Hoff1) & _).
  pose proof (scan_result_setting d w0 w Hfs0 Hwin0) as Hres.
  rewrite Hscan in *. cbn [snd fst] in *.
  assert (Hwin1 : windows w1 = windows w).
  { destruct Hs1 as (_ & H & _). congruence. }
  assert (Hpre : forallb (calls (either upload_urls query_urls)) (banner d out ++ es1) = true).
  { rewrite forallb_app, (offline_calls _ _ Hoff1). reflexivity. }
  destruct scanned as [ | p0 rest].
  { exists (Ret (failure "No supported files found")), w1, (banner d out ++ es1).
    split; [reflexivity |]. split; [rewrite Htr1, Htr0, <- app_assoc; reflexivity |].
    left. split; [exact Hpre |]. intros res [= <-]. eauto. }
  unfold bind at 1.
  destruct (select_runs max (p0 :: rest) w1)
    as (files & w2 & es2 & Hsel & Htr2 & Hoff2 & Hwin2 & Hsub).
  rewrite Hsel.
  assert (Hpre2 : forallb (calls (either upload_urls query_urls))
                    ((banner d out ++ es1) ++ es2) = true).
  { rewrite forallb_app, Hpre, (offline_calls _ _ Hoff2). reflexivity. }
  assert (Htr02 : trace w2 = trace w ++ (banner d out ++ es1) ++ es2).
  { rewrite Htr2, Htr1, Htr0, <- !app_assoc. reflexivity. }
  set (pre := (banner d out ++ es1) ++ es2) in *. clearbody pre.
  destruct (plan_for_structure d out model files w2) as (r & w' & es & Hrun & Htr & Hcases).
  exists r, w', (pre ++ es). split; [exact Hrun |].
  split; [rewrite Htr, Htr02, <- app_assoc; reflexivity |].
  destruct Hcases as [(Hnc & Hfail) | Hchat].
  - left. split; [| exact Hfail]. rewrite forallb_app, Hpre2, Hnc. reflexivity.
  - right. destruct Hchat as (before & rq & rp & after & ids & -> & Hurl & Hsrc & Hb & Ha & Hfrom & Hout).
    exists (pre ++ before), rq, rp, after, ids, (p0 :: rest).
    split; [now rewrite <- app_assoc |]. split; [exact Hurl |]. split; [exact Hsrc |].
    split; [rewrite forallb_app, Hpre2, Hb; reflexivity |]. split; [exact Ha |].
    split; [now rewrite <- Hres |]. split.
    + intros id Hin. destruct (Hfrom id Hin) as [Ht Hf]. split; [exact Ht |].
      rewrite Hwin2, Hwin1 in Hf.
      apply (from_listing_mono _ (Path.basename (windows w) <$> p0 :: rest) pre before []) in Hf.
      * now rewrite app_nil_r in Hf.
      * intros n Hn. apply list_elem_of_fmap in Hn as (x & -> & Hx).
        apply list_elem_of_fmap. eauto.
    + now rewrite <- Hwin1, <- Hwin2.
Qed.

(** A list has one decomposition around its only element of a kind. *)
Lemma split_unique {A} (P : A -> Prop) (b : list A) : forall x a b' x' a',
  b ++ x :: a = b' ++ x' :: a' ->
  P x' -> (forall y, y ∈ b -> ~ P y) -> (forall y, y ∈ a -> ~ P y) ->
  b = b' /\ x = x' /\ a = a'.
Proof.
  induction b as [ | y b IH]; intros x a b' x' a' E Hx' Hb Ha.
  - destruct b' as [ | y' b']; cbn in E.
    + injection E as -> ->. auto.
    + injection E as -> ->. exfalso. apply (Ha x'); [| exact Hx'].
      apply elem_of_app. right. apply list_elem_of_here.
  - destruct b' as [ | y' b']; cbn in E.
    + injection E as -> _. exfalso. apply (Hb x'); [apply list_elem_of_here | exact Hx'].
    + injection E as -> E. destruct (IH x a b' x' a' E Hx') as (-> & -> & ->); auto.
      intros z Hz. apply Hb. now apply list_elem_of_further.
Qed.

Lemma no_http_no_status es : (forall rq rp, Http rq rp ∉ es) -> status_replies es = [].
Proof.
  unfold status_replies. induction es as [ | e es IH]; intros H; [reflexivity |].
  destruct e as [ | rq rp | | | ];
    try (cbn; apply IH; intros rq' rp' Hin; apply (H rq' rp'); now apply list_elem_of_further).
  exfalso. apply (H rq rp). apply list_elem_of_here.
Qed.

Lemma calls_no_status es :
  forallb (calls (either upload_urls query_urls)) es = true -> status_replies es = [].
Proof.
  unfold status_replies. induction es as [ | e es IH]; [reflexivity |]. cbn [forallb].
  intros H. apply andb_prop in H as [He Hes].
  destruct e as [ | [v u hd bd tm] rp | | | ]; cbn; auto.
  destruct v, u; try discriminate; cbn; auto.
Qed.

(** C2, counterexample: the organization-plan pipeline sends a chat
    request that names the id [f1], having made no status query at all;
    the one thing the server said about that file is a listing entry
    whose status is [failed]. *)
Lemma chat_request_names_failed_file :
  data_sources <$>
    requests_to chat_urls
      (trace (snd (generate_organization_plan "proj" "out" None "gpt-4o-mini"
                     failed_file_world))) = [Some (JArr [JStr "f1"])] /\
  status_replies
    (trace (snd (generate_organization_plan "proj" "out" None "gpt-4o-mini"
                   failed_file_world))) = [] /\
  listing_replies
    (trace (snd (generate_organization_plan "proj" "out" None "gpt-4o-mini"
                   failed_file_world))) = [listing [failed_entry]] /\
  get failed_entry "id" = Ret (JStr "f1") /\
  get failed_entry "status" = Ret (JStr "failed").
Proof. repeat split; vm_compute; reflexivity. Qed.

(** C2, as amended.
    In doc_sum.py, whenever the summarization pipeline sends a request to
    [/responses], that request names one file id, and before it a status
    query for that id was answered with the status [ready].
    In document_analyzer.py the barrier is the availability poller, which
    looks at no status: whenever the organization-plan pipeline sends a
    chat request, every id that the request names is truthy and is the
    [id] of the first entry, named as one of the scanned files, of a
    listing received before; and the pipeline makes no status query. *)
Theorem requests_name_ids_from_the_poller :
  (forall key p w,
     exists r w' es,
       DocSum.summarize_document key p w = (r, w') /\
       trace w' = trace w ++ es /\
       forall before rq rp after,
         es = before ++ Http rq rp :: after -> rq_url rq = Responses ->
         exists file_id,
           file_ids rq = Some (JArr [file_id]) /\ polled_ready file_id before) /\
  (forall d out max model w,
     exists r w' es,
       generate_organization_plan d out max model w = (r, w') /\
       trace w' = trace w ++ es /\
       status_replies es = [] /\
       forall before rq rp after,
         es = before ++ Http rq rp :: after -> rq_url rq = Chat ->
         exists ids scanned,
           data_sources rq = Some (JArr ids) /\
           fst (scan_directory_for_files d w) = Ret scanned /\
           forall id, id ∈ ids ->
             truthy id = true /\
             from_listing (Path.basename (windows w) <$> scanned) before id).
Proof.
  split.
  - intros key p w.
    destruct (summarize_document_structure key p w) as (r & w' & es & Hrun & Htr & Hcases).
    exists r, w', es. split; [exact Hrun |]. split; [exact Htr |].
    intros before rq rp after Hes Hurl.
    destruct Hcases as [Hno | (b0 & file_id & rp0 & a0 & Hes0 & Hready & Hb0 & Ha0)].
    + exfalso. apply (Hno rq rp); [| exact Hurl].
      rewrite Hes. apply elem_of_app. right. apply list_elem_of_here.
    + rewrite Hes0 in Hes.
      destruct (split_unique
                  (fun e => exists rq rp, e = Http rq rp /\ rq_url rq = Responses)
                  b0 _ a0 before _ after Hes) as (-> & Hrq & ->).
      * eauto.
      * intros y Hy (rq' & rp' & -> & Hu). exact (Hb0 _ _ Hy Hu).
      * intros y Hy (rq' & rp' & -> & Hu). exact (Ha0 _ _ Hy Hu).
      * injection Hrq as <- <-. exists file_id. split; [reflexivity | exact Hready].
  - intros d out max model w.
    destruct (generate_structure d out max model w) as (r & w' & es & Hrun & Htr & Hcases).
    exists r, w', es. split; [exact Hrun |]. split; [exact Htr |].
    destruct Hcases as [(Hno & _) | (b0 & rq0 & rp0 & a0 & ids & scanned & Hes0 & Hurl0 &
                                      Hsrc & Hb0 & Ha0 & Hscan & Hfrom & _)].
    + split; [now apply calls_no_status |].
      intros before rq rp after Hes Hurl. exfalso.
      apply (calls_no_chat _ Hno rq rp); [| exact Hurl].
      rewrite Hes. apply elem_of_app. right. apply list_elem_of_here.
    + split.
      * rewrite Hes0. change (Http rq0 rp0 :: a0) with ([Http rq0 rp0] ++ a0).
        rewrite !status_replies_app, (calls_no_status _ Hb0), (no_http_no_status _ Ha0).
        destruct rq0 as [v u hd bd tm]. cbn in Hurl0. subst u. now destruct v.
      * intros before rq rp after Hes Hurl. rewrite Hes0 in Hes.
        destruct (split_unique
                    (fun e => exists rq rp, e = Http rq rp /\ rq_url rq = Chat)
                    b0 _ a0 before _ after Hes) as (-> & Hrq & ->).
        -- eauto.
        -- intros y Hy (rq' & rp' & -> & Hu). exact (calls_no_chat _ Hb0 _ _ Hy Hu).
        -- intros y Hy (rq' & rp' & -> & Hu). exact (Ha0 _ _ Hy).
        -- injection Hrq as <- <-. exists ids, scanned. auto.
Qed.

Lemma requests_name_ids_from_the_poller_witness :
  file_ids <$>
    requests_to summary_urls
      (trace (snd (DocSum.summarize_document "key" "a.py" summarized_world))) =
    [Some (JArr [JStr "f1"])] /\
  forall before rq rp after,
    trace (snd (DocSum.summarize_document "key" "a.py" summarized_world)) =
      before ++ Http rq rp :: after ->
    rq_url rq = Responses ->
    exists file_id, file_ids rq = Some (JArr [file_id]) /\ polled_ready file_id before.
Proof.
  split; [vm_compute; reflexivity |].
  destruct (proj1 requests_name_ids_from_the_poller "key" "a.py" summarized_world)
    as (r & w' & es & Hrun & Htr & H).
  rewrite Hrun. cbn [snd]. rewrite Htr. exact H.
Defined.




End PipelineFacts.

Import PipelineFacts Measures.

(** ** How much a run does *)

Module CostRules.

Lemma total_app f es1 es2 : total f (es1 ++ es2) = total f es1 + total f es2.
Proof. induction es1 as [ | e es1 IH]; cbn; [reflexivity | rewrite IH; lia]. Qed.

Lemma costs_weaken {A} f b b' (c : M A) : costs f b c -> b <= b' -> costs f b' c.
Proof. intros H Hb w. destruct (H w) as (es & Htr & Ht). exists es. split; [exact Htr | lia]. Qed.

Lemma costs_still {A} f b (c : M A) :
  (forall w, trace (snd (c w)) = trace w) -> 0 <= b -> costs f b c.
Proof. intros H Hb w. exists []. rewrite app_nil_r. split; [apply H | exact Hb]. Qed.

Lemma costs_ret {A} f b (a : A) : 0 <= b -> costs f b (ret a).
Proof. now apply costs_still. Qed.

Lemma costs_raise {A} f b e : 0 <= b -> costs f b (@raise A e).
Proof. now apply costs_still. Qed.

Lemma costs_lift {A} f b (r : result A) : 0 <= b -> costs f b (lift r).
Proof. now apply costs_still. Qed.

Lemma costs_print f b line : f (Print line) <= b -> costs f b (print line).
Proof. intros H w. exists [Print line]. split; [reflexivity | cbn; lia]. Qed.

Lemma costs_sleep f b s : 0 <= b -> f (Sleep s) <= b -> costs f b (time_sleep s).
Proof.
  intros H0 H w. unfold time_sleep. destruct (s <? 0).
  - exists []. rewrite app_nil_r. split; [reflexivity | exact H0].
  - exists [Sleep s]. split; [reflexivity | cbn; lia].
Qed.

Lemma costs_send f b rq :
  (forall rp, f (Http rq rp) <= b) -> costs f b (requests_send rq).
Proof.
  intros H w. exists [Http rq (next_reply w)]. rewrite send_eq. split.
  - cbn. now rewrite trace_consume.
  - cbn. specialize (H (next_reply w)). lia.
Qed.

(** A computation that spends [b1], followed by one that spends what is
    left of [b]. *)
Lemma costs_bind {A B} f b1 b (c : M A) (k : A -> M B) :
  costs f b1 c -> b1 <= b -> (forall a, costs f (b - b1) (k a)) -> costs f b (bind c k).
Proof.
  intros Hc Hb Hk w. unfold bind. destruct (Hc w) as (es1 & Htr1 & Ht1).
  destruct (c w) as [[a | e] w1]; cbn [snd] in *.
  - destruct (Hk a w1) as (es2 & Htr2 & Ht2). exists (es1 ++ es2).
    split; [rewrite Htr2, Htr1, <- app_assoc; reflexivity |]. rewrite total_app. lia.
  - exists es1. split; [exact Htr1 | lia].
Qed.

Lemma costs_assoc {A B C} f b (c : M A) (k1 : A -> M B) (k2 : B -> M C) :
  costs f b (bind c (fun a => bind (k1 a) k2)) -> costs f b (bind (bind c k1) k2).
Proof.
  intros H w. specialize (H w). unfold bind in *.
  destruct (c w) as [[a | e] w1]; [| exact H]. exact H.
Qed.

Lemma costs_attempt {A} f b (c : M A) : costs f b c -> costs f b (attempt c).
Proof. intros H w. unfold attempt. specialize (H w). now destruct (c w). Qed.

Lemma costs_try_except {A} f b1 b (c : M A) catches (h : exn -> M A) :
  costs f b1 c -> b1 <= b -> (forall e, costs f (b - b1) (h e)) ->
  costs f b (try_except c catches h).
Proof.
  intros Hc Hb Hh w. unfold try_except. destruct (Hc w) as (es1 & Htr1 & Ht1).
  destruct (c w) as [[a | e] w1]; cbn [snd] in *.
  - exists es1. split; [exact Htr1 | lia].
  - destruct (catches e).
    + destruct (Hh e w1) as (es2 & Htr2 & Ht2). exists (es1 ++ es2).
      split; [rewrite Htr2, Htr1, <- app_assoc; reflexivity |]. rewrite total_app. lia.
    + exists es1. split; [exact Htr1 | lia].
Qed.

(** What a frame lemma gives: events of a class that [f] does not count
    cost nothing. *)
Lemma costs_of_keeps {A} f allowed b1 b2 b (c : M A) :
  keeps (rel allowed b1 b2) c -> (forall e, allowed e = true -> f e = 0) -> 0 <= b ->
  costs f b c.
Proof.
  intros Hk Hf Hb w. destruct (Hk w) as (_ & (es & Htr & Hall) & _).
  exists es. split; [exact Htr |].
  assert (total f es = 0); [| lia].
  clear Htr. induction es as [ | e es IH]; [reflexivity |]. cbn in *.
  apply andb_prop in Hall as [He Hes]. rewrite (Hf e He), (IH Hes). reflexivity.
Qed.

Lemma costs_robocopy f b s t n timeout :
  f (Ran ["robocopy"; s; t; n; "/J"] timeout) <= b -> costs f b (run_robocopy s t n timeout).
Proof.
  intros H w. exists [Ran ["robocopy"; s; t; n; "/J"] timeout]. split; [| cbn; lia].
  unfold run_robocopy. destruct (robocopy w) as [ | [ | | [c | ]] rest]; reflexivity.
Qed.

Lemma costs_write_text f b p v :
  0 <= b -> (forall s, f (Wrote p s) <= b) -> costs f b (write_text p v).
Proof.
  intros H0 H w. unfold write_text.
  destruct (fs w !! p) as [[c | entries] | ];
    try (exists []; rewrite app_nil_r; split; [reflexivity | exact H0]);
    destruct v;
    try (exists []; rewrite app_nil_r; split; [reflexivity | exact H0]);
    (eexists [Wrote p _]; split; [reflexivity | cbn; specialize (H s); lia]).
Qed.

Ltac measure_simpl :=
  cbv beta iota delta [slept upload_started one_request rq_verb rq_url] in *.

(** The operations that add nothing to the trace. *)
Ltac costs_silent :=
  apply costs_still; [| measure_simpl; lia];
  let w := fresh "w" in
  intros w;
  unfold os_getenv_key, platform_is_windows, mimetypes_guess_type, os_path_relpath,
    start_of_yesterday, GetFileAttributesW, os_path_exists, os_path_isdir, is_file,
    os_path_getsize, read_bytes, raise_for_status, response_json, shutil_rmtree,
    tempfile_mkdtemp, scandir_tree, os_makedirs, lift, ret, raise;
  repeat match goal with
         | |- context [match ?x with _ => _ end] => destruct x
         | |- context [if ?x then _ else _] => destruct x
         end; reflexivity.

Create HintDb costs_db.

(** One step through a computation, the budget that is left being known. *)
Ltac costs_step :=
  match goal with
  | |- costs _ _ (bind (print _) _) =>
      eapply (costs_bind _ _ _ (print _));
      [apply costs_print; reflexivity | measure_simpl; lia | intros ?]
  | |- costs _ _ (bind (time_sleep _) _) =>
      eapply (costs_bind _ _ _ (time_sleep _));
      [apply costs_sleep; [| reflexivity]; measure_simpl; lia | measure_simpl; lia | intros ?]
  | |- costs ?f _ (bind (requests_send ?rq) _) =>
      eapply (costs_bind f (f (Http rq (Fails NoConnection))) _ (requests_send rq));
      [apply costs_send; intros ?; measure_simpl; lia | measure_simpl; lia | intros ?]
  | |- costs _ _ (bind (run_robocopy _ _ _ _) _) =>
      eapply (costs_bind _ _ _ (run_robocopy _ _ _ _));
      [apply costs_robocopy; reflexivity | measure_simpl; lia | intros ?]
  | |- costs ?f _ (bind (attempt (requests_send ?rq)) _) =>
      eapply (costs_bind f (f (Http rq (Fails NoConnection))) _ (attempt (requests_send rq)));
      [apply costs_attempt, costs_send; intros ?; measure_simpl; lia | measure_simpl; lia
      | intros ?]
  | |- costs _ _ (bind (bind _ _) _) => apply costs_assoc
  | |- costs _ _ (bind (if ?b then _ else _) _) => destruct b
  | |- costs _ _ (bind (match ?x with _ => _ end) _) => destruct x
  | |- costs _ _ (bind _ _) =>
      eapply (costs_bind _ 0);
      [first [solve [eauto with costs_db] | costs_silent | solve [repeat costs_step]]
      | measure_simpl; lia
      | intros ?; rewrite ?Z.sub_0_r]
  | |- costs _ _ (try_except _ _ _) =>
      eapply costs_try_except; [| apply Z.le_refl | intros ?; rewrite Z.sub_diag]
  | |- costs _ _ (attempt _) => apply costs_attempt
  | |- costs _ _ (print _) => apply costs_print; measure_simpl; lia
  | |- costs _ _ (time_sleep _) => apply costs_sleep; measure_simpl; lia
  | |- costs _ _ (requests_send _) => apply costs_send; intros ?; measure_simpl; lia
  | |- costs _ _ (run_robocopy _ _ _ _) => apply costs_robocopy; measure_simpl; lia
  | |- costs _ _ (ret _) => apply costs_ret; measure_simpl; lia
  | |- costs _ _ (raise _) => apply costs_raise; measure_simpl; lia
  | |- costs _ _ (lift _) => apply costs_lift; measure_simpl; lia
  | |- costs _ _ (let _ := _ in _) => cbv zeta
  | |- costs _ _ (match ?x with _ => _ end) => destruct x
  | |- costs _ _ (if ?b then _ else _) => destruct b
  | |- costs _ _ _ => solve [eauto with costs_db]
  | |- costs _ _ _ => costs_silent
  end.

Ltac costs_go := repeat costs_step.

(** Events that are lines printed. *)
Lemma costs_of_prints {A} f b (c : M A) :
  keeps (rel (fun e => match e with Print _ => true | _ => false end) true true) c ->
  (forall l, f (Print l) = 0) -> 0 <= b -> costs f b c.
Proof.
  intros Hk Hp Hb. eapply costs_of_keeps; [exact Hk | | exact Hb].
  intros e He. destruct e; try discriminate. apply Hp.
Qed.

End CostRules.

Import CostRules.

Module CostFacts.
Import CostRules DocumentAnalyzer.

Lemma get_headers_prints :
  keeps (rel (fun e => match e with Print _ => true | _ => false end) true true) get_headers.
Proof. unfold get_headers, validate_api_key. keeps_go. Qed.

Lemma get_headers_costs f b : (forall l, f (Print l) = 0) -> 0 <= b -> costs f b get_headers.
Proof. intros. eapply costs_of_prints; eauto using get_headers_prints. Qed.

#[export] Hint Extern 1 (costs _ _ get_headers) =>
  apply get_headers_costs; [intros ?; reflexivity | measure_simpl; lia] : costs_db.

Lemma query_files_slept b : 0 <= b -> costs slept b query_files.
Proof. intros Hb. unfold query_files. costs_go. Qed.

#[export] Hint Extern 1 (costs slept _ query_files) =>
  apply query_files_slept; measure_simpl; lia : costs_db.

Lemma query_files_requests : costs one_request 1 query_files.
Proof. unfold query_files. costs_go. Qed.

Lemma chat_requests m t mt ids msg sys a :
  costs one_request 1 (chat_with_amplify m t mt ids msg sys a).
Proof. unfold chat_with_amplify. costs_go. Qed.

(** The availability poller sleeps [wait_seconds] once per round at most. *)
Lemma da_poll_slept name m s :
  0 <= s -> forall rounds n, costs slept (Z.of_nat rounds * s) (poll name m s rounds n).
Proof.
  intros Hs. induction rounds as [ | k IH]; intros n; cbn [poll].
  - costs_go.
  - assert (0 <= Z.of_nat k * s) by (apply Z.mul_nonneg_nonneg; lia).
    rewrite Nat2Z.inj_succ, Z.mul_succ_l.
    repeat first [costs_step | (eapply costs_weaken; [apply IH | measure_simpl; lia])].
Qed.

(** So does the status poller. *)
Lemma ds_poll_slept key id m s :
  0 <= s -> forall rounds n, costs slept (Z.of_nat rounds * s) (DocSum.poll key id m s rounds n).
Proof.
  intros Hs. induction rounds as [ | k IH]; intros n; cbn [DocSum.poll].
  - costs_go.
  - assert (0 <= Z.of_nat k * s) by (apply Z.mul_nonneg_nonneg; lia).
    rewrite Nat2Z.inj_succ, Z.mul_succ_l.
    repeat first [costs_step | (eapply costs_weaken; [apply IH | measure_simpl; lia])].
Qed.

End CostFacts.

Import CostFacts.

(** ** What can be raised, and what can be returned *)

Module ErrorFacts.
Import DocumentAnalyzer.

















(** *** What is returned *)





End ErrorFacts.

Import ErrorFacts.

(** ** The program of document_analyzer.py *)

Module MainFacts.
Import DocumentAnalyzer.



End MainFacts.

(** ** The upload of document_analyzer.py, request by request *)

Module ProtocolFacts.
Import DocumentAnalyzer.

Lemma exchanges_app es1 es2 : exchanges (es1 ++ es2) = exchanges es1 ++ exchanges es2.
Proof. unfold exchanges. apply omap_app. Qed.

Lemma exchanges_offline es : forallb offline es = true -> exchanges es = [].
Proof.
  unfold exchanges. induction es as [ | e es IH]; [reflexivity |]. cbn [forallb].
  intros H. apply andb_prop in H as [He Hes].
  destruct e; try discriminate; cbn; auto.
Qed.

Lemma next_reply_responds w r :
  next_reply w = Responds r -> exists rest, network w = Responds r :: rest.
Proof. unfold next_reply. destruct (network w) as [ | rp rest]; [discriminate |]. intros ->. eauto. Qed.

Ltac dead_end :=
  let H := fresh "H" in
  intros H ?; cbn in H;
  first [discriminate H | injection H as <- _; congruence | injection H as H _; congruence].

(** When the two requests of an upload both go well, this is what has
    happened. *)
Lemma request_and_transfer_done h p q kb tags actions rag g w v w' :
  request_and_transfer h p q kb tags actions rag g w = (Ret v, w') -> v <> JNull ->
  exists r1 r2 rest url content fields mime,
    network w = Responds r1 :: Responds r2 :: rest /\
    dict_get fields "name" = Some (JStr (Path.basename (windows w) p)) /\
    dict_get fields "type" = Some (JStr mime) /\
    http_ok r1 = true /\ parsed r1 = Some v /\
    (exists s, get v "success" = Ret s /\ truthy s = true) /\
    get v "uploadUrl" = Ret url /\ truthy url = true /\
    fs w !! q = Some (FFile content) /\
    http_ok r2 = true /\
    trace w' = trace w ++
      [Http (Request POST FilesUpload h (Json (JObj [("data", JObj fields)])) (Some 50))
         (Responds r1);
       Http (Request PUT (Presigned url) [("Content-Type", mime)] (Bytes content) (Some 1000))
         (Responds r2);
       Print [Lit "✅ File uploaded successfully: "; Lit (Path.basename (windows w) p)]] /\
    network w' = rest /\ fs w' = fs w.
Proof.
  unfold request_and_transfer.
  unfold bind at 1. unfold platform_is_windows. unfold bind at 1. unfold mimetypes_guess_type.
  unfold bind at 1. rewrite send_eq. set (post := Request POST _ _ _ _).
  destruct (next_reply w) as [e | r] eqn:Hr1; [destruct e; dead_end |].
  unfold bind at 1. unfold raise_for_status, http_ok.
  destruct ((400 <=? status_code r) && (status_code r <? 600)) eqn:Hok1; [dead_end |].
  unfold ret at 1. unfold bind at 1. unfold response_json.
  destruct (parsed r) as [j | ] eqn:Hp; [| dead_end].
  unfold ret at 1. unfold bind at 1. unfold lift, get, get_default.
  destruct j as [ | b | z | z e | str | items | members]; try dead_end.
  set (success := match dict_get members "success" with Some x => x | None => JNull end).
  assert (Hs : (match dict_get members "success" with
                | Some x => Ret x | None => Ret JNull end) = Ret success).
  { subst success. now destruct (dict_get members "success"). }
  rewrite Hs.
  destruct (truthy success) eqn:Hts; cbn [negb].
  2:{ set (error := match dict_get members "error" with
                    | Some x => x | None => JStr "Unknown error" end).
      assert (He : (match dict_get members "error" with
                    | Some x => Ret x | None => Ret (JStr "Unknown error") end) = Ret error).
      { subst error. now destruct (dict_get members "error"). }
      unfold bind at 1. rewrite He. unfold bind, print, ret. dead_end. }
  set (url := match dict_get members "uploadUrl" with Some x => x | None => JNull end).
  assert (Hurl : (match dict_get members "uploadUrl" with
                  | Some x => Ret x | None => Ret JNull end) = Ret url).
  { subst url. now destruct (dict_get members "uploadUrl"). }
  unfold bind at 1. rewrite Hurl.
  destruct (truthy url) eqn:Htu; cbn [negb].
  2:{ unfold bind, print, ret. dead_end. }
  unfold bind at 1. unfold read_bytes. cbn [fs log].
  assert (Hfs : fs (consume w) = fs w) by (unfold consume; now destruct (network w)).
  assert (Hwin : windows (consume w) = windows w) by (unfold consume; now destruct (network w)).
  rewrite Hfs.
  destruct (fs w !! q) as [[content | ] | ] eqn:Hq; try dead_end.
  unfold bind at 1. rewrite send_eq. set (put := Request PUT _ _ _ _).
  set (w3 := log _ (consume w)).
  destruct (next_reply w3) as [e | r2] eqn:Hr2; [destruct e; dead_end |].
  unfold bind at 1. unfold raise_for_status.
  destruct ((400 <=? status_code r2) && (status_code r2 <? 600)) eqn:Hok2; [dead_end |].
  unfold ret, bind, print. intros [= <- <-] _.
  destruct (next_reply_responds _ _ Hr1) as (rest1 & Hn1).
  assert (Hn3 : network w3 = rest1).
  { subst w3. cbn. unfold consume. now rewrite Hn1. }
  destruct (next_reply_responds _ _ Hr2) as (rest & Hn2).
  assert (Hn : network w = Responds r :: Responds r2 :: rest) by (now rewrite Hn1, <- Hn3, Hn2).
  exists r, r2, rest, url, content.
  match goal with post := Request _ _ _ (Json (JObj [(_, JObj ?f)])) _ |- _ => exists f end.
  match goal with put := Request _ _ [(_, ?m)] _ _ |- _ => exists m end.
  split; [exact Hn |]. split; [reflexivity |]. split; [reflexivity |].
  split; [now rewrite Hok1 |]. split; [exact Hp |].
  split; [exists success; split; [exact Hs | exact Hts] |].
  split; [exact Hurl |]. split; [exact Htu |]. split; [reflexivity |].
  split; [now rewrite Hok2 |].
  split; [| split].
  - cbn [trace log]. rewrite trace_consume. subst w3. cbn [trace log]. rewrite trace_consume.
    rewrite <- !app_assoc. subst post put. reflexivity.
  - cbn [network log]. fold w3. unfold consume. now rewrite Hn2.
  - cbn [fs log]. unfold consume. destruct (network w3); cbn; exact Hfs.
Qed.


Lemma total_one_request es : total one_request es = Z.of_nat (length (exchanges es)).
Proof.
  induction es as [ | e es IH]; [reflexivity |].
  destruct e; cbn [total one_request]; rewrite IH; unfold exchanges; cbn; lia.
Qed.

Lemma request_and_transfer_requests h p q kb tags actions rag g :
  costs one_request 2 (request_and_transfer h p q kb tags actions rag g).
Proof. unfold request_and_transfer. costs_go. Qed.

Lemma upload_requests p kb tags actions rag g :
  costs one_request 2 (upload_file_to_amplify p kb tags actions rag g).
Proof.
  unfold upload_file_to_amplify, try_upload, choose_file_to_open, is_onedrive_placeholder,
    get_file_attributes_windows, hydrate_file_with_robocopy, rmtree_quietly, cleanup.
  costs_go.
  eapply (costs_bind _ 2); [apply costs_attempt | lia | intros ?; costs_go].
  destruct a0 as [[? ?] | ?]; [apply request_and_transfer_requests | costs_go].
Qed.


(** An upload that returns something else than [None] went through the
    choice of the file to open, the two requests and the clean-up. *)
Lemma da_upload_steps p kb tags actions rag g w v w' :
  has_key w ->
  upload_file_to_amplify p kb tags actions rag g w = (Ret v, w') -> v <> JNull ->
  exists dir q w1 w2 es1 es3,
    choose_file_to_open p w = (Ret (dir, q), w1) /\
    trace w1 = trace w ++ es1 /\ forallb offline es1 = true /\
    network w1 = network w /\ windows w1 = windows w /\
    request_and_transfer (headers_of w) p q kb tags actions rag g w1 = (Ret v, w2) /\
    trace w' = trace w2 ++ es3 /\ forallb offline es3 = true.
Proof.
  intros Hk. unfold upload_file_to_amplify. unfold bind at 1.
  rewrite (get_headers_with_key _ Hk).
  unfold bind at 1. unfold os_path_exists.
  destruct (negb (String.eqb p EmptyString) && bool_decide (is_Some (fs w !! p))); cbn [negb].
  2:{ unfold bind, print, ret. intros [= <- _] Hv. congruence. }
  unfold bind at 1. unfold try_upload. unfold bind at 1. unfold attempt at 1.
  pose proof (da_choose p w) as (Hset & Hc & _ & Hn1). specialize (Hn1 eq_refl).
  pose proof (da_choose_throws p w) as Hct.
  destruct (choose_file_to_open p w) as [r1 w1] eqn:Hch. cbn [snd fst] in *.
  destruct Hc as (es1 & Htr1 & Hoff1).
  unfold bind at 1. unfold attempt at 1.
  destruct r1 as [[tcd fto] | e1].
  - destruct (request_and_transfer (headers_of w) p fto kb tags actions rag g w1)
      as [r2 w2] eqn:Hrun.
    unfold bind at 1. unfold attempt at 1.
    pose proof (da_cleanup tcd) as Hcl. pose proof (da_cleanup_throws tcd) as Hclt.
    destruct r2 as [v2 | e2].
    + unfold ret at 1. unfold ret at 1. unfold bind at 1. cbn [fst snd].
      specialize (Hcl w2). specialize (Hclt w2).
      destruct (cleanup tcd w2) as [[[] | e3] w3]; cbn [fst snd] in *.
      2:{ specialize (Hclt e3 eq_refl). discriminate. }
      destruct Hcl as (_ & (es3 & Htr3 & Hoff3) & _).
      unfold lift. intros [= <- <-] Hv.
      exists tcd, fto, w1, w2, es1, es3. repeat split; auto. apply Hset.
    + assert (He2 : is_Exception e2 = true).
      { apply (da_request_and_transfer_throws (headers_of w) p fto kb tags actions rag g w1).
        now rewrite Hrun. }
      destruct (is_RequestException e2); [| rewrite He2];
        unfold bind at 1; unfold print at 1; unfold ret at 1; unfold ret at 1;
        unfold bind at 1; cbn [fst snd];
        match goal with |- context [cleanup tcd ?wx] =>
          specialize (Hclt wx);
          destruct (cleanup tcd wx) as [[[] | e3] w3]; cbn [fst snd] in *
        end;
        try (specialize (Hclt e3 eq_refl); discriminate);
        unfold lift; intros [= <- _] Hv; congruence.
  - unfold raise at 1. unfold bind at 1. unfold attempt at 1.
    specialize (Hct e1 eq_refl).
    pose proof (da_cleanup_throws None) as Hclt.
    destruct (is_RequestException e1); [| rewrite Hct];
      unfold bind at 1; unfold print at 1; unfold ret at 1; unfold ret at 1;
      unfold bind at 1; cbn [fst snd];
      match goal with |- context [cleanup None ?wx] =>
        specialize (Hclt wx);
        destruct (cleanup None wx) as [[[] | e3] w3]; cbn [fst snd] in *
      end;
      try (specialize (Hclt e3 eq_refl); discriminate);
      unfold lift; intros [= <- _] Hv; congruence.
Qed.

(** X2. The upload of document_analyzer.py never raises and sends two
    requests at most. When it returns something else than [None], it has
    sent exactly two: the metadata as a POST to /files/upload, under the
    key's headers, with the base name of the path and a time limit of 50
    seconds, and then the bytes of the file it chose to open as a PUT to
    the [uploadUrl] of the first reply, with a time limit of 1000
    seconds. Both replies carried a status below 400 or above 599, and
    what is returned is the JSON body of the first one, whose [success]
    and [uploadUrl] are truthy. *)
Theorem upload_file_to_amplify_protocol p kb tags actions rag g w :
  exists v w' es,
    upload_file_to_amplify p kb tags actions rag g w = (Ret v, w') /\
    trace w' = trace w ++ es /\
    (length (exchanges es) <= 2)%nat /\
    (v <> JNull ->
     exists r1 r2 url dir q w1 content fields mime,
       has_key w /\
       http_ok r1 = true /\ http_ok r2 = true /\ parsed r1 = Some v /\
       (exists s, get v "success" = Ret s /\ truthy s = true) /\
       get v "uploadUrl" = Ret url /\ truthy url = true /\
       choose_file_to_open p w = (Ret (dir, q), w1) /\
       fs w1 !! q = Some (FFile content) /\
       dict_get fields "name" = Some (JStr (Path.basename (windows w) p)) /\
       exchanges es =
         [(Request POST FilesUpload (headers_of w) (Json (JObj [("data", JObj fields)]))
             (Some 50), Responds r1);
          (Request PUT (Presigned url) [("Content-Type", mime)] (Bytes content) (Some 1000),
           Responds r2)]).
Proof.
  destruct (da_upload_outcome p kb tags actions rag g w) as (v & w' & es & Hrun & Htr & _).
  exists v, w', es. split; [exact Hrun |]. split; [exact Htr |]. split.
  - destruct (upload_requests p kb tags actions rag g w) as (es' & Htr' & Hle).
    rewrite Hrun in Htr'. cbn [snd] in Htr'. rewrite Htr in Htr'.
    apply app_inv_head in Htr'. subst es'. rewrite total_one_request in Hle. lia.
  - intros Hv. destruct (key_dec w) as [Hk | Hk].
    2:{ destruct (upload_without_key p kb tags actions rag g w Hk) as (? & Hrun' & _).
        congruence. }
    destruct (da_upload_steps _ _ _ _ _ _ _ _ _ Hk Hrun Hv)
      as (dir & q & w1 & w2 & es1 & es3 & Hch & Htr1 & Hoff1 & Hn1 & Hwin & Hrt & Htr3 & Hoff3).
    destruct (request_and_transfer_done _ _ _ _ _ _ _ _ _ _ _ Hrt Hv)
      as (r1 & r2 & rest & url & content & fields & mime & _ & Hname & _ & Hok1 & Hp & Hs &
          Hu & Htu & Hq & Hok2 & Htr2 & _).
    exists r1, r2, url, dir, q, w1, content, fields, mime.
    repeat (split; [first [assumption | now rewrite <- Hwin] |]).
    rewrite Htr3, Htr2, Htr1, <- !app_assoc in Htr. apply app_inv_head in Htr. subst es.
    rewrite !exchanges_app, (exchanges_offline _ Hoff1), (exchanges_offline _ Hoff3).
    reflexivity.
Qed.

End ProtocolFacts.

Import ProtocolFacts.

(** ** The time spent waiting, and the two queries *)

Module WaitFacts.
Import DocumentAnalyzer.

(** X3. With an interval that is not negative, neither poller sleeps
    longer than [max_attempts] times [wait_seconds] seconds in all (no
    time at all when [max_attempts] is zero or negative), however the
    server answers and whether the poller returns or raises. *)
Theorem pollers_sleep_within_budget max_attempts wait_seconds :
  0 <= wait_seconds ->
  (forall key file_id w, exists es,
     trace (snd (DocSum.wait_for_file_processing key file_id max_attempts wait_seconds w)) =
       trace w ++ es /\
     total slept es <= Z.max 0 max_attempts * wait_seconds) /\
  (forall file_name w, exists es,
     trace (snd (wait_for_file_processing file_name max_attempts wait_seconds w)) =
       trace w ++ es /\
     total slept es <= Z.max 0 max_attempts * wait_seconds).
Proof.
  intros Hs.
  replace (Z.max 0 max_attempts) with (Z.of_nat (Z.to_nat max_attempts)) by lia. split.
  - intros key file_id w. unfold DocSum.wait_for_file_processing.
    apply (ds_poll_slept key file_id max_attempts wait_seconds Hs).
  - intros file_name. unfold wait_for_file_processing.
    assert (0 <= Z.of_nat (Z.to_nat max_attempts) * wait_seconds)
      by (apply Z.mul_nonneg_nonneg; lia).
    change (costs slept (Z.of_nat (Z.to_nat max_attempts) * wait_seconds)
              (print [Lit "⏳ Waiting for file '"; Lit file_name; Lit "' to be processed..."];;;
               poll file_name max_attempts wait_seconds (Z.to_nat max_attempts) 1)).
    costs_step. rewrite Z.sub_0_r. apply (da_poll_slept _ _ _ Hs).
Qed.

Lemma pollers_sleep_within_budget_witness :
  0 <= 20 /\
  exists es,
    trace (snd (DocSum.wait_for_file_processing "key" (JStr "f1") 10 20 ready_after_pending)) =
      trace ready_after_pending ++ es /\
    total slept es <= Z.max 0 10 * 20.
Proof.
  split; [lia |].
  apply (proj1 (pollers_sleep_within_budget 10 20 ltac:(lia)) "key" (JStr "f1")
           ready_after_pending).
Defined.

(** The request of [chat_with_amplify]. *)
Lemma chat_exchange model t mt ids msg sys a w :
  has_key w ->
  exists rq w1 es1,
    chat_with_amplify model t mt ids msg sys a w = (Ret (queried (next_reply w)), w1) /\
    trace w1 = trace w ++ Http rq (next_reply w) :: es1 /\
    forallb offline es1 = true /\
    rq_verb rq = POST /\ rq_url rq = Chat /\ rq_headers rq = headers_of w /\
    rq_timeout rq = Some 1000 /\ data_sources rq = Some (JArr ids).
Proof.
  intros Hk. unfold chat_with_amplify. unfold bind at 1. rewrite (get_headers_with_key _ Hk).
  unfold try_except, bind at 1. rewrite send_eq.
  match goal with |- context [Http ?rq _] => exists rq; set (the_rq := rq) end.
  set (w0 := log _ (consume w)).
  assert (Hw0 : trace w0 = trace w ++ [Http the_rq (next_reply w)]).
  { subst w0. cbn. now rewrite trace_consume. }
  clearbody w0. unfold queried.
  destruct (next_reply w) as [e | r].
  - destruct e; cbn; unfold bind, print;
      (do 2 eexists; split; [reflexivity |];
       split; [cbn; rewrite Hw0, <- ?app_assoc; reflexivity | repeat split]).
  - unfold raise_for_status, http_ok, bind.
    destruct ((400 <=? status_code r) && (status_code r <? 600)); cbn.
    + unfold bind, print.
      do 2 eexists; split; [reflexivity |];
       split; [cbn; rewrite Hw0, <- ?app_assoc; reflexivity | repeat split].
    + unfold response_json. destruct (parsed r); cbn; unfold bind, print;
      (do 2 eexists; split; [reflexivity |];
       split; [cbn; rewrite Hw0, <- ?app_assoc; reflexivity | repeat split]).
Qed.

(** X4. [query_files] and [chat_with_amplify] never raise. Without a
    key they send nothing and return [None]. With a key they send one
    request, to /files/query and to /chat, and return the JSON body of
    the reply, or [None] when there was no reply, the status was an
    error or the body was not JSON. *)
Theorem queries_absorb_failures :
  (forall w, exists v w' es,
     query_files w = (Ret v, w') /\ trace w' = trace w ++ es /\
     (no_key w -> v = JNull /\ exchanges es = []) /\
     (has_key w -> v = queried (next_reply w) /\
                   exchanges es = [(query_request w, next_reply w)])) /\
  (forall model temperature max_tokens ids message system_message assistant_id w,
     exists v w' es,
       chat_with_amplify model temperature max_tokens ids message system_message
         assistant_id w = (Ret v, w') /\
       trace w' = trace w ++ es /\
       (no_key w -> v = JNull /\ exchanges es = []) /\
       (has_key w -> v = queried (next_reply w) /\
          exists rq, exchanges es = [(rq, next_reply w)] /\ rq_verb rq = POST /\
                     rq_url rq = Chat /\ rq_headers rq = headers_of w /\
                     rq_timeout rq = Some 1000 /\ data_sources rq = Some (JArr ids))).
Proof.
  split.
  - intros w. destruct (key_dec w) as [Hk | Hk].
    + destruct (query_files_with_key w Hk) as (w1 & es1 & Htr & Hoff & _ & Hq).
      exists (queried (next_reply w)), w1, (Http (query_request w) (next_reply w) :: es1).
      split; [exact Hq |]. split; [exact Htr |]. split.
      * intros [Hn | Hn]; destruct Hk as (c & k & Hk); congruence.
      * intros _. split; [reflexivity |].
        change (Http ?a ?b :: es1) with ([Http a b] ++ es1).
        rewrite exchanges_app, (exchanges_offline _ Hoff). reflexivity.
    + destruct (get_headers_without_key w Hk) as (w' & Hh & Htr & _).
      exists JNull, w', missing_key_lines.
      split; [unfold query_files, bind; rewrite Hh; reflexivity |].
      split; [exact Htr |]. split; [auto |].
      intros (c & k & Hk'). destruct Hk as [Hn | Hn]; congruence.
  - intros model t mt ids msg sys a w. destruct (key_dec w) as [Hk | Hk].
    + destruct (chat_exchange model t mt ids msg sys a w Hk)
        as (rq & w1 & es1 & Hrun & Htr & Hoff & Hrq).
      exists (queried (next_reply w)), w1, (Http rq (next_reply w) :: es1).
      split; [exact Hrun |]. split; [exact Htr |]. split.
      * intros [Hn | Hn]; destruct Hk as (c & k & Hk); congruence.
      * intros _. split; [reflexivity |]. exists rq.
        change (Http ?a ?b :: es1) with ([Http a b] ++ es1).
        rewrite exchanges_app, (exchanges_offline _ Hoff).
        split; [reflexivity | exact Hrq].
    + destruct (chat_without_key model t mt ids msg sys a w Hk) as (w' & Hrun & Htr).
      exists JNull, w', missing_key_lines.
      split; [exact Hrun |]. split; [exact Htr |]. split; [auto |].
      intros (c & k & Hk'). destruct Hk as [Hn | Hn]; congruence.
Qed.

End WaitFacts.

(** ** Placeholders and their hydration *)

Module HydrateFacts.
Import DocumentAnalyzer.

Lemma land_bit a n :
  0 <= n -> (Z.land a (2 ^ n) =? 0) = negb (Z.testbit a n).
Proof.
  intros Hn. destruct (Z.testbit a n) eqn:Hb; cbn [negb].
  - apply Z.eqb_neq. intros H.
    assert (Ht : Z.testbit (Z.land a (2 ^ n)) n = true).
    { rewrite Z.land_spec, Hb, Z.pow2_bits_true by exact Hn. reflexivity. }
    rewrite H, Z.bits_0 in Ht. discriminate.
  - apply Z.eqb_eq. apply Z.bits_inj'. intros i Hi.
    rewrite Z.land_spec, Z.bits_0, Z.pow2_bits_eqb by exact Hn.
    destruct (Z.eqb_spec n i) as [<- | Hne]; [now rewrite Hb | apply andb_false_r].
Qed.

(** X5. [is_onedrive_placeholder] never raises and does nothing to the
    world. It answers [True] exactly on Windows, when the attributes of
    the path could be read, are not 0xFFFFFFFF, and have bit 12
    (offline) or bit 14 (recall on open) set. *)
Theorem is_onedrive_placeholder_reads_two_bits path w :
  is_onedrive_placeholder path w =
    (Ret (windows w &&
          match file_attributes w path with
          | Some attrs => negb (attrs =? 0xFFFFFFFF) &&
                          (Z.testbit attrs 12 || Z.testbit attrs 14)
          | None => false
          end), w).
Proof.
  unfold is_onedrive_placeholder, get_file_attributes_windows, bind, platform_is_windows,
    GetFileAttributesW, ret, FILE_ATTRIBUTE_OFFLINE, FILE_ATTRIBUTE_RECALL_ON_OPEN.
  destruct (windows w); cbn [negb andb]; [| reflexivity].
  destruct (file_attributes w path) as [attrs | ]; [| reflexivity].
  destruct (attrs =? 0xFFFFFFFF); cbn [negb andb]; [reflexivity |].
  change 0x1000 with (2 ^ 12). change 0x4000 with (2 ^ 14).
  rewrite !land_bit by lia. rewrite !negb_involutive. reflexivity.
Qed.



End HydrateFacts.

(** ** Inputs that are not there *)

Module MissingFacts.
Import DocumentAnalyzer.

(** X7. A file that is not there. The upload of document_analyzer.py
    looks for the file first: it sends nothing and returns [None]. The
    upload of doc_sum.py sends the metadata request all the same, and
    when the reply grants an upload URL it raises the [OSError] of the
    [open] that fails, which no handler of the function takes. *)
Theorem uploads_of_a_missing_file file_path w :
  fs w !! file_path = None ->
  (forall knowledge_base tags actions rag_on group_id, exists w' es,
     upload_file_to_amplify file_path knowledge_base tags actions rag_on group_id w =
       (Ret JNull, w') /\
     trace w' = trace w ++ es /\ exchanges es = []) /\
  (forall key knowledge_base tags, exists r w' es rq,
     DocSum.upload_file_to_amplify key file_path knowledge_base tags w = (r, w') /\
     trace w' = trace w ++ es /\
     exchanges es = [(rq, next_reply w)] /\ rq_verb rq = POST /\ rq_url rq = FilesUpload /\
     (forall resp v url,
        next_reply w = Responds resp -> http_ok resp = true -> parsed resp = Some v ->
        get v "uploadUrl" = Ret url -> truthy url = true ->
        r = Raise OSError)).
Proof.
  intros Hfs. split.
  - intros kb tags actions rag g. destruct (key_dec w) as [Hk | Hk].
    + unfold upload_file_to_amplify. unfold bind at 1. rewrite (get_headers_with_key _ Hk).
      unfold bind at 1. unfold os_path_exists. rewrite Hfs.
      rewrite bool_decide_false by (intros [? ?]; discriminate).
      rewrite andb_false_r. cbn [negb]. unfold bind, print, ret.
      do 2 eexists. split; [reflexivity |]. split; reflexivity.
    + destruct (upload_without_key file_path kb tags actions rag g w Hk) as (w' & Hrun & Htr & _).
      exists w', missing_key_lines. auto.
  - intros key kb tags.
    unfold DocSum.upload_file_to_amplify, DocSum.on_request_error.
    unfold bind at 1. unfold platform_is_windows. unfold bind at 1. unfold mimetypes_guess_type.
    unfold bind at 1. unfold print at 1. unfold bind at 1. unfold attempt.
    rewrite send_eq. set (post := Request POST _ _ _ _). set (w0 := log (Print _) w).
    change (next_reply w0) with (next_reply w).
    destruct (next_reply w) as [e | r] eqn:Hnext.
    + destruct e; cbn [exn_of_net_error is_RequestException]; unfold bind, print, ret;
        cbn [fst snd];
        (do 3 eexists; exists post; split; [reflexivity |];
         split; [trace_simpl; reflexivity |]; split; [reflexivity |];
         split; [reflexivity |]; split; [reflexivity | discriminate]).
    + unfold try_except, bind at 1. unfold raise_for_status, http_ok.
      destruct ((400 <=? status_code r) && (status_code r <? 600)) eqn:Hok.
      { cbn [is_RequestException]. unfold raise, bind, print, ret.
        do 3 eexists; exists post; split; [reflexivity |];
         split; [trace_simpl; reflexivity |]; split; [reflexivity |];
         split; [reflexivity |]; split; [reflexivity |].
        intros resp v url Hr Hk Hpv Hg Ht. assert (resp = r) by congruence. subst resp.
        rewrite Hok in Hk. discriminate. }
      unfold ret at 1. unfold bind at 1. unfold response_json.
      destruct (parsed r) as [j | ] eqn:Hp.
      2:{ cbn [is_RequestException]. unfold raise, bind, print, ret.
        do 3 eexists; exists post; split; [reflexivity |];
         split; [trace_simpl; reflexivity |]; split; [reflexivity |];
         split; [reflexivity |]; split; [reflexivity |].
        intros resp v url Hr Hk Hpv Hg Ht. assert (resp = r) by congruence. subst resp.
        congruence. }
      unfold ret at 1. unfold bind at 1. unfold print at 1. unfold bind at 1. unfold lift.
      destruct (get j "uploadUrl") as [u | e] eqn:Hget.
      2:{ destruct e; cbn [is_RequestException]; unfold bind, print, ret;
            try (unfold get, get_default in Hget;
                 destruct j; try discriminate Hget;
                 destruct (dict_get _ _); discriminate Hget);
        (do 3 eexists; exists post; split; [reflexivity |];
         split; [trace_simpl; reflexivity |]; split; [reflexivity |];
         split; [reflexivity |]; split; [reflexivity |]);
        intros resp v url Hr Hk Hpv Hg Ht; assert (resp = r) by congruence; subst resp;
        congruence. }
      destruct (truthy u) eqn:Htu.
      * unfold bind at 1. unfold bind at 1. unfold print at 1. unfold bind at 1.
        unfold read_bytes. cbn [fs log]. 
        assert (Hfs' : fs (consume w0) !! file_path = None).
        { subst w0. unfold consume. cbn. destruct (network w); exact Hfs. }
        rewrite Hfs'. cbn [is_RequestException].
        do 3 eexists; exists post; split; [reflexivity |];
         split; [trace_simpl; reflexivity |]; split; [reflexivity |];
         split; [reflexivity |]; split; [reflexivity |]. reflexivity.
      * unfold bind, ret.
        do 3 eexists; exists post; split; [reflexivity |];
         split; [trace_simpl; reflexivity |]; split; [reflexivity |];
         split; [reflexivity |]; split; [reflexivity |].
        intros resp v url Hr Hk Hpv Hg Ht. assert (resp = r) by congruence. subst resp.
        congruence.
Qed.


Lemma uploads_of_a_missing_file_witness :
  fs put_fails_world !! "b.py" = None /\
  (exists w' es,
     upload_file_to_amplify "b.py" "document_analysis" JNull JNull true JNull put_fails_world =
       (Ret JNull, w') /\
     trace w' = trace put_fails_world ++ es /\ exchanges es = []) /\
  (exists w', DocSum.upload_file_to_amplify "key" "b.py" "summaries" JNull put_fails_world =
                (Raise OSError, w')).
Proof.
  assert (H : fs put_fails_world !! "b.py" = None) by (vm_compute; reflexivity).
  split; [exact H |].
  destruct (uploads_of_a_missing_file "b.py" put_fails_world H) as [H1 H2].
  split; [apply H1 |].
  destruct (H2 "key" "summaries" JNull) as (r & w' & es & rq & Hrun & _ & _ & _ & _ & Hraise).
  exists w'. rewrite Hrun. f_equal. eapply Hraise; reflexivity.
Defined.

Lemma scan_of_no_directory d w :
  (forall entries, fs w !! d <> Some (FDir entries)) ->
  fst (scan_directory_for_files d w) = Ret [].
Proof.
  intros Hno. unfold scan_directory_for_files, bind, os_path_exists, os_path_isdir.
  destruct (fs w !! d) as [[c | entries] | ] eqn:Hd.
  - cbn. rewrite ?andb_false_r, ?orb_true_r. reflexivity.
  - now destruct (Hno entries).
  - cbn. rewrite ?andb_false_r, ?orb_true_r. reflexivity.
Qed.

(** X8. Nothing to analyze. When the directory given to [main] of
    document_analyzer.py is not there or is not a directory, or when the
    scan of it finds no supported file, the program exits with status 2
    after the line that gives [No supported files found] as the reason;
    it has sent no request, and it has written and changed no file. *)
Theorem main_with_nothing_to_analyze directory output w :
  (forall entries, fs w !! directory <> Some (FDir entries)) \/
  fst (scan_directory_for_files directory w) = Ret [] ->
  exists w' es,
    main directory output w = (Raise (SystemExit 2), w') /\
    trace w' = trace w ++ es ++ [pipeline_failed "No supported files found"] /\
    exchanges es = [] /\ writes es = [] /\ fs w' = fs w.
Proof.
  intros H.
  assert (Hscan : fst (scan_directory_for_files directory w) = Ret []).
  { destruct H as [H | H]; [now apply scan_of_no_directory | exact H]. }
  clear H. unfold main, try_except. unfold bind at 1. unfold generate_organization_plan.
  unfold bind at 1. unfold print at 1. unfold bind at 1. unfold print at 1.
  unfold bind at 1. unfold print at 1. unfold bind at 1.
  set (w0 := log _ (log _ (log _ w))).
  assert (Hscan0 : fst (scan_directory_for_files directory w0) = Ret [])
    by (rewrite <- Hscan; now apply scan_result_setting).
  pose proof (da_scan directory w0) as (_ & (es1 & Htr1 & Hoff1) & Hfs1 & _).
  specialize (Hfs1 eq_refl).
  destruct (scan_directory_for_files directory w0) as [r w1]. cbn [fst snd] in *. subst r.
  unfold ret at 1. cbn. exists (log (pipeline_failed "No supported files found") w1).
  exists (banner directory output ++ es1).
  split; [reflexivity |]. split.
  - cbn [trace log]. rewrite Htr1. subst w0. cbn [trace log].
    unfold banner. rewrite <- !app_assoc. reflexivity.
  - rewrite exchanges_app, writes_app, (exchanges_offline _ Hoff1).
    rewrite (calls_no_writes _ _ Hoff1). repeat split. exact Hfs1.
Qed.

Lemma main_with_nothing_to_analyze_witness :
  ((forall entries, fs example_world !! "nowhere" <> Some (FDir entries)) \/
   fst (scan_directory_for_files "nowhere" example_world) = Ret []) /\
  exists w' es,
    main "nowhere" "out" example_world = (Raise (SystemExit 2), w') /\
    trace w' = trace example_world ++ es ++ [pipeline_failed "No supported files found"] /\
    exchanges es = [] /\ writes es = [] /\ fs w' = fs example_world.
Proof.
  assert (H : (forall entries, fs example_world !! "nowhere" <> Some (FDir entries)) \/
              fst (scan_directory_for_files "nowhere" example_world) = Ret []).
  { right. vm_compute. reflexivity. }
  split; [exact H |]. exact (main_with_nothing_to_analyze "nowhere" "out" example_world H).
Defined.

End MissingFacts.

(** ** What a whole run may cost *)

Module BudgetFacts.
Import DocumentAnalyzer.

Lemma total_prints f es :
  quiet f -> forallb (fun e => match e with Print _ => true | _ => false end) es = true ->
  total f es = 0.
Proof.
  intros Hq. induction es as [ | e es IH]; [reflexivity |]. cbn [forallb total].
  intros H. apply andb_prop in H as [He Hes]. destruct e; try discriminate.
  rewrite Hq, (IH Hes). reflexivity.
Qed.

Lemma print_found_costs f b l : quiet f -> 0 <= b -> costs f b (print_found l).
Proof.
  intros Hq Hb. induction l as [ | p l IH]; cbn [print_found].
  - now apply costs_ret.
  - eapply (costs_bind _ 0); [apply costs_print; rewrite Hq; lia | exact Hb |].
    intros _. now rewrite Z.sub_0_r.
Qed.

Lemma relative_to_costs f b start l : 0 <= b -> costs f b (relative_to start l).
Proof.
  intros Hb. apply costs_still; [| exact Hb]. intros w.
  revert w. induction l as [ | p l IH]; intros w; cbn [relative_to]; [reflexivity |].
  unfold bind at 1. unfold os_path_relpath. unfold bind at 1.
  specialize (IH w). destruct (relative_to start l w) as [[rs | e] w']; exact IH.
Qed.

Lemma scan_costs f b d : quiet f -> 0 <= b -> costs f b (scan_directory_for_files d).
Proof.
  intros Hq Hb. unfold scan_directory_for_files.
  repeat first
    [ apply print_found_costs; [exact Hq | lia]
    | match goal with
      | |- costs _ _ (bind (print_found _) _) =>
          eapply (costs_bind _ 0); [apply print_found_costs; [exact Hq | lia] | lia | intros ?;
            rewrite ?Z.sub_0_r]
      | |- costs _ _ (bind (print _) _) =>
          eapply (costs_bind _ 0); [apply costs_print; rewrite Hq; lia | lia | intros ?;
            rewrite ?Z.sub_0_r]
      | |- costs _ _ (bind (if ?b then _ else _) _) => destruct b
      | |- costs _ _ (bind _ _) =>
          eapply (costs_bind _ 0); [costs_silent | lia | intros ?; rewrite ?Z.sub_0_r]
      | |- costs _ _ (if ?b then _ else _) => destruct b
      | |- costs _ _ (ret _) => apply costs_ret; lia
      end ].
Qed.


Lemma quiet_slept : quiet slept.
Proof. intros l. reflexivity. Qed.

Lemma quiet_upload_started : quiet upload_started.
Proof. intros l. reflexivity. Qed.

Lemma quiet_one_request : quiet one_request.
Proof. intros l. reflexivity. Qed.

(** *** One upload *)

Lemma upload_started_once p kb tags actions rag g :
  costs upload_started 1 (upload_file_to_amplify p kb tags actions rag g).
Proof.
  unfold upload_file_to_amplify, try_upload, choose_file_to_open, is_onedrive_placeholder,
    get_file_attributes_windows, hydrate_file_with_robocopy, rmtree_quietly, cleanup.
  costs_go.
  eapply (costs_bind _ 1); [apply costs_attempt | lia | intros ?; costs_go].
  destruct a0 as [[? ?] | ?]; [unfold request_and_transfer; costs_go | costs_go].
Qed.

Lemma upload_slept p kb tags actions rag g :
  costs slept 0 (upload_file_to_amplify p kb tags actions rag g).
Proof.
  unfold upload_file_to_amplify, try_upload, choose_file_to_open, is_onedrive_placeholder,
    get_file_attributes_windows, hydrate_file_with_robocopy, rmtree_quietly, cleanup,
    request_and_transfer.
  costs_go.
Qed.

(** *** One wait *)

Lemma da_poll_requests name m s :
  forall rounds n, costs one_request (Z.of_nat rounds) (poll name m s rounds n).
Proof.
  induction rounds as [ | k IH]; intros n; cbn [poll].
  - costs_go.
  - rewrite Nat2Z.inj_succ. unfold Z.succ.
    costs_step.
    eapply (costs_bind _ 1); [apply query_files_requests | measure_simpl; lia |].
    intros v. apply (costs_weaken _ (Z.of_nat k)); [| measure_simpl; lia].
    assert (0 <= Z.of_nat k) by lia.
    repeat first [costs_step | (eapply costs_weaken; [apply IH | measure_simpl; lia])].
Qed.

Lemma query_files_started : costs upload_started 0 query_files.
Proof. unfold query_files. costs_go. Qed.

Lemma da_poll_started name m s :
  forall rounds n, costs upload_started 0 (poll name m s rounds n).
Proof.
  induction rounds as [ | k IH]; intros n; cbn [poll].
  - costs_go.
  - costs_step.
    eapply (costs_bind _ 0); [apply query_files_started | measure_simpl; lia |].
    intros v. apply (costs_weaken _ 0); [| measure_simpl; lia].
    repeat first [costs_step | (eapply costs_weaken; [apply IH | measure_simpl; lia])].
Qed.

Lemma wait_requests name :
  costs one_request 2 (wait_for_file_processing name 2 20).
Proof.
  unfold wait_for_file_processing. costs_step.
  eapply costs_weaken; [apply (da_poll_requests name 2 20 2 1) | measure_simpl; lia].
Qed.

Lemma wait_started name :
  costs upload_started 0 (wait_for_file_processing name 2 20).
Proof.
  unfold wait_for_file_processing. costs_step.
  eapply costs_weaken; [apply da_poll_started | measure_simpl; lia].
Qed.

Lemma wait_slept name :
  costs slept 40 (wait_for_file_processing name 2 20).
Proof.
  unfold wait_for_file_processing. costs_step.
  eapply costs_weaken; [apply (da_poll_slept name 2 20 ltac:(lia) 2 1) | measure_simpl; lia].
Qed.

(** *** The uploads of a run: [a] for an upload and [b] for a wait make
    [a + b] for each file. *)

Lemma upload_each_costs f a b :
  0 <= a -> 0 <= b ->
  (forall p kb tags actions rag g, costs f a (upload_file_to_amplify p kb tags actions rag g)) ->
  (forall name, costs f b (wait_for_file_processing name 2 20)) ->
  forall l ids, costs f (Z.of_nat (length l) * (a + b)) (upload_each l ids).
Proof.
  intros Ha Hb Hup Hwait. induction l as [ | p l IH]; intros ids; cbn [upload_each length].
  - apply costs_ret. lia.
  - rewrite Nat2Z.inj_succ. unfold Z.succ.
    assert (0 <= Z.of_nat (length l) * (a + b)) by (apply Z.mul_nonneg_nonneg; lia).
    eapply (costs_bind _ a); [apply Hup | lia |]. intros v.
    destruct (truthy v).
    + eapply (costs_bind _ 0); [costs_silent | lia |]. intros win. rewrite Z.sub_0_r.
      eapply (costs_bind _ b); [apply Hwait | lia |]. intros file_id.
      destruct (truthy file_id); (eapply costs_weaken; [apply IH | lia]).
    + eapply costs_weaken; [apply IH | lia].
Qed.


Lemma save_results_costs f out reply :
  quiet f -> (forall p text, f (Wrote p text) <= 0) -> costs f 0 (save_results out reply).
Proof.
  intros Hq Hw. unfold save_results.
  eapply (costs_bind _ 0); [costs_silent | lia |]. intros win. rewrite Z.sub_0_r.
  eapply (costs_bind _ 0); [costs_silent | lia |]. intros _. rewrite Z.sub_0_r.
  eapply (costs_bind _ 0); [apply costs_lift; lia | lia |]. intros v. rewrite Z.sub_0_r.
  eapply (costs_bind _ 0); [apply costs_write_text; [lia | intros; apply Hw] | lia |].
  intros _. rewrite Z.sub_0_r.
  eapply (costs_bind _ 0); [apply costs_print; rewrite Hq; lia | lia |].
  intros _. apply costs_ret. lia.
Qed.

(** The pipeline from the uploads on: the files, then the pause of
    thirty seconds and the chat request. *)
Lemma plan_for_costs f a b c s :
  quiet f -> 0 <= a -> 0 <= b -> 0 <= c -> 0 <= s ->
  f (Sleep 30) <= s -> (forall p text, f (Wrote p text) <= 0) ->
  (forall p kb tags actions rag g, costs f a (upload_file_to_amplify p kb tags actions rag g)) ->
  (forall name, costs f b (wait_for_file_processing name 2 20)) ->
  (forall m t mt ids msg sys assistant, costs f c (chat_with_amplify m t mt ids msg sys assistant)) ->
  forall d out model files,
    costs f (Z.of_nat (length files) * (a + b) + s + c) (plan_for d out model files).
Proof.
  intros Hq Ha Hb Hc Hs Hsleep Hw Hup Hwait Hchat d out model files. unfold plan_for.
  assert (0 <= Z.of_nat (length files) * (a + b)) by (apply Z.mul_nonneg_nonneg; lia).
  eapply (costs_bind _ (Z.of_nat (length files) * (a + b)));
    [now apply upload_each_costs | lia |].
  intros ids. apply (costs_weaken _ (s + c)); [| lia].
  destruct ids as [ | id ids]; [apply costs_ret; lia |].
  eapply (costs_bind _ 0); [apply relative_to_costs; lia | lia |].
  intros rel. rewrite Z.sub_0_r.
  eapply (costs_bind _ 0); [apply costs_print; rewrite Hq; lia | lia |].
  intros _. rewrite Z.sub_0_r.
  eapply (costs_bind _ s); [apply costs_sleep; [lia | exact Hsleep] | lia |].
  intros _. apply (costs_weaken _ c); [| lia].
  eapply (costs_bind _ 0); [apply costs_print; rewrite Hq; lia | lia |].
  intros _. rewrite Z.sub_0_r.
  eapply (costs_bind _ c); [apply Hchat | lia |].
  intros v. rewrite Z.sub_diag.
  destruct (negb (truthy v)); [apply costs_ret; lia | now apply save_results_costs].
Qed.

Lemma chat_started m t mt ids msg sys a :
  costs upload_started 0 (chat_with_amplify m t mt ids msg sys a).
Proof. unfold chat_with_amplify. costs_go. Qed.

Lemma chat_slept m t mt ids msg sys a :
  costs slept 0 (chat_with_amplify m t mt ids msg sys a).
Proof. unfold chat_with_amplify. costs_go. Qed.

(** The files [select] keeps. *)
Lemma select_length max scanned w files w' :
  select max scanned w = (Ret files, w') ->
  Z.of_nat (length files) <= files_at_most max (length scanned) /\
  exists es, trace w' = trace w ++ es /\
             forallb (fun e => match e with Print _ => true | _ => false end) es = true.
Proof.
  unfold select, files_at_most. destruct max as [n | ].
  - destruct (negb (n =? 0) && (n <? Z.of_nat (length scanned))) eqn:Hcap.
    + unfold bind, print, ret. intros [= <- <-]. split.
      * apply andb_prop in Hcap as [_ Hlt]. apply Z.ltb_lt in Hlt.
        unfold slice_to. destruct (Z.leb_spec 0 n); rewrite length_take.
        -- destruct (Z.ltb_spec 0 n); lia.
        -- destruct (Z.ltb_spec 0 n); lia.
      * eexists [_]. split; reflexivity.
    + intros [= <- <-]. split.
      * destruct (Z.ltb_spec 0 n); [| lia].
        apply andb_false_iff in Hcap as [Hz | Hlt].
        -- apply negb_false_iff, Z.eqb_eq in Hz. lia.
        -- apply Z.ltb_ge in Hlt. lia.
      * exists []. now rewrite app_nil_r.
  - intros [= <- <-]. split; [lia |]. exists []. now rewrite app_nil_r.
Qed.

(** The whole pipeline under a measure. *)
Lemma generate_costs f a b c s d out max model w scanned :
  quiet f -> 0 <= a -> 0 <= b -> 0 <= c -> 0 <= s ->
  f (Sleep 30) <= s -> (forall p text, f (Wrote p text) <= 0) ->
  (forall p kb tags actions rag g, costs f a (upload_file_to_amplify p kb tags actions rag g)) ->
  (forall name, costs f b (wait_for_file_processing name 2 20)) ->
  (forall m t mt ids msg sys assistant, costs f c (chat_with_amplify m t mt ids msg sys assistant)) ->
  fst (scan_directory_for_files d w) = Ret scanned ->
  exists es,
    trace (snd (generate_organization_plan d out max model w)) = trace w ++ es /\
    total f es <= files_at_most max (length scanned) * (a + b) + s + c.
Proof.
  intros Hq Ha Hb Hc Hs Hsleep Hw Hup Hwait Hchat Hscan.
  assert (Hk : 0 <= files_at_most max (length scanned)).
  { unfold files_at_most. destruct max as [n | ]; [destruct (Z.ltb_spec 0 n) |]; lia. }
  assert (0 <= files_at_most max (length scanned) * (a + b))
    by (apply Z.mul_nonneg_nonneg; lia).
  rewrite generate_organization_plan_eq.
  unfold bind at 1. unfold print at 1. unfold bind at 1. unfold print at 1.
  unfold bind at 1. unfold print at 1. unfold bind at 1.
  set (w0 := log _ (log _ (log _ w))).
  assert (Htr0 : trace w0 = trace w ++ banner d out).
  { subst w0. cbn [trace log]. rewrite <- !app_assoc. reflexivity. }
  pose proof (scan_result_setting d w0 w eq_refl eq_refl) as Hres. rewrite Hscan in Hres.
  clearbody w0.
  destruct (scan_costs f 0 d Hq (Z.le_refl 0) w0) as (es1 & Htr1 & Ht1).
  destruct (scan_directory_for_files d w0) as [r w1]. cbn [fst snd] in *. subst r.
  assert (Hb0 : total f (banner d out) = 0) by (cbn; rewrite !Hq; reflexivity).
  assert (Ht1' : 0 <= total f es1 -> total f es1 = 0) by lia.
  destruct scanned as [ | p0 rest].
  { exists (banner d out ++ es1). unfold ret. cbn [snd].
    split; [rewrite Htr1, Htr0, <- app_assoc; reflexivity |]. rewrite total_app. lia. }
  unfold bind at 1.
  destruct (select max (p0 :: rest) w1) as [[files | e] w2] eqn:Hsel.
  2:{ exfalso. destruct (select_runs max (p0 :: rest) w1) as (? & ? & ? & Hsel' & _).
      congruence. }
  destruct (select_length _ _ _ _ _ Hsel) as (Hlen & es2 & Htr2 & Hpr2).
  destruct (plan_for_costs f a b c s Hq Ha Hb Hc Hs Hsleep Hw Hup Hwait Hchat d out model files w2)
    as (es3 & Htr3 & Ht3).
  exists (banner d out ++ es1 ++ es2 ++ es3).
  split; [rewrite Htr3, Htr2, Htr1, Htr0, <- !app_assoc; reflexivity |].
  rewrite !total_app, Hb0, (total_prints f es2 Hq Hpr2).
  assert (Z.of_nat (length files) * (a + b) <=
          files_at_most max (length (p0 :: rest)) * (a + b))
    by (apply Z.mul_le_mono_nonneg_r; lia).
  lia.
Qed.


(** X9. The budget of [generate_organization_plan]. With [k] the value
    of [max_files] when that is positive, and the number of files the
    scan finds when that is less or when [max_files] is zero, negative
    or [None], a run starts at most [k] uploads, sends at most [4 k + 1]
    requests (two for an upload, two for the wait that follows it, one
    to the chat) and sleeps at most [40 k + 30] seconds, whatever the
    server answers and however the run ends. *)
Theorem organization_plan_budget directory output max_files model w scanned :
  fst (scan_directory_for_files directory w) = Ret scanned ->
  exists es,
    trace (snd (generate_organization_plan directory output max_files model w)) =
      trace w ++ es /\
    total upload_started es <= files_at_most max_files (length scanned) /\
    Z.of_nat (length (exchanges es)) <= 4 * files_at_most max_files (length scanned) + 1 /\
    total slept es <= 40 * files_at_most max_files (length scanned) + 30.
Proof.
  intros Hscan.
  destruct (generate_costs upload_started 1 0 0 0 directory output max_files model w scanned)
    as (es & Htr & Hup); auto using quiet_upload_started, upload_started_once, wait_started,
      chat_started; try lia; try (intros; cbn; lia).
  destruct (generate_costs one_request 2 2 1 0 directory output max_files model w scanned)
    as (es' & Htr' & Hreq); auto using quiet_one_request, upload_requests, wait_requests,
      chat_requests; try lia; try (intros; cbn; lia).
  destruct (generate_costs slept 0 40 0 30 directory output max_files model w scanned)
    as (es'' & Htr'' & Hsl); auto using quiet_slept, upload_slept, wait_slept,
      chat_slept; try lia; try (intros; cbn; lia).
  rewrite Htr in Htr', Htr''. apply app_inv_head in Htr', Htr''. subst es' es''.
  exists es. split; [exact Htr |]. rewrite <- total_one_request. repeat split; lia.
Qed.

Lemma organization_plan_budget_witness :
  fst (scan_directory_for_files "proj" three_files_world) =
    Ret ["proj/a.py"; "proj/b.txt"; "proj/c.md"] /\
  exists es,
    trace (snd (generate_organization_plan "proj" "out" (Some 2) "gpt-4o-mini"
                  three_files_world)) = trace three_files_world ++ es /\
    total upload_started es <= 2 /\
    Z.of_nat (length (exchanges es)) <= 9 /\
    total slept es <= 110.
Proof.
  assert (H : fst (scan_directory_for_files "proj" three_files_world) =
              Ret ["proj/a.py"; "proj/b.txt"; "proj/c.md"]) by (vm_compute; reflexivity).
  split; [exact H |].
  exact (organization_plan_budget "proj" "out" (Some 2) "gpt-4o-mini" three_files_world _ H).
Defined.

End BudgetFacts.

Import BudgetFacts.

(** ** The program of doc_sum.py *)

Module DocSumFacts.









(** *** Requests and seconds *)











End DocSumFacts.

(** ** The files of the user *)

Module FilesFacts.
Import DocumentAnalyzer.



(** *** doc_sum.py reads and never writes *)




(** *** document_analyzer.py writes its plan and nothing else *)
















End FilesFacts.

(** ** What every request carries *)

Module RequestFacts.
Import DocumentAnalyzer.

(** *** Time limits *)

(** Events off the network belong to any class of requests. *)
Ltac timed_incl :=
  let e := fresh "e" in
  let He := fresh "He" in
  intros e He; destruct e; try reflexivity; cbv in He; discriminate He.

Ltac by_offline lemma :=
  eapply keeps_weaken; [apply lemma | timed_incl | intros; congruence | intros; congruence].

Lemma upload_timed p kb tags actions rag g :
  keeps (rel (timed 1000) false false) (upload_file_to_amplify p kb tags actions rag g).
Proof.
  unfold upload_file_to_amplify, try_upload, request_and_transfer.
  keeps_go; first [by_offline da_get_headers | by_offline da_choose | by_offline da_cleanup].
Qed.

Lemma query_files_timed : keeps (rel (timed 1000) false false) query_files.
Proof. unfold query_files. keeps_go. by_offline da_get_headers. Qed.

Lemma chat_timed m t mt ids msg sys a :
  keeps (rel (timed 1000) false false) (chat_with_amplify m t mt ids msg sys a).
Proof. unfold chat_with_amplify. keeps_go. by_offline da_get_headers. Qed.

Lemma poll_timed name m s rounds : forall n,
  keeps (rel (timed 1000) false false) (poll name m s rounds n).
Proof.
  induction rounds as [ | k IH]; intros n; cbn [poll]; keeps_go;
    first [apply IH | apply query_files_timed].
Qed.

Lemma upload_each_timed l : forall ids,
  keeps (rel (timed 1000) false false) (upload_each l ids).
Proof.
  induction l as [ | p l IH]; intros ids; cbn [upload_each]; keeps_go;
    first [apply IH | apply upload_timed | unfold wait_for_file_processing; keeps_go;
                                           apply poll_timed].
Qed.

Lemma keeps_write_text allowed b2 p v :
  (forall text, allowed (Wrote p text) = true) ->
  keeps (rel allowed false b2) (write_text p v).
Proof.
  intros H w. unfold write_text.
  destruct (fs w !! p) as [[c | entries] | ]; try apply rel_refl;
    destruct v; cbn [snd];
    first [ eapply rel_trans; [apply rel_set_fs | apply rel_log; apply H]
          | apply rel_set_fs ].
Qed.

Lemma main_timed d out : keeps (rel (timed 1000) false false) (main d out).
Proof.
  unfold main, generate_organization_plan, save_results.
  keeps_go;
    first [ by_offline da_scan | apply upload_each_timed | by_offline da_relative_to
          | apply chat_timed | apply keeps_write_text; intros ?; reflexivity ].
Qed.


Lemma ds_upload_timed key p kb tags :
  keeps (rel (timed_but_transfers 120) true false) (DocSum.upload_file_to_amplify key p kb tags).
Proof. unfold DocSum.upload_file_to_amplify, DocSum.on_request_error. keeps_go. Qed.

Lemma ds_poll_timed key id m s rounds : forall n,
  keeps (rel (timed_but_transfers 120) true false) (DocSum.poll key id m s rounds n).
Proof.
  induction rounds as [ | k IH]; intros n; cbn [DocSum.poll]; keeps_go; apply IH.
Qed.

Lemma ds_main_timed argv :
  keeps (rel (timed_but_transfers 120) true false) (DocSum.main argv).
Proof.
  unfold DocSum.main, DocSum.summarize_document, DocSum.on_request_error.
  keeps_go; first [apply ds_upload_timed | apply ds_poll_timed].
Qed.

Lemma timed_limit limit rq rp :
  timed limit (Http rq rp) = true ->
  exists t, rq_timeout rq = Some t /\ 0 < t <= limit.
Proof.
  cbn. destruct (rq_timeout rq) as [t | ]; [| discriminate].
  intros H. apply andb_prop in H as [H1 H2]. exists t. split; [reflexivity | lia].
Qed.

(** X12. Every request of document_analyzer.py carries a time limit,
    of 1000 seconds at most. In doc_sum.py every request to the API
    carries one, of 120 seconds at most, and the transfer of the bytes
    to the presigned URL carries none. *)
Theorem requests_carry_time_limits :
  (forall directory output w, exists es,
     trace (snd (main directory output w)) = trace w ++ es /\
     forall rq rp, Http rq rp ∈ es ->
       exists t, rq_timeout rq = Some t /\ 0 < t <= 1000) /\
  (forall argv w, exists es,
     trace (snd (DocSum.main argv w)) = trace w ++ es /\
     forall rq rp, Http rq rp ∈ es ->
       match rq_url rq with
       | Presigned _ => rq_timeout rq = None
       | _ => exists t, rq_timeout rq = Some t /\ 0 < t <= 120
       end).
Proof.
  split.
  - intros d out w. destruct (main_timed d out w) as (_ & (es & Htr & Hall) & _).
    exists es. split; [exact Htr |]. intros rq rp Hin.
    rewrite forallb_forall in Hall. apply (timed_limit 1000 rq rp).
    apply Hall. now apply list_elem_of_In.
  - intros argv w. destruct (ds_main_timed argv w) as (_ & (es & Htr & Hall) & _).
    exists es. split; [exact Htr |]. intros rq rp Hin.
    rewrite forallb_forall in Hall. apply list_elem_of_In in Hin. specialize (Hall _ Hin).
    unfold timed_but_transfers in Hall.
    destruct (rq_url rq); try (now apply (timed_limit 120 rq rp)).
    now apply bool_decide_eq_true in Hall.
Qed.

(** *** The key *)

Section From.

Context (I : world -> Prop) (allowed : event -> bool) (b1 b2 : bool).
Hypothesis I_setting : forall w w', same_setting w w' -> I w -> I w'.

Lemma from_keeps {A} (c : M A) : keeps (rel allowed b1 b2) c -> keeps_from I (rel allowed b1 b2) c.
Proof. intros H w _. apply H. Qed.

Lemma from_bind {A B} (c : M A) (k : A -> M B) :
  keeps_from I (rel allowed b1 b2) c -> (forall a, keeps_from I (rel allowed b1 b2) (k a)) ->
  keeps_from I (rel allowed b1 b2) (bind c k).
Proof.
  intros Hc Hk w Hw. unfold bind. specialize (Hc w Hw).
  destruct (c w) as [[a | e] w1]; cbn [snd] in *; [| exact Hc].
  eapply rel_trans; [exact Hc |]. apply Hk. eapply I_setting; [apply Hc | exact Hw].
Qed.

(** A first step whose outcome is known in the worlds of [I]. *)
Lemma from_known {A B} (c : M A) (k : A -> M B) (a : A) :
  (forall w, I w -> c w = (Ret a, w)) ->
  keeps_from I (rel allowed b1 b2) (k a) ->
  keeps_from I (rel allowed b1 b2) (bind c k).
Proof. intros Hc Hk w Hw. unfold bind. rewrite (Hc w Hw). cbn [snd]. now apply Hk. Qed.

Lemma from_try_except {A} (c : M A) catches (h : exn -> M A) :
  keeps_from I (rel allowed b1 b2) c -> (forall e, keeps_from I (rel allowed b1 b2) (h e)) ->
  keeps_from I (rel allowed b1 b2) (try_except c catches h).
Proof.
  intros Hc Hh w Hw. unfold try_except. specialize (Hc w Hw).
  destruct (c w) as [[a | e] w1]; cbn [snd] in *; [exact Hc |].
  destruct (catches e); [| exact Hc].
  eapply rel_trans; [exact Hc |]. apply Hh. eapply I_setting; [apply Hc | exact Hw].
Qed.

End From.

Section Keyed.

Variables (c : ascii) (k : string).

Abbreviation the_key := (String c k).
Abbreviation with_key := (fun w => environ_key w = Some the_key).

Lemma with_key_setting w w' : same_setting w w' -> with_key w -> with_key w'.
Proof. intros (H & _) Hw. cbn in *. congruence. Qed.

Lemma get_headers_keyed w :
  with_key w ->
  get_headers w =
    (Ret (Some [("Content-Type", "application/json");
                ("Authorization", "Bearer " +:+ the_key)]), w).
Proof.
  intros Hw. rewrite get_headers_with_key by (exists c, k; exact Hw).
  unfold headers_of. now rewrite Hw.
Qed.

Ltac keyed_ok :=
  unfold keyed; cbn [rq_url rq_headers]; apply bool_decide_eq_true; reflexivity.

Ltac keyed_send := apply keeps_send; intros ?; keyed_ok.

Ltac keyed_go := keeps_go; try keyed_send.

Ltac from_step :=
  match goal with
  | |- keeps_from _ _ (bind get_headers _) =>
      eapply from_known; [intros ? ?; now apply get_headers_keyed | cbv beta iota]
  | |- keeps_from _ _ (bind _ _) => apply from_bind; [exact with_key_setting | | intros ?]
  | |- keeps_from _ _ (try_except _ _ _) =>
      apply from_try_except; [exact with_key_setting | | intros ?]
  | |- keeps_from _ _ (let _ := _ in _) => cbv zeta
  | |- keeps_from _ _ (match ?x with _ => _ end) => destruct x
  | |- keeps_from _ _ (if ?b then _ else _) => destruct b
  | |- keeps_from _ _ _ => solve [eauto]
  | |- keeps_from _ _ _ => apply from_keeps; solve [keyed_go]
  end.

Ltac from_go := repeat from_step.

Lemma query_files_keyed :
  keeps_from with_key (rel (keyed the_key) false false) query_files.
Proof. unfold query_files. from_go. Qed.

Lemma chat_keyed m t mt ids msg sys a :
  keeps_from with_key (rel (keyed the_key) false false) (chat_with_amplify m t mt ids msg sys a).
Proof. unfold chat_with_amplify. from_go. Qed.

Lemma try_upload_keyed p kb tags actions rag g :
  keeps (rel (keyed the_key) false false)
    (try_upload [("Content-Type", "application/json"); ("Authorization", "Bearer " +:+ the_key)]
       p kb tags actions rag g).
Proof.
  unfold try_upload, request_and_transfer.
  keeps_go; first [by_offline da_choose | keyed_send].
Qed.

Lemma upload_keyed p kb tags actions rag g :
  keeps_from with_key (rel (keyed the_key) false false)
    (upload_file_to_amplify p kb tags actions rag g).
Proof.
  unfold upload_file_to_amplify. pose proof (try_upload_keyed p kb tags actions rag g).
  from_go; apply from_keeps; first [assumption | by_offline da_cleanup].
Qed.

Lemma poll_keyed name m s rounds : forall n,
  keeps_from with_key (rel (keyed the_key) false false) (poll name m s rounds n).
Proof.
  pose proof query_files_keyed.
  induction rounds as [ | r IH]; intros n; cbn [poll]; from_go.
Qed.

Lemma upload_each_keyed l : forall ids,
  keeps_from with_key (rel (keyed the_key) false false) (upload_each l ids).
Proof.
  induction l as [ | p l IH]; intros ids; cbn [upload_each].
  - from_go.
  - pose proof upload_keyed. pose proof poll_keyed. unfold wait_for_file_processing. from_go.
Qed.

Lemma main_keyed d out :
  keeps_from with_key (rel (keyed the_key) false false) (main d out).
Proof.
  unfold main, generate_organization_plan, save_results.
  pose proof upload_each_keyed. pose proof chat_keyed.
  from_go; apply from_keeps;
    first [ by_offline da_scan | by_offline da_relative_to
          | apply keeps_write_text; intros ?; reflexivity ].
Qed.

Lemma ds_upload_keyed p kb tags :
  keeps (rel (keyed the_key) true false) (DocSum.upload_file_to_amplify the_key p kb tags).
Proof. unfold DocSum.upload_file_to_amplify, DocSum.on_request_error. keyed_go. Qed.

Lemma ds_poll_keyed id m s rounds : forall n,
  keeps (rel (keyed the_key) true false) (DocSum.poll the_key id m s rounds n).
Proof.
  induction rounds as [ | r IH]; intros n; cbn [DocSum.poll]; keyed_go; apply IH.
Qed.

Lemma ds_summarize_keyed p :
  keeps (rel (keyed the_key) true false) (DocSum.summarize_document the_key p).
Proof.
  unfold DocSum.summarize_document, DocSum.on_request_error.
  keeps_go; first [apply ds_upload_keyed | apply ds_poll_keyed | keyed_send].
Qed.

Lemma ds_main_keyed argv :
  keeps_from with_key (rel (keyed the_key) true false) (DocSum.main argv).
Proof.
  unfold DocSum.main. eapply from_known; [intros w Hw; unfold os_getenv_key; now rewrite Hw |].
  cbv beta iota. pose proof ds_summarize_keyed.
  from_go; apply from_keeps; first [apply H | keeps_go].
Qed.

Lemma keyed_header rq rp :
  keyed the_key (Http rq rp) = true ->
  match rq_url rq with
  | Presigned _ => header "Authorization" (rq_headers rq) = None
  | _ => header "Authorization" (rq_headers rq) = Some ("Bearer " +:+ the_key)
  end.
Proof. unfold keyed. destruct (rq_url rq); apply bool_decide_eq_true. Qed.

End Keyed.

(** X13. Where the key goes. With a key in the environment, every
    request of either program to the API carries the header
    [Authorization: Bearer] followed by that key, and a request to a
    presigned URL, which goes to the storage, carries no
    [Authorization] header. *)
Theorem key_goes_to_the_api_only c k w :
  environ_key w = Some (String c k) ->
  (forall directory output, exists es,
     trace (snd (main directory output w)) = trace w ++ es /\
     forall rq rp, Http rq rp ∈ es ->
       match rq_url rq with
       | Presigned _ => header "Authorization" (rq_headers rq) = None
       | _ => header "Authorization" (rq_headers rq) = Some ("Bearer " +:+ String c k)
       end) /\
  (forall argv, exists es,
     trace (snd (DocSum.main argv w)) = trace w ++ es /\
     forall rq rp, Http rq rp ∈ es ->
       match rq_url rq with
       | Presigned _ => header "Authorization" (rq_headers rq) = None
       | _ => header "Authorization" (rq_headers rq) = Some ("Bearer " +:+ String c k)
       end).
Proof.
  intros Hk. split.
  - intros d out. destruct (main_keyed c k d out w Hk) as (_ & (es & Htr & Hall) & _).
    exists es. split; [exact Htr |]. intros rq rp Hin. apply (keyed_header c k rq rp).
    rewrite forallb_forall in Hall. apply Hall. now apply list_elem_of_In.
  - intros argv. destruct (ds_main_keyed c k argv w Hk) as (_ & (es & Htr & Hall) & _).
    exists es. split; [exact Htr |]. intros rq rp Hin. apply (keyed_header c k rq rp).
    rewrite forallb_forall in Hall. apply Hall. now apply list_elem_of_In.
Qed.

Lemma key_goes_to_the_api_only_witness :
  environ_key three_files_world = Some "key" /\
  exists es,
    trace (snd (main "proj" "out" three_files_world)) = trace three_files_world ++ es /\
    forall rq rp, Http rq rp ∈ es ->
      match rq_url rq with
      | Presigned _ => header "Authorization" (rq_headers rq) = None
      | _ => header "Authorization" (rq_headers rq) = Some "Bearer key"
      end.
Proof.
  split; [reflexivity |].
  exact (proj1 (key_goes_to_the_api_only "k" "ey" three_files_world eq_refl) "proj" "out").
Defined.

End RequestFacts.
